(** * DataStep: outlier detection and dataset comparison

    A shallow embedding of [src/outlier_detector.py] and
    [src/data_comparison.py], with the column check of
    [src/data_loader.py] and the rules of [src/business_validator.py].
    Python values, exceptions and the polars operations the classes call
    are modelled first; the methods of [OutlierDetector], [DataComparison],
    [DataLoader] and [BusinessValidator] follow, one definition per
    method, and the properties come last.

    A [Float64] cell is held as the rational it denotes; the arithmetic
    the methods do on floats is IEEE 754 binary64, every operation
    rounded, as the Standard Library specifies it ([SpecFloat]).  NaN and
    the infinities can come out of that arithmetic but are no cells of a
    frame here: the frames of this development hold finite numbers.  Row
    counts are unbounded integers.  polars is modelled as its 1.x
    releases document it (the code calls [collect_schema], which they
    introduced). *)

From Stdlib Require Import List ListDec String ZArith QArith Qround Bool Lia.
From Stdlib Require Import Permutation Lqa SpecFloat.
Import ListNotations.

Local Open Scope string_scope.
Local Open Scope list_scope.
Local Open Scope Z_scope.

(** ** Python: exceptions, results, values *)

Module Py.

(** The exceptions that can leave the modelled methods.  [ValueError] is
    the one the repository raises itself; its payload is the formatted
    message, kept structured. *)
Inductive message : Type :=
| PrimaryKeysNotFound (missing_keys : list string) (year_label : string)
    (* f"Primary keys {missing_keys} not found in {year_label} year dataset" *)
| DuplicatePrimaryKeys (year_label : string)
    (* f"Duplicate primary keys found in {year_label} year dataset" *)
| ColumnIsEmpty (column : string)
    (* f"Column {column} is empty" *)
| PrimaryKeysMustBeSpecified.
    (* "Primary keys must be specified in config" *)

Inductive exn : Type :=
| ValueError (msg : message)
| ZeroDivisionError            (* int / int with a zero divisor *)
| TypeError                    (* float(None) *)
| ComputeError                 (* polars: an argument the computation rejects *)
| InvalidOperationError        (* polars: not supported for the dtype *)
| ColumnNotFoundError (column : string)
| DuplicateError.              (* polars: two columns of one name *)

Inductive result (A : Type) : Type :=
| Ok (a : A)
| Raise (e : exn).
Arguments Ok {A} a.
Arguments Raise {A} e.

Definition bind {A B : Type} (m : result A) (k : A -> result B) : result B :=
  match m with
  | Ok a => k a
  | Raise e => Raise e
  end.

(** [try: body / except Exception: handler]. *)
Definition try_except {A : Type} (body : result A) (handler : exn -> result A)
  : result A :=
  match body with
  | Ok a => Ok a
  | Raise e => handler e
  end.

Fixpoint mapM {A B : Type} (f : A -> result B) (l : list A) : result (list B) :=
  match l with
  | [] => Ok []
  | x :: t =>
      bind (f x) (fun y => bind (mapM f t) (fun ys => Ok (y :: ys)))
  end.

(** Time unit of a polars [Datetime] column. *)
Inductive time_unit : Type := Ms | Us | Ns.

(** What a cell of a polars frame is: null, or a value of the column's
    dtype.  A [Date] cell is its number of days since 1970-01-01, a
    [Datetime] cell its number of ticks of the column's time unit since
    the epoch (the physical representation polars casts to [Int64]). *)
Inductive value : Type :=
| PyNone
| PyBool (b : bool)
| PyInt (z : Z)
| PyFloat (q : Q)
| PyStr (s : string)
| PyDate (days : Z)
| PyDatetime (tu : time_unit) (ticks : Z).

Definition time_unit_eq_dec (a b : time_unit) : {a = b} + {a <> b}.
Proof. decide equality. Defined.

Definition Q_eq_dec (a b : Q) : {a = b} + {a <> b}.
Proof. decide equality; [apply Pos.eq_dec | apply Z.eq_dec]. Defined.

Definition value_eq_dec (a b : value) : {a = b} + {a <> b}.
Proof.
  decide equality;
    first [ apply Bool.bool_dec | apply Z.eq_dec | apply Q_eq_dec
          | apply string_dec | apply time_unit_eq_dec ].
Defined.

Definition is_none (v : value) : bool :=
  match v with PyNone => true | _ => false end.

(** [isinstance(v, (int, float))]: [bool] is a subclass of [int]. *)
Definition isinstance_int_float (v : value) : bool :=
  match v with
  | PyBool _ | PyInt _ | PyFloat _ => true
  | _ => false
  end.

(** [isinstance(v, (pl.Date, pl.Datetime))].  [pl.Date] and [pl.Datetime]
    are polars dtype classes; their instances are dtype objects such as
    [pl.Datetime("us")].  A cell read out of a frame is a Python
    [datetime.date] or [datetime.datetime], which is an instance of
    neither, so the test is false for every cell value. *)
Definition isinstance_pl_Date_Datetime (v : value) : bool :=
  match v with
  | PyNone | PyBool _ | PyInt _ | PyFloat _ | PyStr _
  | PyDate _ | PyDatetime _ _ => false
  end.

(** [a / b] on Python ints (true division). *)
Definition truediv (a b : Z) : result Q :=
  if b =? 0 then Raise ZeroDivisionError
  else Ok (inject_Z a / inject_Z b)%Q.

(** [float(x)] on the cell of a one-row aggregate: [float(None)] raises. *)
Definition float (x : option Q) : result Q :=
  match x with
  | Some q => Ok q
  | None => Raise TypeError
  end.

End Py.
Export Py.

Notation "x <- m ;; k" := (Py.bind m (fun x => k))
  (at level 61, m at next level, right associativity).

(** ** 64-bit floats

    Python's [float] and polars' [Float64] are IEEE 754 binary64: 53 bits
    of precision, every operation rounded to the nearest float, ties to
    even. *)

Module Float64.

Definition float64 : Type := spec_float.

Definition prec : Z := 53.
Definition emax : Z := 1024.

(** The float nearest to an integer: [float(n)], and the cast of an
    [Int64] or [UInt32] cell to [Float64]. *)
Definition of_Z (z : Z) : float64 := binary_normalize prec emax z 0 false.

Definition add (x y : float64) : float64 := SFadd prec emax x y.
Definition sub (x y : float64) : float64 := SFsub prec emax x y.
Definition mul (x y : float64) : float64 := SFmul prec emax x y.
Definition div (x y : float64) : float64 := SFdiv prec emax x y.

(** The exponent of a power of two. *)
Fixpoint pow2_exponent (d : positive) : option Z :=
  match d with
  | xH => Some 0
  | xO d' => option_map Z.succ (pow2_exponent d')
  | xI _ => None
  end.

(** The float of a numeric cell.  A fraction over a power of two (every
    integer, and every float a cell can hold) is rounded once; a fraction
    over another denominator stands for the float its division gives. *)
Definition of_Q (q : Q) : float64 :=
  match pow2_exponent (Qden q) with
  | Some k => binary_normalize prec emax (Qnum q) (- k) false
  | None => div (of_Z (Qnum q)) (of_Z (Zpos (Qden q)))
  end.

(** The rational a finite float denotes, in lowest terms. *)
Definition to_Q (x : float64) : Q :=
  match x with
  | S754_finite s m e =>
      let n := if s then Zneg m else Zpos m in
      match e with
      | Zneg k => Qred (n # Pos.pow 2 k)
      | _ => inject_Z (n * 2 ^ e)
      end
  | _ => 0%Q
  end.

Definition is_finite (x : float64) : bool :=
  match x with
  | S754_zero _ | S754_finite _ _ _ => true
  | _ => false
  end.

(** [x < y] as polars compares floats: NaN counts as greater than every
    number, and is not less than itself. *)
Definition lt (x y : float64) : bool :=
  match x, y with
  | S754_nan, _ => false
  | _, S754_nan => true
  | _, _ => SFltb x y
  end.

End Float64.

(** ** polars: frames and the operations the two classes call

    A [LazyFrame] and the [DataFrame] it collects to are the same value
    here: laziness only postpones polars' own errors to [collect], which
    the methods call before they return. *)

Module Polars.

(** A frame in row order: the schema's column names and the rows, each a
    list of cells aligned with [names]. *)
Record DataFrame : Type := mkFrame {
  names : list string;
  rows : list (list value)
}.

(** [pl.DataFrame()]. *)
Definition empty_frame : DataFrame := mkFrame [] [].

(** [len(df)]. *)
Definition len (df : DataFrame) : Z := Z.of_nat (List.length (rows df)).

(** [df.is_empty()]: no rows. *)
Definition is_empty (df : DataFrame) : bool :=
  match rows df with [] => true | _ => false end.

Fixpoint index_of (name : string) (cols : list string) : option nat :=
  match cols with
  | [] => None
  | c :: t =>
      if string_dec name c then Some O
      else match index_of name t with
           | Some i => Some (S i)
           | None => None
           end
  end.

(** [name in columns]. *)
Definition mem (name : string) (cols : list string) : bool :=
  if in_dec string_dec name cols then true else false.

Definition column_index (name : string) (df : DataFrame) : result nat :=
  match index_of name (names df) with
  | Some i => Ok i
  | None => Raise (ColumnNotFoundError name)
  end.

Definition cell (i : nat) (row : list value) : value := nth i row PyNone.

Definition project (idxs : list nat) (row : list value) : list value :=
  map (fun i => cell i row) idxs.

(** The cells of one column, [df.select(pl.col(name))] read top to bottom. *)
Definition get_column (name : string) (df : DataFrame) : result (list value) :=
  i <- column_index name df ;;
  Ok (map (cell i) (rows df)).

Fixpoint distinct (cols : list string) : bool :=
  match cols with
  | [] => true
  | c :: t => negb (mem c t) && distinct t
  end.

(** [df.select(cols)]: every column must exist, and none may be asked for
    twice. *)
Definition select (cols : list string) (df : DataFrame) : result DataFrame :=
  idxs <- mapM (fun c => column_index c df) cols ;;
  if distinct cols then Ok (mkFrame cols (map (project idxs) (rows df)))
  else Raise DuplicateError.

Definition tuple_eq_dec (a b : list value) : {a = b} + {a <> b} :=
  list_eq_dec value_eq_dec a b.

(** Distinct elements in order of first occurrence. *)
Fixpoint unique_from {A : Type} (eq_dec : forall a b : A, {a = b} + {a <> b})
  (seen l : list A) : list A :=
  match l with
  | [] => []
  | x :: t =>
      if in_dec eq_dec x seen then unique_from eq_dec seen t
      else x :: unique_from eq_dec (x :: seen) t
  end.

(** [df.unique()]: one row per distinct row; null cells compare equal. *)
Definition unique (df : DataFrame) : DataFrame :=
  mkFrame (names df) (unique_from tuple_eq_dec [] (rows df)).

(** [df.group_by(all columns).agg(pl.count().alias("count"))]: one entry
    per distinct row with the number of rows equal to it; a null is a group
    key like any other.  polars leaves the order of the groups unspecified;
    first occurrence is used here and nothing below depends on it. *)
Definition group_by_count {A : Type}
  (eq_dec : forall a b : A, {a = b} + {a <> b}) (l : list A) : list (A * Z) :=
  map (fun k => (k, Z.of_nat (count_occ eq_dec l k))) (unique_from eq_dec [] l).

(** [df.group_by(df.columns).agg(pl.count().alias("count"))]: polars asks
    for at least one key column. *)
Definition group_by_columns_count (df : DataFrame)
  : result (list (list value * Z)) :=
  match names df with
  | [] => Raise ComputeError
  | _ :: _ => Ok (group_by_count tuple_eq_dec (rows df))
  end.

(** Join predicate with the default [join_nulls=False]: a key tuple holding
    a null matches nothing, otherwise it matches the equal tuple. *)
Definition keys_match (k1 k2 : list value) : bool :=
  negb (existsb is_none k1) && (if tuple_eq_dec k1 k2 then true else false).

Definition has_match (k : list value) (keys : list (list value)) : bool :=
  existsb (keys_match k) keys.

(** [left.join(right, on=on, how='anti')]: the rows of [left] without a
    match in [right]. *)
Definition join_anti (left right : DataFrame) (on : list string)
  : result DataFrame :=
  li <- mapM (fun c => column_index c left) on ;;
  ri <- mapM (fun c => column_index c right) on ;;
  let right_keys := map (project ri) (rows right) in
  Ok (mkFrame (names left)
        (filter (fun r => negb (has_match (project li r) right_keys))
           (rows left))).

(** A right column whose name the left frame already has is renamed with
    the suffix; the suffixed name clashes when it is a column of either
    frame already. *)
Definition suffix_clash (left right : DataFrame) (suffix : string) : bool :=
  existsb
    (fun c =>
       mem c (names left) &&
       (mem (c ++ suffix)%string (names left) ||
        mem (c ++ suffix)%string (names right)))
    (names right).

(** [left.join(right, on=on, how='outer', suffix=suffix)]: matched pairs,
    unmatched left rows padded with nulls and unmatched right rows padded
    with nulls (in an order polars does not promise; nothing below depends
    on it); a right column whose name the left frame already has gets the
    suffix, and polars refuses the join (DuplicateError) when that gives
    two columns of one name. *)
Definition join_outer (left right : DataFrame) (on : list string)
  (suffix : string) : result DataFrame :=
  li <- mapM (fun c => column_index c left) on ;;
  ri <- mapM (fun c => column_index c right) on ;;
  let nulls (cols : list string) := map (fun _ => PyNone) cols in
  let from_left :=
    flat_map
      (fun l =>
         match filter (fun r => keys_match (project li l) (project ri r))
                 (rows right) with
         | [] => [l ++ nulls (names right)]
         | ms => map (fun r => l ++ r) ms
         end) (rows left) in
  let left_keys := map (project li) (rows left) in
  let from_right :=
    map (fun r => nulls (names left) ++ r)
      (filter (fun r => negb (existsb (fun k => keys_match k (project ri r))
                                left_keys)) (rows right)) in
  if suffix_clash left right suffix then Raise DuplicateError
  else
    Ok (mkFrame
          (names left ++
           map (fun c => if mem c (names left) then (c ++ suffix)%string else c)
             (names right))
          (from_left ++ from_right)).

(** [df.with_columns(expr.alias(name))]: replaces the column of that name,
    or appends it. *)
Definition with_column (name : string) (cells : list value) (df : DataFrame)
  : DataFrame :=
  match index_of name (names df) with
  | Some i =>
      mkFrame (names df)
        (map (fun rc => firstn i (fst rc) ++ snd rc :: skipn (S i) (fst rc))
           (combine (rows df) cells))
  | None =>
      mkFrame (names df ++ [name])
        (map (fun rc => fst rc ++ [snd rc]) (combine (rows df) cells))
  end.

(** [df.drop(name)]. *)
Definition drop (name : string) (df : DataFrame) : result DataFrame :=
  i <- column_index name df ;;
  Ok (mkFrame (firstn i (names df) ++ skipn (S i) (names df))
        (map (fun r => firstn i r ++ skipn (S i) r) (rows df))).

(** *** Numbers in a column *)

Definition Qltb (x y : Q) : bool := negb (Qle_bool y x).

(** A cell of a numeric column as a number; aggregating or comparing a
    column of another dtype as a number is rejected by polars.  A frame
    carries no dtypes here: the dtype of a column is read off its cells,
    so a column without a non-null cell goes the way of a numeric
    column. *)
Definition as_number (v : value) : result (option Q) :=
  match v with
  | PyNone => Ok None
  | PyInt z => Ok (Some (inject_Z z))
  | PyFloat q => Ok (Some q)
  | _ => Raise InvalidOperationError
  end.

Fixpoint non_null {A : Type} (xs : list (option A)) : list A :=
  match xs with
  | [] => []
  | Some x :: t => x :: non_null t
  | None :: t => non_null t
  end.

(** [pl.col(c).quantile(q)].  polars rejects a [q] outside [0, 1]; the
    quantile of a column without a non-null value is null; otherwise it is
    the value the interpolation rule [pick] selects among the non-null
    values. *)
Definition quantile (pick : Q -> list Q -> Q) (q : Q) (xs : list (option Q))
  : result (option Q) :=
  if Qle_bool 0 q && Qle_bool q 1 then
    match non_null xs with
    | [] => Ok None
    | v :: vs => Ok (Some (pick q (v :: vs)))
    end
  else Raise ComputeError.

Fixpoint insert_sorted (x : Q) (l : list Q) : list Q :=
  match l with
  | [] => [x]
  | y :: t => if Qle_bool x y then x :: y :: t else y :: insert_sorted x t
  end.

Definition sort (l : list Q) : list Q := fold_right insert_sorted [] l.

(** polars' default interpolation, ["nearest"]: the sorted value at index
    [round((n - 1) * q)]. *)
Definition nearest (q : Q) (xs : list Q) : Q :=
  let n := Z.of_nat (List.length xs) in
  let idx := Qfloor (inject_Z (n - 1) * q + (1 # 2)) in
  nth (Z.to_nat idx) (sort xs) 0%Q.

(** [pl.col(c).cast(pl.Int64)] on one cell: a float is truncated, a date
    or datetime gives its physical integer, and a string (taken not to
    spell an integer) is refused. *)
Definition cast_int64 (v : value) : result value :=
  match v with
  | PyNone => Ok PyNone
  | PyBool b => Ok (PyInt (if b then 1 else 0))
  | PyInt z => Ok (PyInt z)
  | PyFloat q => Ok (PyInt (if Qle_bool 0 q then Qfloor q else Qceiling q))
  | PyStr _ => Raise InvalidOperationError
  | PyDate days => Ok (PyInt days)
  | PyDatetime _ ticks => Ok (PyInt ticks)
  end.

(** The [time_unit] argument of [pl.from_epoch]. *)
Inductive epoch_unit : Type := EpochD | EpochS | EpochMs | EpochUs | EpochNs.

(** Arithmetic on an [Int64] column wraps around. *)
Definition wrap_int64 (z : Z) : Z := (z + 2 ^ 63) mod 2 ^ 64 - 2 ^ 63.

(** [pl.from_epoch(c, time_unit)] on one cell: days give a [Date], seconds
    are multiplied by 1_000_000 and read as a [Datetime("us")], the other
    units are read as a [Datetime] of that unit. *)
Definition from_epoch (time_unit : epoch_unit) (v : value) : result value :=
  match v with
  | PyNone => Ok PyNone
  | PyInt z =>
      Ok (match time_unit with
          | EpochD => PyDate z
          | EpochS => PyDatetime Us (wrap_int64 (z * 1000000))
          | EpochMs => PyDatetime Ms z
          | EpochUs => PyDatetime Us z
          | EpochNs => PyDatetime Ns z
          end)
  | _ => Raise InvalidOperationError
  end.

(** *** Boolean columns and filters *)

(** A cell of a Boolean column as a three-valued truth value; a cell of
    another dtype is no predicate. *)
Definition as_bool (v : value) : result (option bool) :=
  match v with
  | PyNone => Ok None
  | PyBool b => Ok (Some b)
  | _ => Raise InvalidOperationError
  end.

(** [~e], [e1 & e2] and [e1 | e2] on Boolean columns: Kleene logic. *)
Definition not3 (a : option bool) : option bool :=
  match a with
  | Some b => Some (negb b)
  | None => None
  end.

Definition and3 (a b : option bool) : option bool :=
  match a, b with
  | Some false, _ => Some false
  | _, Some false => Some false
  | Some true, Some true => Some true
  | _, _ => None
  end.

Definition or3 (a b : option bool) : option bool :=
  match a, b with
  | Some true, _ => Some true
  | _, Some true => Some true
  | Some false, Some false => Some false
  | _, _ => None
  end.

(** Whether [df.filter(predicate)] keeps the row: the predicate is true,
    not null and not false. *)
Definition holds (predicate : list value -> result (option bool))
  (row : list value) : bool :=
  match predicate row with
  | Ok (Some true) => true
  | _ => false
  end.

(** [df.filter(predicate)]: the predicate is evaluated on every row. *)
Definition filter_rows (predicate : list value -> result (option bool))
  (df : DataFrame) : result DataFrame :=
  _ <- mapM predicate (rows df) ;;
  Ok (mkFrame (names df) (filter (holds predicate) (rows df))).

(** [pl.lit(v).alias(name)] added with [with_columns]: the same cell in
    every row. *)
Definition with_literal (name : string) (v : value) (df : DataFrame)
  : DataFrame :=
  with_column name (map (fun _ => v) (rows df)) df.

(** [s.endswith(suffix)]. *)
Definition ends_with (suffix s : string) : bool :=
  let n := String.length s in
  let m := String.length suffix in
  (m <=? n)%nat && String.eqb (substring (n - m) m s) suffix.

(** [left.join(right, on=on, how=how, suffix=suffix)].  The outer join
    (["outer"], which polars now spells ["full"]) and the anti-join are
    the ones modelled above; [other_joins] stands for the join types that
    are not. *)
Definition join
  (other_joins :
     string -> DataFrame -> DataFrame -> list string -> string ->
     result DataFrame)
  (how : string) (left right : DataFrame) (on : list string)
  (suffix : string) : result DataFrame :=
  if string_dec how "outer" then join_outer left right on suffix
  else if string_dec how "full" then join_outer left right on suffix
  else if string_dec how "anti" then join_anti left right on
  else other_joins how left right on suffix.

(** [series.n_unique()]: the number of distinct cells, null counted as
    one. *)
Definition n_unique (cells : list value) : Z :=
  Z.of_nat (List.length (unique_from value_eq_dec [] cells)).

(** The order of two cells, for [<], [<=] and [>] between two columns or a
    column and a literal: null when either cell is null; numbers by value,
    dates by day, datetimes of one time unit by tick.  [other] stands for
    the comparisons of cells of other or of different dtypes, which polars
    casts first or rejects. *)
Definition compare_cells (other : value -> value -> result (option comparison))
  (a b : value) : result (option comparison) :=
  match a, b with
  | PyNone, _ => Ok None
  | _, PyNone => Ok None
  | PyInt x, PyInt y => Ok (Some (inject_Z x ?= inject_Z y)%Q)
  | PyInt x, PyFloat y => Ok (Some (inject_Z x ?= y)%Q)
  | PyFloat x, PyInt y => Ok (Some (x ?= inject_Z y)%Q)
  | PyFloat x, PyFloat y => Ok (Some (x ?= y)%Q)
  | PyDate x, PyDate y => Ok (Some (x ?= y))
  | PyDatetime tu x, PyDatetime tu' y =>
      if time_unit_eq_dec tu tu' then Ok (Some (x ?= y)) else other a b
  | _, _ => other a b
  end.

Definition is_gt (order : option comparison) : option bool :=
  option_map (fun c => match c with Gt => true | _ => false end) order.

Definition is_lt (order : option comparison) : option bool :=
  option_map (fun c => match c with Lt => true | _ => false end) order.

Definition is_le (order : option comparison) : option bool :=
  option_map (fun c => match c with Gt => false | _ => true end) order.

(** [pl.concat([a, b])] of two frames with the same columns: the rows of
    [a], then those of [b].  [other] stands for what polars does when the
    columns differ. *)
Definition concat (other : DataFrame -> DataFrame -> result DataFrame)
  (a b : DataFrame) : result DataFrame :=
  if list_eq_dec string_dec (names a) (names b) then
    Ok (mkFrame (names a) (rows a ++ rows b))
  else other a b.

End Polars.
Export Polars.

(** ** [outlier_detector.py] *)

Module OutlierDetector.

Inductive ColumnType : Type := NUMERIC | CATEGORICAL | DATE.

(** The [config] dict of the constructor: both keys are optional. *)
Record config : Type := mkConfig {
  config_percentile_threshold : option Q;
  config_rare_category_threshold : option Q
}.

Record t : Type := mk {
  percentile_threshold : Q;
  rare_category_threshold : Q
}.

(** [__init__]: [config.get(key, default)] with defaults 10.0 and 1.0. *)
Definition init (c : config) : t :=
  mk (match config_percentile_threshold c with
      | Some p => p
      | None => 10%Q
      end)
     (match config_rare_category_threshold c with
      | Some r => r
      | None => 1%Q
      end).

(** [_determine_column_type]: the first non-null cell decides. *)
Definition _determine_column_type (self : t) (df : DataFrame) (column : string)
  : result ColumnType :=
  cells <- get_column column df ;;
  match filter (fun v => negb (is_none v)) cells with
  | [] => Raise (ValueError (ColumnIsEmpty column))
  | value :: _ =>
      if isinstance_int_float value then Ok NUMERIC
      else if isinstance_pl_Date_Datetime value then Ok DATE
      else Ok CATEGORICAL
  end.

(** The row of the outlier frame a cell contributes, if any: the filter
    [(col > iqr_upper) | (col < iqr_lower)] keeps no null, and the
    [when/then/otherwise] gives the direction.  The bounds are floats, and
    the cell is compared as the float nearest to it. *)
Definition outlier_row (iqr_lower iqr_upper : Float64.float64) (c : value)
  : list (list value) :=
  match as_number c with
  | Ok (Some x) =>
      let v := Float64.of_Q x in
      if Float64.lt iqr_upper v || Float64.lt v iqr_lower then
        [[c; PyStr "IQR";
          PyStr (if Float64.lt iqr_upper v then "above" else "below")]]
      else []
  | _ => []
  end.

(** [_detect_numeric_outliers]; [pick] is the interpolation rule of
    [quantile]. *)
Definition _detect_numeric_outliers (pick : Q -> list Q -> Q) (self : t)
  (df : DataFrame) (column : string) : result DataFrame :=
  cells <- get_column column df ;;
  xs <- mapM as_number cells ;;
  (* Calculate percentiles *)
  upper_percentile <-
    quantile pick (1 - percentile_threshold self / 100)%Q xs ;;
  lower_percentile <- quantile pick (percentile_threshold self / 100)%Q xs ;;
  q3_cell <- quantile pick (3 # 4) xs ;;
  q1_cell <- quantile pick (1 # 4) xs ;;
  (* Calculate IQR bounds: the quantiles are Float64 cells *)
  q1 <- float q1_cell ;;
  q3 <- float q3_cell ;;
  let q1 := Float64.of_Q q1 in
  let q3 := Float64.of_Q q3 in
  let iqr := Float64.sub q3 q1 in
  let iqr_lower := Float64.sub q1 (Float64.mul (Float64.of_Q (3 # 2)) iqr) in
  let iqr_upper := Float64.add q3 (Float64.mul (Float64.of_Q (3 # 2)) iqr) in
  (* Find outliers: the select names its three columns [column], "method"
     and "direction", and polars refuses two columns of one name *)
  if mem column ["method"; "direction"] then Raise DuplicateError
  else
    Ok (mkFrame [column; "method"; "direction"]
          (flat_map (outlier_row iqr_lower iqr_upper) cells)).

(** [pl.col("count") * 100 / total_count] on one cell.  The count column
    is [UInt32], so the product wraps around at 2^32; the quotient is a
    [Float64]. *)
Definition percentage (count total_count : Z) : Q :=
  Float64.to_Q
    (Float64.div (Float64.of_Z ((count * 100) mod 2 ^ 32))
       (Float64.of_Z total_count)).

(** [pl.col("percentage") < self.rare_category_threshold] on one cell. *)
Definition below_threshold (self : t) (v : value) : bool :=
  match as_number v with
  | Ok (Some p) => Qltb p (rare_category_threshold self)
  | _ => false
  end.

(** [_detect_categorical_outliers]: any exception is caught inside the
    method and turned into an empty frame. *)
Definition _detect_categorical_outliers (self : t) (df : DataFrame)
  (column : string) : result DataFrame :=
  try_except
    (let total_count := len df in
     cells <- get_column column df ;;
     let groups := group_by_count value_eq_dec cells in
     (* .group_by(column).agg(pl.count().alias("count")): polars refuses
        two columns of one name *)
     counted <-
       (if string_dec column "count" then Raise DuplicateError
        else
          Ok (mkFrame [column; "count"]
                (map (fun g => [fst g; PyInt (snd g)]) groups))) ;;
     (* .with_columns((...).alias("percentage")): replaces a column of
        that name, or appends *)
     let frequencies :=
       with_column "percentage"
         (map (fun g => PyFloat (percentage (snd g) total_count)) groups)
         counted in
     (* .filter(pl.col("percentage") < self.rare_category_threshold) *)
     i <- column_index "percentage" frequencies ;;
     Ok (mkFrame (names frequencies)
           (filter (fun row => below_threshold self (cell i row))
              (rows frequencies))))
    (fun e => Ok empty_frame).

(** [_detect_date_outliers]. *)
Definition _detect_date_outliers (pick : Q -> list Q -> Q) (self : t)
  (df : DataFrame) (column : string) : result DataFrame :=
  (* Convert dates to unix timestamps for numerical analysis *)
  cells <- get_column column df ;;
  ts <- mapM cast_int64 cells ;;
  let df_with_ts := with_column "_temp_ts" ts df in
  (* Use numeric outlier detection on timestamps *)
  outliers <- _detect_numeric_outliers pick self df_with_ts "_temp_ts" ;;
  (* Convert timestamps back to dates *)
  if negb (is_empty outliers) then
    flagged <- get_column "_temp_ts" outliers ;;
    (* pl.from_epoch('_temp_ts'): time_unit is left at its default, "s" *)
    dates <- mapM (from_epoch EpochS) flagged ;;
    drop "_temp_ts" (with_column column dates outliers)
  else Ok outliers.

(** The [results] dict, in insertion order. *)
Definition dict : Type := list (string * DataFrame).

(** [results[column] = outliers]. *)
Fixpoint dict_set (results : dict) (column : string) (outliers : DataFrame)
  : dict :=
  match results with
  | [] => [(column, outliers)]
  | (k, v) :: t =>
      if string_dec k column then (k, outliers) :: t
      else (k, v) :: dict_set t column outliers
  end.

(** The body of the [try] in [detect_outliers]: [None] when the column
    leaves [results] alone (the [continue], or an empty outlier frame). *)
Definition process_column (pick : Q -> list Q -> Q) (self : t)
  (df : DataFrame) (column : string) : result (option DataFrame) :=
  sample_data <- get_column column df ;;
  match sample_data with
  | [] => Ok None
  | first_value :: _ =>
      outliers <-
        (if isinstance_int_float first_value then
           _detect_numeric_outliers pick self df column
         else if isinstance_pl_Date_Datetime first_value then
           _detect_date_outliers pick self df column
         else _detect_categorical_outliers self df column) ;;
      if negb (is_empty outliers) then Ok (Some outliers) else Ok None
  end.

(** The [for column in columns] loop with its [try/except Exception]. *)
Fixpoint detect_loop (pick : Q -> list Q -> Q) (self : t) (df : DataFrame)
  (columns : list string) (results : dict) : result dict :=
  match columns with
  | [] => Ok results
  | column :: rest =>
      results' <-
        try_except
          (o <- process_column pick self df column ;;
           Ok (match o with
               | Some outliers => dict_set results column outliers
               | None => results
               end))
          (fun e => Ok results) ;;
      detect_loop pick self df rest results'
  end.

(** [detect_outliers]. *)
Definition detect_outliers (pick : Q -> list Q -> Q) (self : t)
  (df : DataFrame) : result dict :=
  detect_loop pick self df (names df) [].

(** [summarize_outliers]: one summary per entry of the dict; the frame
    built from an empty list of summaries has no column. *)
Definition summarize_outliers (self : t) (outliers_dict : dict)
  : result DataFrame :=
  summaries <-
    mapM
      (fun entry =>
         let column := fst entry in
         let outliers := snd entry in
         cells <- get_column column outliers ;;
         Ok [PyStr column;
             PyInt (len outliers);
             (* Will be divided by total later *)
             PyInt (len outliers * 100);
             PyInt (n_unique cells)])
      outliers_dict ;;
  match summaries with
  | [] => Ok empty_frame
  | _ :: _ =>
      Ok (mkFrame
            ["column"; "outlier_count"; "outlier_percentage";
             "unique_outlier_values"]
            summaries)
  end.

End OutlierDetector.

(** ** [data_comparison.py] *)

Module DataComparison.

(** The [config] dict of the constructor. *)
Record config : Type := mkConfig {
  config_primary_keys : option (list string);
  config_join_type : option string;
  config_chunk_size : option Z
}.

Record t : Type := mk {
  primary_keys : list string;
  join_type : string;
  chunk_size : Z
}.

(** [__init__]. *)
Definition init (c : config) : result t :=
  match config_primary_keys c with
  | None => Raise (ValueError PrimaryKeysMustBeSpecified)
  | Some keys =>
      Ok (mk keys
            (match config_join_type c with Some j => j | None => "outer" end)
            (match config_chunk_size c with Some n => n | None => 100000 end))
  end.

(** [validate_primary_keys]. *)
Definition validate_primary_keys (self : t) (df : DataFrame)
  (year_label : string) : result bool :=
  (* Check if all primary keys exist in the dataset *)
  let df_columns := names df in
  let missing_keys :=
    filter (fun key => negb (mem key df_columns)) (primary_keys self) in
  match missing_keys with
  | _ :: _ => Raise (ValueError (PrimaryKeysNotFound missing_keys year_label))
  | [] =>
      (* Simple duplicate check *)
      keys <- select (primary_keys self) df ;;
      groups <- group_by_columns_count keys ;;
      let duplicate_check := filter (fun g => 1 <? snd g) groups in
      if 0 <? Z.of_nat (List.length duplicate_check) then
        Raise (ValueError (DuplicatePrimaryKeys year_label))
      else Ok true
  end.

Record stats : Type := mkStats {
  total_records_current : Z;
  total_records_previous : Z;
  lapsed_records : Z;
  new_records : Z;
  retention_rate : Q
}.

Record comparison : Type := mkComparison {
  joined_data : DataFrame;
  table_lapsed : DataFrame;
  table_new : DataFrame;
  comparison_stats : stats
}.

(** [compare_datasets]. *)
Definition compare_datasets (self : t) (current_data previous_data : DataFrame)
  : result comparison :=
  (* Validate primary keys *)
  _ <- validate_primary_keys self current_data "current" ;;
  _ <- validate_primary_keys self previous_data "previous" ;;
  (* Get distinct primary key combinations from each dataset *)
  current_selected <- select (primary_keys self) current_data ;;
  let current_keys := unique current_selected in
  previous_selected <- select (primary_keys self) previous_data ;;
  let previous_keys := unique previous_selected in
  (* Find new records (in current but not in previous) *)
  new <- join_anti current_data previous_keys (primary_keys self) ;;
  (* Find lapsed records (in previous but not in current) *)
  lapsed <- join_anti previous_data current_keys (primary_keys self) ;;
  (* Generate statistics *)
  let total_current := len current_data in
  let total_previous := len previous_data in
  let lapsed_count := len lapsed in
  let new_count := len new in
  (* Calculate retention rate *)
  ratio <- truediv (total_current - new_count) total_previous ;;
  let rate := (ratio * 100)%Q in
  joined <- join_outer current_data previous_data (primary_keys self) "_prev" ;;
  Ok (mkComparison joined lapsed new
        (mkStats total_current total_previous lapsed_count new_count rate)).

(** [prepare_for_comparison]: each frame gets its indicator column, true
    in every row. *)
Definition prepare_for_comparison (self : t)
  (current_data previous_data : DataFrame) : DataFrame * DataFrame :=
  (with_literal "in_current_year" (PyBool true) current_data,
   with_literal "in_previous_year" (PyBool true) previous_data).

(** [join_datasets]; [other_joins] is polars' join for the join types other
    than the default. *)
Definition join_datasets
  (other_joins :
     string -> DataFrame -> DataFrame -> list string -> string ->
     result DataFrame)
  (self : t) (current_data previous_data : DataFrame) : result DataFrame :=
  let (current_prepared, previous_prepared) :=
    prepare_for_comparison self current_data previous_data in
  join other_joins (join_type self) current_prepared previous_prepared
    (primary_keys self) "_prev".

(** The two filters of [identify_lapsed_and_new], on the indicator columns
    at positions [i] and [j]: [pl.col(a) & ~pl.col(b)]. *)
Definition in_a_not_b (i j : nat) (row : list value) : result (option bool) :=
  a <- as_bool (cell i row) ;;
  b <- as_bool (cell j row) ;;
  Ok (and3 a (not3 b)).

(** The columns [identify_lapsed_and_new] keeps. *)
Definition clean_columns (columns : list string) : list string :=
  filter
    (fun col =>
       negb (ends_with "_prev" col) &&
       negb (mem col ["in_current_year"; "in_previous_year"]))
    columns.

(** [identify_lapsed_and_new]: the two lazy frames it returns, as they
    collect; the pair is (table_lapsed, table_new). *)
Definition identify_lapsed_and_new (self : t) (joined_data : DataFrame)
  : result (DataFrame * DataFrame) :=
  ip <- column_index "in_previous_year" joined_data ;;
  ic <- column_index "in_current_year" joined_data ;;
  (* Identify lapsed records (in previous year but not in current) *)
  lapsed <- filter_rows (in_a_not_b ip ic) joined_data ;;
  (* Identify new records (in current year but not in previous) *)
  new <- filter_rows (in_a_not_b ic ip) joined_data ;;
  (* Clean up the indicators and suffixes *)
  let clean := clean_columns (names joined_data) in
  table_lapsed <- select clean lapsed ;;
  table_new <- select clean new ;;
  Ok (table_lapsed, table_new).


End DataComparison.

(** ** [data_loader.py] *)

Module DataLoader.

(** [set(a) - set(b)] on column names, as the list of its elements.  The
    order in which a Python set prints is not determined; nothing below
    depends on it. *)
Definition set_difference (a b : list string) : list string :=
  unique_from string_dec [] (filter (fun c => negb (mem c b)) a).

(** Truth value of a set: non-empty. *)
Definition truthy (s : list string) : bool :=
  match s with [] => false | _ :: _ => true end.

(** The lines [validate_columns] collects in [error_msg]. *)
Inductive line : Type :=
| ColumnsMissingInCurrentYear (missing_in_current : list string)
    (* f"Columns missing in current year: {missing_in_current}" *)
| ColumnsMissingInPreviousYear (missing_in_previous : list string)
    (* f"Columns missing in previous year: {missing_in_previous}" *)
| ColumnsAreInDifferentOrder.
    (* "Columns are in different order" *)

(** How [validate_columns] ends: it returns, or it raises ValueError with
    the lines of [error_msg] joined by newlines. *)
Inductive outcome : Type :=
| Returns (b : bool)
| RaisesValueError (error_msg : list line).

(** [validate_columns]. *)
Definition validate_columns (current_data previous_data : DataFrame)
  : outcome :=
  let current_cols := names current_data in
  let previous_cols := names previous_data in
  let differ :=
    if list_eq_dec string_dec current_cols previous_cols then false
    else true in
  (* Check if columns are identical and in same order *)
  if differ then
    (* Find differences for error message *)
    let missing_in_current := set_difference previous_cols current_cols in
    let missing_in_previous := set_difference current_cols previous_cols in
    let different_order :=
      differ &&
      negb (truthy missing_in_current || truthy missing_in_previous) in
    let error_msg := [] in
    let error_msg :=
      if truthy missing_in_current then
        error_msg ++ [ColumnsMissingInCurrentYear missing_in_current]
      else error_msg in
    let error_msg :=
      if truthy missing_in_previous then
        error_msg ++ [ColumnsMissingInPreviousYear missing_in_previous]
      else error_msg in
    let error_msg :=
      if different_order then error_msg ++ [ColumnsAreInDifferentOrder]
      else error_msg in
    RaisesValueError error_msg
  else Returns true.

End DataLoader.

(** ** [business_validator.py] *)

Module BusinessValidator.

Inductive ValidationSeverity : Type := ERROR | WARNING | INFO.

(** [severity.value]. *)
Definition severity_value (s : ValidationSeverity) : string :=
  match s with
  | ERROR => "error"
  | WARNING => "warning"
  | INFO => "info"
  end.

(** The message of a rule, kept structured where it is formatted. *)
Inductive rule_message : Type :=
| Text (s : string)
| BelowMinimumThreshold (min_premium : Q).
    (* f"MonthlyPremium below minimum threshold of {min_premium}" *)

Record ValidationRule : Type := mkRule {
  name : string;
  validation_func : DataFrame -> list string -> result DataFrame;
  columns : list string;
  severity : ValidationSeverity;
  message : rule_message
}.

(** [ValidationRule.__init__]: [self.message = message or name]. *)
Definition ValidationRule_init (name : string)
  (validation_func : DataFrame -> list string -> result DataFrame)
  (columns : list string) (severity : ValidationSeverity)
  (message : option rule_message) : ValidationRule :=
  mkRule name validation_func columns severity
    (match message with
     | None => Text name
     | Some (Text EmptyString) => Text name
     | Some m => m
     end).

(** One entry of [custom_rules]: [func] and [columns] are read with
    [rule_config[...]], [severity] and [message] with [rule_config.get]. *)
Record rule_config : Type := mkRuleConfig {
  rule_func : DataFrame -> list string -> result DataFrame;
  rule_columns : list string;
  rule_severity : option string;
  rule_message_text : option string
}.

(** The [config] dict of the constructor; [custom_rules] in the order of
    the dict. *)
Record config : Type := mkConfig {
  min_premium : option Q;
  custom_rules : list (string * rule_config)
}.

Record t : Type := mk {
  self_config : config;
  rules : list ValidationRule
}.

(** What is left to polars and Python.  The class reaches none of these
    with its standard rules on columns of one dtype. *)
Record rest : Type := mkRest {
  (* comparing cells of other or of different dtypes *)
  compare_other : value -> value -> result (option comparison);
  (* a standard rule's [pl.col(col)] where [col] is not a list of one *)
  col_of_many : DataFrame -> list string -> result DataFrame;
  (* IndexError: [cols[0]] or [cols[1]] of a shorter list *)
  IndexError : exn;
  (* ValueError: [ValidationSeverity(s)] for a string that is no severity *)
  not_a_severity : string -> exn;
  (* [pl.concat] of two frames whose columns differ *)
  concat_other : DataFrame -> DataFrame -> result DataFrame;
  (* ValueError: [pl.concat] of an empty list *)
  concat_nothing : exn
}.

Section Rules.
Variable u : rest.

(** [lambda df, col: df.filter(pl.col(col).is_null())]. *)
Definition inception_date_not_null_func (df : DataFrame) (col : list string)
  : result DataFrame :=
  match col with
  | [c] =>
      i <- column_index c df ;;
      filter_rows (fun row => Ok (Some (is_none (cell i row)))) df
  | _ => col_of_many u df col
  end.

(** [lambda df, cols: df.filter(pl.col(cols[0]).is_not_null() &
    pl.col(cols[1]).is_not_null() & (pl.col(cols[0]) > pl.col(cols[1])))]. *)
Definition cancellation_after_inception_func (df : DataFrame)
  (cols : list string) : result DataFrame :=
  match cols with
  | c0 :: c1 :: _ =>
      i0 <- column_index c0 df ;;
      i1 <- column_index c1 df ;;
      filter_rows
        (fun row =>
           let a := cell i0 row in
           let b := cell i1 row in
           order <- compare_cells (compare_other u) a b ;;
           Ok (and3 (and3 (Some (negb (is_none a))) (Some (negb (is_none b))))
                 (is_gt order)))
        df
  | _ => Raise (IndexError u)
  end.

(** [lambda df, col: df.filter((pl.col(col) <= 0) | pl.col(col).is_null())]. *)
Definition premium_not_zero_func (df : DataFrame) (col : list string)
  : result DataFrame :=
  match col with
  | [c] =>
      i <- column_index c df ;;
      filter_rows
        (fun row =>
           order <- compare_cells (compare_other u) (cell i row) (PyInt 0) ;;
           Ok (or3 (is_le order) (Some (is_none (cell i row)))))
        df
  | _ => col_of_many u df col
  end.

(** [self.config.get('min_premium', 0)]. *)
Definition get_min_premium (c : config) : Q :=
  match min_premium c with
  | Some q => q
  | None => 0%Q
  end.

(** [lambda df, col: df.filter(pl.col(col) <
    self.config.get('min_premium', 0))]. *)
Definition premium_exceeds_minimum_func (c : config) (df : DataFrame)
  (col : list string) : result DataFrame :=
  match col with
  | [column] =>
      i <- column_index column df ;;
      filter_rows
        (fun row =>
           order <- compare_cells (compare_other u) (cell i row)
                      (PyFloat (get_min_premium c)) ;;
           Ok (is_lt order))
        df
  | _ => col_of_many u df col
  end.

(** [ValidationSeverity(s)]. *)
Definition ValidationSeverity_of (s : string) : result ValidationSeverity :=
  if string_dec s "error" then Ok ERROR
  else if string_dec s "warning" then Ok WARNING
  else if string_dec s "info" then Ok INFO
  else Raise (not_a_severity u s).

(** The four standard rules of [_initialize_rules]. *)
Definition inception_date_not_null : ValidationRule :=
  ValidationRule_init "inception_date_not_null" inception_date_not_null_func
    ["CoverStartDate"] ERROR (Some (Text "CoverStartDate cannot be null")).

Definition cancellation_after_inception : ValidationRule :=
  ValidationRule_init "cancellation_after_inception"
    cancellation_after_inception_func
    ["CoverEndDate"; "CoverStartDate"] ERROR
    (Some (Text "CoverEndDate must be after CoverStartDate")).

Definition premium_not_zero : ValidationRule :=
  ValidationRule_init "premium_not_zero" premium_not_zero_func
    ["MonthlyPremium"] ERROR
    (Some (Text "MonthlyPremium must be greater than zero")).

Definition premium_exceeds_minimum (c : config) : ValidationRule :=
  ValidationRule_init "premium_exceeds_minimum"
    (premium_exceeds_minimum_func c)
    ["MonthlyPremium"] WARNING
    (Some (BelowMinimumThreshold (get_min_premium c))).

(** [_initialize_rules]: the standard rules, then the custom rules of the
    config. *)
Definition _initialize_rules (c : config) : result (list ValidationRule) :=
  let rules :=
    [inception_date_not_null; cancellation_after_inception;
     premium_not_zero; premium_exceeds_minimum c] in
  (* Add custom rules from config *)
  custom <-
    mapM
      (fun item =>
         let rule_name := fst item in
         let rule_config := snd item in
         severity <-
           ValidationSeverity_of
             (match rule_severity rule_config with
              | Some s => s
              | None => "error"
              end) ;;
         Ok (ValidationRule_init rule_name (rule_func rule_config)
               (rule_columns rule_config) severity
               (Some (Text (match rule_message_text rule_config with
                            | Some m => m
                            | None => rule_name
                            end)))))
      (custom_rules c) ;;
  Ok (rules ++ custom).

(** [__init__]. *)
Definition init (c : config) : result t :=
  rules <- _initialize_rules c ;;
  Ok (mk c rules).

(** The [message] cell of a result row. *)
Inductive result_message : Type :=
| MissingColumns (missing_cols : list string)
    (* f"Missing columns: {missing_cols}" *)
| Message (message : rule_message)
| SampleViolations (message : rule_message) (sample_violations : DataFrame).
    (* f"{rule.message}. Sample violations: {sample_violations[0]}" *)

(** The one-row frame [_validate_rule] returns, as a record of its
    cells. *)
Record rule_result : Type := mkResult {
  result_rule_name : string;
  result_severity : string;
  result_message_cell : result_message;
  violation_count : Z
}.

(** [_validate_rule]. *)
Definition _validate_rule (self : t) (df : DataFrame) (rule : ValidationRule)
  : result rule_result :=
  (* Check if all required columns exist *)
  let missing_cols :=
    filter (fun col => negb (mem col (names df))) (columns rule) in
  match missing_cols with
  | _ :: _ =>
      Ok (mkResult (name rule) (severity_value (severity rule))
            (MissingColumns missing_cols) 0)
  | [] =>
      (* Apply the validation function *)
      violations <- validation_func rule df (columns rule) ;;
      (* Count violations *)
      let violation_count := len violations in
      if 0 <? violation_count then
        (* Get sample of violating records for the error message *)
        sample_violations <- select (columns rule) violations ;;
        Ok (mkResult (name rule) (severity_value (severity rule))
              (SampleViolations (message rule) sample_violations)
              violation_count)
      else
        Ok (mkResult (name rule) (severity_value (severity rule))
              (Message (message rule)) violation_count)
  end.

(** [.select(pl.sum('violation_count')).item()]. *)
Definition sum_violation_count (results : list rule_result) : Z :=
  fold_right Z.add 0 (map violation_count results).

(** The dict [validate_data] returns; [validation_results] is the
    concatenated frame, one record per row. *)
Record validation : Type := mkValidation {
  validation_results : list rule_result;
  error_count : Z;
  warning_count : Z;
  failed_validations : list string
}.

(** [validate_data]. *)
Definition validate_data (self : t) (df : DataFrame) : result validation :=
  (* Apply each validation rule *)
  all_results <- mapM (_validate_rule self df) (rules self) ;;
  (* Combine all results *)
  match all_results with
  | [] => Raise (concat_nothing u)
  | _ :: _ =>
      let validation_results := all_results in
      (* Calculate summary statistics *)
      let error_count :=
        sum_violation_count
          (filter
             (fun r => String.eqb (result_severity r) "error" &&
                       (0 <? violation_count r))
             validation_results) in
      let warning_count :=
        sum_violation_count
          (filter
             (fun r => String.eqb (result_severity r) "warning" &&
                       (0 <? violation_count r))
             validation_results) in
      let failed_validations :=
        map result_rule_name
          (filter (fun r => 0 <? violation_count r) validation_results) in
      Ok (mkValidation validation_results error_count warning_count
            failed_validations)
  end.

Definition is_WARNING (s : ValidationSeverity) : bool :=
  match s with
  | WARNING => true
  | _ => false
  end.

(** The loop of [get_invalid_records]. *)
Fixpoint invalid_records_loop (df : DataFrame) (include_warnings : bool)
  (remaining : list ValidationRule) (invalid_records : option DataFrame)
  : result (option DataFrame) :=
  match remaining with
  | [] => Ok invalid_records
  | rule :: rest =>
      if negb include_warnings && is_WARNING (severity rule) then
        invalid_records_loop df include_warnings rest invalid_records
      else
        violations <- validation_func rule df (columns rule) ;;
        match invalid_records with
        | None =>
            invalid_records_loop df include_warnings rest (Some violations)
        | Some records =>
            combined <- concat (concat_other u) records violations ;;
            invalid_records_loop df include_warnings rest (Some combined)
        end
  end.

(** [get_invalid_records]: the lazy frame it returns, as it collects. *)
Definition get_invalid_records (self : t) (df : DataFrame)
  (include_warnings : bool) : result DataFrame :=
  invalid_records <-
    invalid_records_loop df include_warnings (rules self) None ;;
  match invalid_records with
  | Some records => Ok records
  | None => Ok empty_frame
  end.

End Rules.

End BusinessValidator.

(** ** Notions the properties are stated with *)

(** The key tuple of a row: its cells in the primary-key columns. *)
Definition key_tuple (keys : list string) (df : DataFrame) (row : list value)
  : list value :=
  map (fun k => match index_of k (names df) with
                | Some i => cell i row
                | None => PyNone
                end) keys.

(** The key tuples of a frame, one per row. *)
Definition key_tuples (keys : list string) (df : DataFrame)
  : list (list value) :=
  map (key_tuple keys df) (rows df).

(** The primary-key columns a frame lacks. *)
Definition missing_keys (keys : list string) (df : DataFrame) : list string :=
  filter (fun key => negb (mem key (names df))) keys.

(** A primary key names at least one column and none twice. *)
Definition well_formed_keys (keys : list string) : Prop :=
  keys <> [] /\ NoDup keys.

(** A frame passes primary-key validation. *)
Definition validated (self : DataComparison.t) (df : DataFrame)
  (year_label : string) : Prop :=
  DataComparison.validate_primary_keys self df year_label = Ok true.

(** The rows of [left] whose key tuple has no match among the key tuples
    of [right]. *)
Definition unmatched (keys : list string) (left right : DataFrame)
  : list (list value) :=
  filter (fun r => negb (has_match (key_tuple keys left r)
                           (key_tuples keys right)))
    (rows left).

(** The rows of [left] whose key tuple has a match among the key tuples of
    [right]. *)
Definition matched (keys : list string) (left right : DataFrame)
  : list (list value) :=
  filter (fun r => has_match (key_tuple keys left r) (key_tuples keys right))
    (rows left).

(** The outer join of [compare_datasets] can name its columns: no column
    it has to rename (previous has it, and current too) is, with [_prev]
    appended, a column of either table already. *)
Definition suffix_is_free (current previous : DataFrame) : Prop :=
  forall c,
    In c (names previous) ->
    In c (names current) ->
    ~ In (c ++ "_prev")%string (names current) /\
    ~ In (c ++ "_prev")%string (names previous).

(** A float without the minus sign: zero, a positive number, plus
    infinity or NaN. *)
Definition not_negative (x : Float64.float64) : Prop :=
  match x with
  | S754_nan => True
  | S754_zero s | S754_infinity s | S754_finite s _ _ => s = false
  end.

(** A cell of a numeric column: null, an integer or a float. *)
Definition is_numeric_cell (v : value) : bool :=
  match v with
  | PyNone | PyInt _ | PyFloat _ => true
  | _ => false
  end.

Definition numeric_column (cells : list value) : Prop :=
  forallb is_numeric_cell cells = true.

Definition has_non_null (cells : list value) : Prop :=
  existsb (fun v => negb (is_none v)) cells = true.

(** The frequency percentage in the words of the specification: 100 times
    the count of the value over the number of non-null rows of the
    column. *)
Definition percentage_of_non_null (cells : list value) (v : value) : Q :=
  (100 * inject_Z (Z.of_nat (count_occ value_eq_dec cells v))
   / inject_Z (Z.of_nat
                 (List.length (filter (fun c => negb (is_none c)) cells))))%Q.


(** The frames [prepare_for_comparison] returns, first and second. *)
Definition prepared_current (df : DataFrame) : DataFrame :=
  with_literal "in_current_year" (PyBool true) df.

Definition prepared_previous (df : DataFrame) : DataFrame :=
  with_literal "in_previous_year" (PyBool true) df.

(** Every row of the frame has one cell per column. *)
Definition well_formed_frame (df : DataFrame) : Prop :=
  forall row, In row (rows df) -> List.length row = List.length (names df).

(** The cell of a row in the column of that name. *)
Definition cell_of (column : string) (df : DataFrame) (row : list value)
  : value :=
  match index_of column (names df) with
  | Some i => cell i row
  | None => PyNone
  end.

(** A cell of a [Date] column: null or a date. *)
Definition is_date_cell (v : value) : bool :=
  match v with
  | PyNone | PyDate _ => true
  | _ => false
  end.

(** The frame has the column, and its cells all satisfy [p]. *)
Definition column_of (p : value -> bool) (column : string) (df : DataFrame)
  : Prop :=
  In column (names df) /\
  forall row, In row (rows df) -> p (cell_of column df row) = true.

(** The three columns of the standard rules, two of dates and one of
    numbers. *)
Definition policy_columns (df : DataFrame) : Prop :=
  column_of is_date_cell "CoverStartDate" df /\
  column_of is_date_cell "CoverEndDate" df /\
  column_of is_numeric_cell "MonthlyPremium" df.

(** The number of rows of the frame that satisfy [p]. *)
Definition count_rows (p : list value -> bool) (df : DataFrame) : Z :=
  Z.of_nat (List.length (filter p (rows df))).

(** The cover starts on no date: the cell is null. *)
Definition start_is_null (df : DataFrame) (row : list value) : bool :=
  is_none (cell_of "CoverStartDate" df row).

(** Both dates are there and the cover ends after it starts. *)
Definition ends_after_start (df : DataFrame) (row : list value) : bool :=
  match cell_of "CoverEndDate" df row, cell_of "CoverStartDate" df row with
  | PyDate e, PyDate s => s <? e
  | _, _ => false
  end.

(** The premium is null, or a number not above zero. *)
Definition premium_null_or_not_positive (df : DataFrame) (row : list value)
  : bool :=
  match cell_of "MonthlyPremium" df row with
  | PyNone => true
  | PyInt z => Qle_bool (inject_Z z) 0
  | PyFloat q => Qle_bool q 0
  | _ => false
  end.

(** The premium is a number below [minimum]. *)
Definition premium_below (minimum : Q) (df : DataFrame) (row : list value)
  : bool :=
  match cell_of "MonthlyPremium" df row with
  | PyInt z => Qltb (inject_Z z) minimum
  | PyFloat q => Qltb q minimum
  | _ => false
  end.

(** ** Sample inputs *)

(** The two sample tables, prepared and outer-joined on [id]. *)
Definition joined_ids : DataFrame :=
  mkFrame ["id"; "in_current_year"; "id_prev"; "in_previous_year"]
    [[PyInt 1; PyBool true; PyNone; PyNone];
     [PyInt 2; PyBool true; PyInt 2; PyBool true];
     [PyInt 3; PyBool true; PyInt 3; PyBool true];
     [PyNone; PyNone; PyInt 4; PyBool true]].

(** A polars join for the join types the model leaves out; the default
    join type never reaches it. *)
Definition no_other_join (how : string) (left right : DataFrame)
  (on : list string) (suffix : string) : result DataFrame :=
  Raise InvalidOperationError.

(** A comparison keyed on the single column [id], as
    [DataComparison({'primary_keys': ['id']})] builds it. *)
Definition by_id : DataComparison.t := DataComparison.mk ["id"] "outer" 100000.

(** A one-column frame of integers. *)
Definition int_frame (column : string) (l : list Z) : DataFrame :=
  mkFrame [column] (map (fun z => [PyInt z]) l).

(** [OutlierDetector({})]: both thresholds at their defaults. *)
Definition default_detector : OutlierDetector.t :=
  OutlierDetector.init (OutlierDetector.mkConfig None None).

(** Four ordinary readings and one far above them. *)
Definition readings : DataFrame := int_frame "x" [1; 2; 3; 4; 100].

(** Five readings from 2^53 on, where only every other integer is a
    float. *)
Definition readings_beyond_2_53 : DataFrame :=
  int_frame "x"
    [9007199254740992; 9007199254740993; 9007199254740994;
     9007199254740995; 9007199254740999].

(** The same readings behind a leading null. *)
Definition readings_after_null : DataFrame :=
  mkFrame ["x"]
    [[PyNone]; [PyInt 1]; [PyInt 2]; [PyInt 3]; [PyInt 4]; [PyInt 100]].

(** A text column with a null: [a] once, [b] twice. *)
Definition categories : DataFrame :=
  mkFrame ["c"] [[PyStr "a"]; [PyStr "b"]; [PyStr "b"]; [PyNone]].

(** A [Date] column: five consecutive days of January 2020 (days 18262 to
    18266 since the epoch) and 2052-02-20 (day 30000). *)
Definition policy_dates : DataFrame :=
  mkFrame ["d"]
    (map (fun z => [PyDate z]) [18262; 18263; 18264; 18265; 18266; 30000]).

(** Readings with a text label each. *)
Definition labelled_readings : DataFrame :=
  mkFrame ["x"; "c"]
    [[PyInt 1; PyStr "b"]; [PyInt 2; PyStr "b"]; [PyInt 3; PyStr "b"];
     [PyInt 100; PyStr "a"]].

(** A schema without rows. *)
Definition no_rows : DataFrame := mkFrame ["x"; "c"] [].


(** A stand-in for what the model of the validator leaves to polars and
    Python: each such case raises.  The sample inputs reach none of
    them. *)
Definition nothing_else : BusinessValidator.rest :=
  BusinessValidator.mkRest
    (fun _ _ => Raise InvalidOperationError)
    (fun _ _ => Raise InvalidOperationError)
    TypeError
    (fun _ => TypeError)
    (fun _ _ => Raise InvalidOperationError)
    TypeError.

(** [BusinessValidator({})]'s configuration: no minimum premium, no custom
    rule. *)
Definition no_config : BusinessValidator.config :=
  BusinessValidator.mkConfig None [].

(** The validator [BusinessValidator({})] builds. *)
Definition standard_validator : BusinessValidator.t :=
  BusinessValidator.mk no_config
    [BusinessValidator.inception_date_not_null nothing_else;
     BusinessValidator.cancellation_after_inception nothing_else;
     BusinessValidator.premium_not_zero nothing_else;
     BusinessValidator.premium_exceeds_minimum nothing_else no_config].

(** Four policies.  The first is in force; the second ended a year after
    it started and costs nothing; the third has no start date and no
    premium; the fourth ended before it started and has a negative
    premium. *)
Definition policies : DataFrame :=
  mkFrame ["PolicyID"; "CoverStartDate"; "CoverEndDate"; "MonthlyPremium"]
    [[PyInt 1; PyDate 18262; PyNone; PyInt 100];
     [PyInt 2; PyDate 18262; PyDate 18627; PyInt 0];
     [PyInt 3; PyNone; PyDate 18000; PyNone];
     [PyInt 4; PyDate 18262; PyDate 18000; PyInt (-5)]].

(** ** Auxiliary facts *)

Lemma Qltb_lt (x y : Q) : Qltb x y = true <-> (x < y)%Q.
Proof.
  unfold Qltb. rewrite negb_true_iff. split.
  - intros H. apply Qnot_le_lt. intros Hle.
    apply Qle_bool_iff in Hle. congruence.
  - intros H. destruct (Qle_bool y x) eqn:E; [|reflexivity].
    apply Qle_bool_iff in E. exfalso. exact (Qlt_not_le _ _ H E).
Qed.

Lemma Qltb_false (x y : Q) : Qltb x y = false <-> ~ (x < y)%Q.
Proof.
  rewrite <- Qltb_lt. destruct (Qltb x y); split; congruence.
Qed.

Section Unique.
Context {A : Type} (eq_dec : forall a b : A, {a = b} + {a <> b}).

Lemma In_unique_from (seen l : list A) (x : A) :
  In x (unique_from eq_dec seen l) <-> In x l /\ ~ In x seen.
Proof.
  revert seen. induction l as [|a l IH]; intros seen; simpl.
  - tauto.
  - destruct (in_dec eq_dec a seen) as [Hin|Hnin].
    + rewrite IH. split.
      * intros [H1 H2]. auto.
      * intros [[->|H1] H2]; [contradiction|auto].
    + simpl. rewrite IH. simpl. split.
      * intros [->|[H1 H2]]; [auto|]. split; [auto|]. intros H. apply H2. auto.
      * intros [[->|H1] H2]; [auto|].
        destruct (eq_dec a x) as [->|Hne]; [auto|].
        right. split; [exact H1|]. intros [H|H]; [congruence|auto].
Qed.

Lemma NoDup_unique_from (seen l : list A) : NoDup (unique_from eq_dec seen l).
Proof.
  revert seen. induction l as [|a l IH]; intros seen; simpl.
  - constructor.
  - destruct (in_dec eq_dec a seen); [apply IH|].
    constructor; [|apply IH].
    rewrite In_unique_from. simpl. intros [_ H]. apply H. auto.
Qed.

Lemma unique_from_NoDup (seen l : list A) :
  NoDup l -> (forall x, In x l -> ~ In x seen) ->
  unique_from eq_dec seen l = l.
Proof.
  revert seen. induction l as [|a l IH]; intros seen Hnd Hseen; simpl.
  - reflexivity.
  - inversion Hnd as [|? ? Ha Hl]; subst.
    destruct (in_dec eq_dec a seen) as [Hin|_].
    + exfalso. apply (Hseen a); simpl; auto.
    + f_equal. apply IH; [exact Hl|].
      intros x Hx [<-|Hs]; [contradiction|].
      apply (Hseen x); simpl; auto.
Qed.

Lemma In_group_by_count (l : list A) (k : A) (c : Z) :
  In (k, c) (group_by_count eq_dec l) <->
  In k l /\ c = Z.of_nat (count_occ eq_dec l k).
Proof.
  unfold group_by_count. rewrite in_map_iff. split.
  - intros [k' [Heq Hin]]. inversion Heq; subst.
    apply In_unique_from in Hin. tauto.
  - intros [Hin ->]. exists k. split; [reflexivity|].
    apply In_unique_from. simpl. tauto.
Qed.

(** No group has more than one row exactly when the list has no duplicate. *)
Lemma duplicate_check_nil (l : list A) :
  filter (fun g => 1 <? snd g) (group_by_count eq_dec l) = [] <-> NoDup l.
Proof.
  rewrite (NoDup_count_occ eq_dec). split.
  - intros Hnil x.
    destruct (in_dec eq_dec x l) as [Hin|Hnin].
    + assert (Hg : In (x, Z.of_nat (count_occ eq_dec l x))
                     (group_by_count eq_dec l))
        by (apply In_group_by_count; auto).
      destruct (1 <? Z.of_nat (count_occ eq_dec l x)) eqn:E.
      * assert (Hf : In (x, Z.of_nat (count_occ eq_dec l x))
                       (filter (fun g => 1 <? snd g)
                          (group_by_count eq_dec l)))
          by (apply filter_In; auto).
        rewrite Hnil in Hf. destruct Hf.
      * apply Z.ltb_ge in E. lia.
    + apply (count_occ_not_In eq_dec) in Hnin. lia.
  - intros Hle.
    destruct (filter (fun g => 1 <? snd g) (group_by_count eq_dec l))
      as [|[k c] t] eqn:E; [reflexivity|].
    assert (Hf : In (k, c) (filter (fun g => 1 <? snd g)
                              (group_by_count eq_dec l)))
      by (rewrite E; simpl; auto).
    apply filter_In in Hf. destruct Hf as [Hg Hc]. simpl in Hc.
    apply In_group_by_count in Hg. destruct Hg as [_ ->].
    apply Z.ltb_lt in Hc. specialize (Hle k). lia.
Qed.

End Unique.

(** ** Primary-key validation *)

Lemma mem_true (k : string) (cols : list string) :
  mem k cols = true <-> In k cols.
Proof.
  unfold mem. destruct (in_dec string_dec k cols); split; auto; discriminate.
Qed.

Lemma mem_false (k : string) (cols : list string) :
  mem k cols = false <-> ~ In k cols.
Proof.
  unfold mem. destruct (in_dec string_dec k cols); split; auto;
    [discriminate|contradiction].
Qed.

Lemma In_missing_keys (keys : list string) (df : DataFrame) (k : string) :
  In k (missing_keys keys df) <-> In k keys /\ ~ In k (names df).
Proof.
  unfold missing_keys. rewrite filter_In, negb_true_iff.
  pose proof (mem_true k (names df)) as Hm.
  destruct (mem k (names df)); intuition congruence.
Qed.

Lemma missing_keys_nil (keys : list string) (df : DataFrame) :
  missing_keys keys df = [] <-> (forall k, In k keys -> In k (names df)).
Proof.
  split.
  - intros Hnil k Hk.
    destruct (in_dec string_dec k (names df)) as [H|H]; [exact H|].
    assert (Hm : In k (missing_keys keys df)) by (apply In_missing_keys; auto).
    rewrite Hnil in Hm. destruct Hm.
  - intros Hall.
    destruct (missing_keys keys df) as [|k t] eqn:E; [reflexivity|].
    assert (Hm : In k (missing_keys keys df)) by (rewrite E; simpl; auto).
    apply In_missing_keys in Hm. destruct Hm as [Hk Hn]. elim Hn. auto.
Qed.

Lemma index_of_In (k : string) (cols : list string) :
  In k cols -> exists i, index_of k cols = Some i.
Proof.
  induction cols as [|c t IH]; simpl; [tauto|].
  intros H. destruct (string_dec k c) as [_|Hne]; [eauto|].
  destruct H as [H|H]; [congruence|].
  destruct (IH H) as [i ->]. eauto.
Qed.

Lemma index_of_Some_In (k : string) (cols : list string) (i : nat) :
  index_of k cols = Some i -> In k cols.
Proof.
  revert i. induction cols as [|c t IH]; simpl; intros i; [discriminate|].
  destruct (string_dec k c) as [->|_]; [auto|].
  destruct (index_of k t); [eauto|discriminate].
Qed.

(** With every key column in the schema, resolving the key columns
    succeeds and projecting a row on them gives its key tuple. *)
Lemma key_indices (keys : list string) (df : DataFrame) :
  (forall k, In k keys -> In k (names df)) ->
  exists idxs,
    mapM (fun c => column_index c df) keys = Ok idxs /\
    forall row, project idxs row = key_tuple keys df row.
Proof.
  induction keys as [|k t IH]; intros Hall.
  - exists []. split; reflexivity.
  - destruct IH as [idxs [Hm Hp]]; [intros; apply Hall; simpl; auto|].
    destruct (index_of_In k (names df)) as [i Hi]; [apply Hall; simpl; auto|].
    exists (i :: idxs). split.
    + simpl. unfold column_index at 1. rewrite Hi. simpl. rewrite Hm.
      reflexivity.
    + intros row. unfold key_tuple in *. simpl. rewrite Hi, Hp. reflexivity.
Qed.

Lemma distinct_NoDup (cols : list string) :
  distinct cols = true <-> NoDup cols.
Proof.
  induction cols as [|c t IH]; simpl.
  - split; [constructor|reflexivity].
  - rewrite andb_true_iff, negb_true_iff, IH.
    pose proof (mem_true c t) as Hm. split.
    + intros [Hc Ht]. constructor; [|exact Ht].
      intros Hin. apply Hm in Hin. congruence.
    + intros H. inversion H; subst. split; [|assumption].
      destruct (mem c t); [|reflexivity]. exfalso. tauto.
Qed.

Lemma select_keys (keys : list string) (df : DataFrame) :
  NoDup keys ->
  missing_keys keys df = [] ->
  select keys df = Ok (mkFrame keys (key_tuples keys df)).
Proof.
  intros Hd Hm.
  destruct (key_indices keys df (proj1 (missing_keys_nil keys df) Hm))
    as [idxs [Hi Hp]].
  unfold select. rewrite Hi. cbn [bind].
  rewrite (proj2 (distinct_NoDup keys) Hd). unfold key_tuples.
  do 2 f_equal. apply map_ext. exact Hp.
Qed.

Lemma select_repeated (keys : list string) (df : DataFrame) :
  ~ NoDup keys ->
  missing_keys keys df = [] ->
  select keys df = Raise DuplicateError.
Proof.
  intros Hd Hm.
  destruct (key_indices keys df (proj1 (missing_keys_nil keys df) Hm))
    as [idxs [Hi Hp]].
  unfold select. rewrite Hi. cbn [bind].
  destruct (distinct keys) eqn:E; [|reflexivity].
  elim Hd. apply distinct_NoDup. exact E.
Qed.

Lemma validate_missing (self : DataComparison.t) (df : DataFrame)
  (label : string) :
  missing_keys (DataComparison.primary_keys self) df <> [] ->
  DataComparison.validate_primary_keys self df label =
  Raise (ValueError
           (PrimaryKeysNotFound
              (missing_keys (DataComparison.primary_keys self) df) label)).
Proof.
  intros H. unfold DataComparison.validate_primary_keys.
  fold (missing_keys (DataComparison.primary_keys self) df).
  destruct (missing_keys (DataComparison.primary_keys self) df);
    [congruence|reflexivity].
Qed.

Lemma validate_no_keys (self : DataComparison.t) (df : DataFrame)
  (label : string) :
  DataComparison.primary_keys self = [] ->
  DataComparison.validate_primary_keys self df label = Raise ComputeError.
Proof.
  intros H. unfold DataComparison.validate_primary_keys. rewrite H.
  reflexivity.
Qed.

Lemma validate_present (self : DataComparison.t) (df : DataFrame)
  (label : string) :
  DataComparison.primary_keys self <> [] ->
  NoDup (DataComparison.primary_keys self) ->
  missing_keys (DataComparison.primary_keys self) df = [] ->
  DataComparison.validate_primary_keys self df label =
  if NoDup_dec tuple_eq_dec (key_tuples (DataComparison.primary_keys self) df)
  then Ok true
  else Raise (ValueError (DuplicatePrimaryKeys label)).
Proof.
  intros Hk Hd H. unfold DataComparison.validate_primary_keys.
  fold (missing_keys (DataComparison.primary_keys self) df).
  rewrite H, (select_keys _ _ Hd H). cbn [bind].
  unfold group_by_columns_count. cbn [names rows].
  destruct (DataComparison.primary_keys self) as [|k0 kt] eqn:Ek;
    [congruence|]. cbn [bind]. rewrite <- Ek.
  set (ks := key_tuples (DataComparison.primary_keys self) df).
  destruct (NoDup_dec tuple_eq_dec ks) as [Hnd|Hdup].
  - apply (duplicate_check_nil tuple_eq_dec) in Hnd. rewrite Hnd. reflexivity.
  - destruct (filter (fun g => 1 <? snd g) (group_by_count tuple_eq_dec ks))
      eqn:E.
    + elim Hdup. apply (duplicate_check_nil tuple_eq_dec). exact E.
    + reflexivity.
Qed.

Lemma validated_inv (self : DataComparison.t) (df : DataFrame)
  (label : string) :
  validated self df label <->
  well_formed_keys (DataComparison.primary_keys self) /\
  missing_keys (DataComparison.primary_keys self) df = [] /\
  NoDup (key_tuples (DataComparison.primary_keys self) df).
Proof.
  unfold validated, well_formed_keys. split.
  - intros H.
    assert (Hk : DataComparison.primary_keys self <> []).
    { intros Hk. rewrite (validate_no_keys _ _ _ Hk) in H. discriminate. }
    destruct (missing_keys (DataComparison.primary_keys self) df) eqn:E.
    + assert (Hd : NoDup (DataComparison.primary_keys self)).
      { destruct (NoDup_dec string_dec (DataComparison.primary_keys self))
          as [Hd|Hd]; [exact Hd|].
        unfold DataComparison.validate_primary_keys in H.
        fold (missing_keys (DataComparison.primary_keys self) df) in H.
        rewrite E, (select_repeated _ _ Hd E) in H. discriminate. }
      split; [split; assumption|]. split; [reflexivity|].
      rewrite (validate_present _ _ _ Hk Hd E) in H.
      destruct (NoDup_dec tuple_eq_dec
                  (key_tuples (DataComparison.primary_keys self) df));
        [assumption|discriminate].
    + rewrite validate_missing in H by (rewrite E; discriminate).
      discriminate.
  - intros [[Hk Hd] [Hm Hnd]]. rewrite (validate_present _ _ _ Hk Hd Hm).
    destruct (NoDup_dec tuple_eq_dec
                (key_tuples (DataComparison.primary_keys self) df));
      [reflexivity|contradiction].
Qed.

(** ** The anti-joins of [compare_datasets] *)

Lemma existsb_is_none (k : list value) :
  existsb is_none k = true <-> In PyNone k.
Proof.
  rewrite existsb_exists. split.
  - intros [v [Hin Hv]]. destruct v; try discriminate. exact Hin.
  - intros H. exists PyNone. auto.
Qed.

Lemma keys_match_true (k1 k2 : list value) :
  keys_match k1 k2 = true <-> ~ In PyNone k1 /\ k1 = k2.
Proof.
  unfold keys_match. rewrite andb_true_iff, negb_true_iff.
  pose proof (existsb_is_none k1) as Hn.
  destruct (existsb is_none k1); destruct (tuple_eq_dec k1 k2);
    intuition congruence.
Qed.

Lemma has_match_true (k : list value) (keys : list (list value)) :
  has_match k keys = true <-> ~ In PyNone k /\ In k keys.
Proof.
  unfold has_match. rewrite existsb_exists. split.
  - intros [k2 [Hin Hm]]. apply keys_match_true in Hm.
    destruct Hm as [Hn ->]. auto.
  - intros [Hn Hin]. exists k. split; [exact Hin|].
    apply keys_match_true. auto.
Qed.

Lemma has_match_ext (k : list value) (keys keys' : list (list value)) :
  (forall x, In x keys <-> In x keys') ->
  has_match k keys = has_match k keys'.
Proof.
  intros H. apply eq_true_iff_eq. rewrite !has_match_true, H. reflexivity.
Qed.


Lemma index_of_nth (k : string) (cols : list string) (i : nat) :
  index_of k cols = Some i -> nth_error cols i = Some k.
Proof.
  revert i. induction cols as [|c t IH]; simpl; intros i; [discriminate|].
  destruct (string_dec k c) as [->|_].
  - intros H. inversion H. reflexivity.
  - destruct (index_of k t) as [j|]; [|discriminate].
    intros H. inversion H. simpl. apply IH. reflexivity.
Qed.

(** In the frame [select(keys)] returns, the key tuple of a row is the
    row itself. *)
Lemma key_tuple_selected (keys : list string) (krows : list (list value))
  (f : string -> value) :
  key_tuple keys (mkFrame keys krows) (map f keys) = map f keys.
Proof.
  unfold key_tuple. simpl. apply map_ext_in. intros k Hk.
  destruct (index_of_In k keys Hk) as [i Hi]. rewrite Hi.
  apply index_of_nth in Hi. unfold cell.
  apply (nth_error_nth _ _ PyNone). rewrite nth_error_map, Hi. reflexivity.
Qed.

Lemma key_tuples_selected (keys : list string) (df : DataFrame)
  (krows : list (list value)) :
  (forall k, In k krows -> In k (key_tuples keys df)) ->
  key_tuples keys (mkFrame keys krows) = krows.
Proof.
  intros Hsub. unfold key_tuples at 1. simpl.
  transitivity (map (fun x : list value => x) krows); [|apply map_id].
  apply map_ext_in. intros k Hk.
  apply Hsub in Hk. unfold key_tuples in Hk. apply in_map_iff in Hk.
  destruct Hk as [row [<- _]]. unfold key_tuple at 2.
  apply key_tuple_selected.
Qed.

(** [left.join(right_keys, on=keys, how='anti')] where [right_keys] is the
    distinct key frame of [right]. *)
Lemma join_anti_unique_keys (keys : list string) (left right : DataFrame) :
  missing_keys keys left = [] ->
  join_anti left
    (unique (mkFrame keys (key_tuples keys right))) keys =
  Ok (mkFrame (names left) (unmatched keys left right)).
Proof.
  intros Hl.
  destruct (key_indices keys left (proj1 (missing_keys_nil keys left) Hl))
    as [li [Hli Hpl]].
  set (uk := unique_from tuple_eq_dec [] (key_tuples keys right)).
  destruct (key_indices keys (mkFrame keys uk)) as [ri [Hri Hpr]];
    [simpl; auto|].
  unfold join_anti, unique. cbn [names rows]. fold uk.
  rewrite Hli. cbn [bind]. rewrite Hri. cbn [bind].
  do 2 f_equal. unfold unmatched. apply filter_ext. intros r.
  rewrite Hpl. f_equal. apply has_match_ext. intros x.
  rewrite (map_ext _ _ Hpr).
  change (map (key_tuple keys (mkFrame keys uk)) uk)
    with (key_tuples keys (mkFrame keys uk)).
  rewrite (key_tuples_selected keys right).
  - unfold uk. rewrite In_unique_from. simpl. tauto.
  - intros k Hk. unfold uk in Hk. apply In_unique_from in Hk. tauto.
Qed.

Lemma suffix_clash_free (current previous : DataFrame) :
  suffix_is_free current previous <->
  suffix_clash current previous "_prev" = false.
Proof.
  unfold suffix_is_free, suffix_clash. split.
  - intros H. destruct (existsb _ (names previous)) eqn:E; [|reflexivity].
    apply existsb_exists in E. destruct E as [c [Hp Hc]].
    apply andb_true_iff in Hc. destruct Hc as [Hcur Hclash].
    apply mem_true in Hcur. destruct (H c Hp Hcur) as [H1 H2].
    apply orb_true_iff in Hclash. rewrite !mem_true in Hclash. tauto.
  - intros H c Hp Hcur.
    assert (Hc : mem c (names current) &&
                 (mem (c ++ "_prev")%string (names current) ||
                  mem (c ++ "_prev")%string (names previous)) = false).
    { destruct (mem c (names current) && _) eqn:E; [|reflexivity].
      rewrite <- H. symmetry. apply existsb_exists. eauto. }
    apply andb_false_iff in Hc. destruct Hc as [Hc|Hc].
    + apply mem_true in Hcur. congruence.
    + apply orb_false_iff in Hc. destruct Hc as [H1 H2]. split.
      * intros Hin. apply mem_true in Hin. congruence.
      * intros Hin. apply mem_true in Hin. congruence.
Qed.

Lemma join_outer_ok (keys : list string) (left right : DataFrame)
  (suffix : string) :
  missing_keys keys left = [] -> missing_keys keys right = [] ->
  suffix_clash left right suffix = false ->
  exists joined, join_outer left right keys suffix = Ok joined.
Proof.
  intros Hl Hr Hs.
  destruct (key_indices keys left (proj1 (missing_keys_nil keys left) Hl))
    as [li [Hli _]].
  destruct (key_indices keys right (proj1 (missing_keys_nil keys right) Hr))
    as [ri [Hri _]].
  unfold join_outer. rewrite Hli. cbn [bind]. rewrite Hri. cbn [bind].
  rewrite Hs. eauto.
Qed.

(** ** [compare_datasets] on validated frames *)

Section Compare.
Variable self : DataComparison.t.
Variables current previous : DataFrame.

(** Once both frames are validated, what is left of [compare_datasets] is
    the two anti-joins, the statistics and the division. *)
Lemma compare_validated :
  validated self current "current" ->
  validated self previous "previous" ->
  let keys := DataComparison.primary_keys self in
  let new := unmatched keys current previous in
  let lapsed := unmatched keys previous current in
  DataComparison.compare_datasets self current previous =
  (ratio <- truediv (len current - Z.of_nat (List.length new))
              (len previous) ;;
   joined <- join_outer current previous keys "_prev" ;;
   Ok (DataComparison.mkComparison joined
         (mkFrame (names previous) lapsed)
         (mkFrame (names current) new)
         (DataComparison.mkStats
            (len current) (len previous)
            (Z.of_nat (List.length lapsed))
            (Z.of_nat (List.length new))
            (ratio * 100)%Q))).
Proof.
  intros Hc Hp keys new lapsed. subst new lapsed.
  pose proof (proj1 (validated_inv _ _ _) Hc) as [[_ Hd] [Hmc _]].
  pose proof (proj1 (validated_inv _ _ _) Hp) as [_ [Hmp _]].
  fold keys in Hd, Hmc, Hmp.
  unfold DataComparison.compare_datasets.
  unfold validated in Hc, Hp. rewrite Hc, Hp. cbn [bind]. fold keys.
  rewrite (select_keys keys current Hd Hmc). cbn [bind].
  rewrite (select_keys keys previous Hd Hmp). cbn [bind].
  rewrite (join_anti_unique_keys keys current previous Hmc). cbn [bind].
  rewrite (join_anti_unique_keys keys previous current Hmp). cbn [bind].
  unfold len at 3 4 5 6. cbn [rows]. reflexivity.
Qed.

Lemma truediv_nonzero (a b : Z) :
  b <> 0 -> truediv a b = Ok (inject_Z a / inject_Z b)%Q.
Proof.
  intros H. unfold truediv. destruct (Z.eqb_spec b 0); [contradiction|].
  reflexivity.
Qed.

(** What [compare_datasets] returns for validated frames, when it
    returns. *)
Lemma compare_Ok (r : DataComparison.comparison) :
  validated self current "current" ->
  validated self previous "previous" ->
  DataComparison.compare_datasets self current previous = Ok r ->
  let keys := DataComparison.primary_keys self in
  let new := unmatched keys current previous in
  let lapsed := unmatched keys previous current in
  exists ratio joined,
    truediv (len current - Z.of_nat (List.length new)) (len previous) =
      Ok ratio /\
    join_outer current previous keys "_prev" = Ok joined /\
    r = DataComparison.mkComparison joined
          (mkFrame (names previous) lapsed)
          (mkFrame (names current) new)
          (DataComparison.mkStats
             (len current) (len previous)
             (Z.of_nat (List.length lapsed))
             (Z.of_nat (List.length new))
             (ratio * 100)%Q).
Proof.
  intros Hc Hp Hr keys new lapsed. rewrite (compare_validated Hc Hp) in Hr.
  fold keys new lapsed in Hr.
  destruct (truediv _ _) as [ratio|]; [|discriminate]. cbn [bind] in Hr.
  destruct (join_outer _ _ _ _) as [joined|]; [|discriminate].
  cbn [bind] in Hr. inversion Hr. eauto.
Qed.

End Compare.

(** ** Counting matched rows *)

Lemma matched_unmatched_length (keys : list string) (left right : DataFrame) :
  (List.length (matched keys left right) +
   List.length (unmatched keys left right))%nat = List.length (rows left).
Proof. unfold matched, unmatched. apply filter_length. Qed.

Lemma matched_keys (keys : list string) (left right : DataFrame) :
  map (key_tuple keys left) (matched keys left right) =
  filter (fun k => has_match k (key_tuples keys right)) (key_tuples keys left).
Proof. unfold matched, key_tuples. symmetry. apply filter_map_swap. Qed.

(** With unique key tuples on both sides, matching pairs the matched rows
    of one frame with those of the other. *)
Lemma matched_length_sym (keys : list string) (left right : DataFrame) :
  NoDup (key_tuples keys left) -> NoDup (key_tuples keys right) ->
  List.length (matched keys left right) = List.length (matched keys right left).
Proof.
  intros Hl Hr.
  rewrite <- (length_map (key_tuple keys left)).
  rewrite <- (length_map (key_tuple keys right) (matched keys right left)).
  rewrite !matched_keys. apply Permutation_length.
  apply NoDup_Permutation; try (apply NoDup_filter; assumption).
  intros k. rewrite !filter_In, !has_match_true. tauto.
Qed.

(** ** Properties of [compare_datasets] *)

(** C1 (as the code behaves): for two validated tables of which previous
    has zero rows, the retention rate is not reported as an error value;
    the division [(total_current - new_count) / total_previous] raises
    [ZeroDivisionError] out of [compare_datasets]. *)
Theorem compare_empty_previous_raises (self : DataComparison.t)
  (current previous : DataFrame) :
  validated self current "current" ->
  validated self previous "previous" ->
  rows previous = [] ->
  DataComparison.compare_datasets self current previous =
  Raise ZeroDivisionError.
Proof.
  intros Hc Hp He.
  rewrite (compare_validated self current previous Hc Hp).
  unfold len at 2. rewrite He. reflexivity.
Qed.

Lemma compare_empty_previous_raises_witness :
  validated by_id (int_frame "id" [1; 2; 3]) "current" /\
  validated by_id (int_frame "id" []) "previous" /\
  rows (int_frame "id" []) = [] /\
  DataComparison.compare_datasets by_id
    (int_frame "id" [1; 2; 3]) (int_frame "id" []) =
  Raise ZeroDivisionError.
Proof.
  repeat (split; [reflexivity|]).
  apply (compare_empty_previous_raises by_id
           (int_frame "id" [1; 2; 3]) (int_frame "id" [])
           eq_refl eq_refl eq_refl).
Defined.








(** ** Numeric outliers *)

Lemma valid_quantiles (p : Q) :
  (0 <= p <= 100)%Q ->
  Qle_bool 0 (p / 100) && Qle_bool (p / 100) 1 = true /\
  Qle_bool 0 (1 - p / 100) && Qle_bool (1 - p / 100) 1 = true.
Proof.
  intros [H1 H2]. rewrite !andb_true_iff, !Qle_bool_iff.
  unfold Qdiv. change (/ 100)%Q with (1 # 100)%Q. repeat split; lra.
Qed.

Lemma quantile_in_range (pick : Q -> list Q -> Q) (q : Q)
  (xs : list (option Q)) :
  Qle_bool 0 q && Qle_bool q 1 = true ->
  quantile pick q xs =
  Ok (match non_null xs with
      | [] => None
      | v :: vs => Some (pick q (v :: vs))
      end).
Proof.
  intros H. unfold quantile. rewrite H. destruct (non_null xs); reflexivity.
Qed.

Lemma as_number_numeric (cells : list value) :
  numeric_column cells ->
  exists xs, mapM as_number cells = Ok xs /\
             (has_non_null cells -> non_null xs <> []).
Proof.
  unfold numeric_column, has_non_null.
  induction cells as [|c t IH]; simpl; intros H.
  - exists []. split; [reflexivity|discriminate].
  - apply andb_true_iff in H. destruct H as [Hc Ht].
    destruct (IH Ht) as [xs [Hxs Hnn]].
    destruct c; try discriminate; simpl; rewrite Hxs; simpl;
      eexists; (split; [reflexivity|]); simpl; auto; discriminate.
Qed.

Lemma In_outlier_row (lower upper : Float64.float64) (c : value)
  (row : list value) :
  In row (OutlierDetector.outlier_row lower upper c) <->
  exists v,
    as_number c = Ok (Some v) /\
    (Float64.lt upper (Float64.of_Q v) = true \/
     Float64.lt (Float64.of_Q v) lower = true) /\
    row = [c; PyStr "IQR";
           PyStr (if Float64.lt upper (Float64.of_Q v)
                  then "above" else "below")].
Proof.
  unfold OutlierDetector.outlier_row.
  destruct (as_number c) as [[v|]|e] eqn:E.
  - cbv zeta.
    destruct (Float64.lt upper (Float64.of_Q v) ||
              Float64.lt (Float64.of_Q v) lower) eqn:B.
    + apply orb_true_iff in B. simpl. split.
      * intros [<-|[]]. exists v. auto.
      * intros [v' [Hv [_ ->]]]. inversion Hv; subst. auto.
    + apply orb_false_iff in B. destruct B as [B1 B2]. simpl. split.
      * tauto.
      * intros [v' [Hv [Hb _]]]. inversion Hv; subst.
        destruct Hb; congruence.
  - simpl. split; [tauto|]. intros [v [Hv _]]. discriminate.
  - simpl. split; [tauto|]. intros [v [Hv _]]. discriminate.
Qed.

(** C2 (amended): for a numeric column with a non-null value that is not
    named [method] or [direction], with Q1 and Q3 the 25th and 75th
    percentiles as floats, IQR = Q3 - Q1 and the two bounds
    Q1 - 1.5 IQR and Q3 + 1.5 IQR computed in 64-bit floating point, the
    rows detection returns are exactly the cells whose value, as a float,
    is greater than the upper bound or less than the lower one, each with
    method IQR and direction "above" when the value is over the upper
    bound and "below" otherwise.  Detection returns whenever the
    percentile threshold is a percentage. *)
Theorem numeric_outliers_are_outside_iqr_bounds
  (pick : Q -> list Q -> Q) (self : OutlierDetector.t) (df : DataFrame)
  (column : string) (cells : list value) :
  get_column column df = Ok cells ->
  numeric_column cells ->
  has_non_null cells ->
  ~ In column ["method"; "direction"] ->
  exists xs q1 q3,
    mapM as_number cells = Ok xs /\
    quantile pick (1 # 4) xs = Ok (Some q1) /\
    quantile pick (3 # 4) xs = Ok (Some q3) /\
    ((0 <= OutlierDetector.percentile_threshold self <= 100)%Q ->
     exists out,
       OutlierDetector._detect_numeric_outliers pick self df column = Ok out) /\
    forall out,
      OutlierDetector._detect_numeric_outliers pick self df column = Ok out ->
      names out = [column; "method"; "direction"] /\
      let Q1 := Float64.of_Q q1 in
      let Q3 := Float64.of_Q q3 in
      let iqr := Float64.sub Q3 Q1 in
      let lower := Float64.sub Q1 (Float64.mul (Float64.of_Q (3 # 2)) iqr) in
      let upper := Float64.add Q3 (Float64.mul (Float64.of_Q (3 # 2)) iqr) in
      forall row,
        In row (rows out) <->
        exists c v direction,
          In c cells /\ as_number c = Ok (Some v) /\
          (Float64.lt upper (Float64.of_Q v) = true \/
           Float64.lt (Float64.of_Q v) lower = true) /\
          (Float64.lt upper (Float64.of_Q v) = true -> direction = "above") /\
          (Float64.lt upper (Float64.of_Q v) = false ->
           direction = "below") /\
          row = [c; PyStr "IQR"; PyStr direction].
Proof.
  intros Hcol Hnum Hnn Hname.
  apply mem_false in Hname.
  destruct (as_number_numeric cells Hnum) as [xs [Hxs Hne]].
  specialize (Hne Hnn).
  destruct (non_null xs) as [|v0 vs] eqn:Env; [congruence|].
  exists xs, (pick (1 # 4) (v0 :: vs)), (pick (3 # 4) (v0 :: vs)).
  split; [exact Hxs|].
  assert (Hq1 : quantile pick (1 # 4) xs = Ok (Some (pick (1 # 4) (v0 :: vs))))
    by (rewrite quantile_in_range, Env; reflexivity).
  assert (Hq3 : quantile pick (3 # 4) xs = Ok (Some (pick (3 # 4) (v0 :: vs))))
    by (rewrite quantile_in_range, Env; reflexivity).
  split; [exact Hq1|]. split; [exact Hq3|].
  unfold OutlierDetector._detect_numeric_outliers.
  rewrite Hcol. cbn [bind]. rewrite Hxs. cbn [bind]. rewrite Hname. split.
  { intros Hpt. destruct (valid_quantiles _ Hpt) as [Hlo Hup].
    rewrite (quantile_in_range _ _ _ Hup). cbn [bind].
    rewrite (quantile_in_range _ _ _ Hlo). cbn [bind].
    rewrite Hq3. cbn [bind]. rewrite Hq1. cbn [bind float]. eauto. }
  intros out.
  destruct (quantile pick (1 - _ / 100)%Q xs); cbn [bind]; [|discriminate].
  destruct (quantile pick (_ / 100)%Q xs); cbn [bind]; [|discriminate].
  rewrite Hq3. cbn [bind]. rewrite Hq1. cbn [bind float].
  intros Hout. inversion Hout; subst out; clear Hout.
  split; [reflexivity|].
  cbv zeta. intros row. cbn [rows].
  set (Q1 := Float64.of_Q (pick (1 # 4) (v0 :: vs))).
  set (Q3 := Float64.of_Q (pick (3 # 4) (v0 :: vs))).
  set (lower := Float64.sub Q1 _). set (upper := Float64.add Q3 _).
  rewrite in_flat_map. split.
  - intros [c [Hc Hrow]]. apply In_outlier_row in Hrow.
    destruct Hrow as [v [Hv [Hb ->]]].
    exists c, v,
      (if Float64.lt upper (Float64.of_Q v) then "above" else "below").
    repeat split; try assumption.
    + intros H. rewrite H. reflexivity.
    + intros H. rewrite H. reflexivity.
  - intros [c [v [direction [Hc [Hv [Hb [Ha [Hbelow ->]]]]]]]].
    exists c. split; [exact Hc|]. apply In_outlier_row. exists v.
    split; [exact Hv|]. split; [exact Hb|].
    destruct (Float64.lt upper (Float64.of_Q v)) eqn:E.
    + rewrite (Ha eq_refl). reflexivity.
    + rewrite (Hbelow eq_refl). reflexivity.
Qed.

Lemma numeric_outliers_are_outside_iqr_bounds_witness :
  get_column "x" readings = Ok (map PyInt [1; 2; 3; 4; 100]) /\
  numeric_column (map PyInt [1; 2; 3; 4; 100]) /\
  has_non_null (map PyInt [1; 2; 3; 4; 100]) /\
  ~ In "x" ["method"; "direction"] /\
  (0 <= OutlierDetector.percentile_threshold default_detector <= 100)%Q /\
  exists out,
    OutlierDetector._detect_numeric_outliers nearest default_detector
      readings "x" = Ok out /\
    names out = ["x"; "method"; "direction"].
Proof.
  assert (Hpt : (0 <= OutlierDetector.percentile_threshold default_detector
                 <= 100)%Q)
    by (split; vm_compute; discriminate).
  assert (Hname : ~ In "x" ["method"; "direction"])
    by (intros [H|[H|[]]]; discriminate).
  repeat (split; [first [reflexivity | exact Hpt | exact Hname]|]).
  destruct (numeric_outliers_are_outside_iqr_bounds nearest default_detector
              readings "x" (map PyInt [1; 2; 3; 4; 100])
              eq_refl eq_refl eq_refl Hname)
    as (xs & q1 & q3 & _ & _ & _ & Hex & Hall).
  destruct (Hex Hpt) as [out Hout].
  exists out. split; [exact Hout|]. exact (proj1 (Hall out Hout)).
Defined.

(** C2 as stated fails in two ways.  Over the numbers themselves it
    fails where the floats are too far apart to hold them: of the
    readings 2^53, 2^53 + 1, 2^53 + 2, 2^53 + 3 and 2^53 + 7 the
    quartiles are 2^53 + 1 and 2^53 + 3, so 2^53 + 7 is above
    Q3 + 1.5 IQR = 2^53 + 6; as floats the quartiles are 2^53 and
    2^53 + 4, the upper bound is 2^53 + 10, the reading is 2^53 + 8, and
    detection returns no row.  And on a column named [method] nothing is
    returned, whatever its values: the select of the three output
    columns raises. *)
Lemma numeric_outliers_counterexample :
  get_column "x" readings_beyond_2_53 =
    Ok (map PyInt
          [9007199254740992; 9007199254740993; 9007199254740994;
           9007199254740995; 9007199254740999]) /\
  (exists xs,
      mapM as_number
        (map PyInt
           [9007199254740992; 9007199254740993; 9007199254740994;
            9007199254740995; 9007199254740999]) = Ok xs /\
      quantile nearest (1 # 4) xs = Ok (Some (inject_Z 9007199254740993)) /\
      quantile nearest (3 # 4) xs = Ok (Some (inject_Z 9007199254740995))) /\
  (let q1 := inject_Z 9007199254740993 in
   let q3 := inject_Z 9007199254740995 in
   inject_Z 9007199254740999 > q3 + (3 # 2) * (q3 - q1))%Q /\
  OutlierDetector._detect_numeric_outliers nearest default_detector
    readings_beyond_2_53 "x" =
  Ok (mkFrame ["x"; "method"; "direction"] []) /\
  OutlierDetector._detect_numeric_outliers nearest default_detector
    readings "x" =
  Ok (mkFrame ["x"; "method"; "direction"]
        [[PyInt 100; PyStr "IQR"; PyStr "above"]]) /\
  OutlierDetector._detect_numeric_outliers nearest default_detector
    (int_frame "method" [1; 2; 3; 4; 100]) "method" =
  Raise DuplicateError.
Proof.
  split; [reflexivity|]. split; [eexists; repeat split; reflexivity|].
  split; [reflexivity|]. split; [vm_compute; reflexivity|].
  split; vm_compute; reflexivity.
Qed.

(** C6 (amended): two detectors that differ only in the percentile
    threshold return the same outliers whenever both return, and they
    behave alike on every column when both thresholds lie between 0 and
    100; the percentile boundary values are computed and dropped. *)
Theorem percentile_threshold_does_not_flag
  (pick : Q -> list Q -> Q) (p1 p2 rare : Q) (df : DataFrame)
  (column : string) :
  (forall out1 out2,
      OutlierDetector._detect_numeric_outliers pick
        (OutlierDetector.mk p1 rare) df column = Ok out1 ->
      OutlierDetector._detect_numeric_outliers pick
        (OutlierDetector.mk p2 rare) df column = Ok out2 ->
      out1 = out2) /\
  ((0 <= p1 <= 100)%Q ->
   (0 <= p2 <= 100)%Q ->
   OutlierDetector._detect_numeric_outliers pick (OutlierDetector.mk p1 rare)
     df column =
   OutlierDetector._detect_numeric_outliers pick (OutlierDetector.mk p2 rare)
     df column).
Proof.
  unfold OutlierDetector._detect_numeric_outliers.
  cbn [OutlierDetector.percentile_threshold].
  destruct (get_column column df) as [cells|e]; cbn [bind];
    [|split; [discriminate|reflexivity]].
  destruct (mapM as_number cells) as [xs|e]; cbn [bind];
    [|split; [discriminate|reflexivity]].
  split.
  - intros out1 out2.
    destruct (quantile pick (1 - p1 / 100)%Q xs); cbn [bind]; [|discriminate].
    destruct (quantile pick (p1 / 100)%Q xs); cbn [bind]; [|discriminate].
    destruct (quantile pick (1 - p2 / 100)%Q xs); cbn [bind]; [|discriminate].
    destruct (quantile pick (p2 / 100)%Q xs); cbn [bind]; [|discriminate].
    destruct (quantile pick (3 # 4) xs) as [q3|]; cbn [bind];
      [|discriminate].
    destruct (quantile pick (1 # 4) xs) as [q1|]; cbn [bind];
      [|discriminate].
    destruct (float q1); cbn [bind]; [|discriminate].
    destruct (float q3); cbn [bind]; [|discriminate].
    congruence.
  - intros H1 H2.
    destruct (valid_quantiles _ H1) as [Hlo1 Hup1].
    destruct (valid_quantiles _ H2) as [Hlo2 Hup2].
    rewrite (quantile_in_range _ _ _ Hup1), (quantile_in_range _ _ _ Hlo1).
    rewrite (quantile_in_range _ _ _ Hup2), (quantile_in_range _ _ _ Hlo2).
    reflexivity.
Qed.

Lemma percentile_threshold_does_not_flag_witness :
  (0 <= 10 <= 100)%Q /\ (0 <= 25 <= 100)%Q /\
  OutlierDetector._detect_numeric_outliers nearest (OutlierDetector.mk 10 1)
    readings "x" =
  OutlierDetector._detect_numeric_outliers nearest (OutlierDetector.mk 25 1)
    readings "x".
Proof.
  assert (H1 : (0 <= 10 <= 100)%Q) by (split; vm_compute; discriminate).
  assert (H2 : (0 <= 25 <= 100)%Q) by (split; vm_compute; discriminate).
  split; [exact H1|]. split; [exact H2|].
  apply (proj2 (percentile_threshold_does_not_flag nearest 10 25 1
                  readings "x") H1 H2).
Defined.

(** C6 as stated fails for a threshold that is not a percentage: with 150
    the quantile [1 - 150/100] is rejected and detection raises, where with
    10 it returns the reading 100. *)
Lemma percentile_threshold_counterexample :
  OutlierDetector._detect_numeric_outliers nearest (OutlierDetector.mk 10 1)
    readings "x" =
  Ok (mkFrame ["x"; "method"; "direction"]
        [[PyInt 100; PyStr "IQR"; PyStr "above"]]) /\
  OutlierDetector._detect_numeric_outliers nearest (OutlierDetector.mk 150 1)
    readings "x" = Raise ComputeError.
Proof. split; reflexivity. Qed.

(** ** Rare categories *)

Lemma get_column_length (column : string) (df : DataFrame)
  (cells : list value) :
  get_column column df = Ok cells ->
  len df = Z.of_nat (List.length cells).
Proof.
  unfold get_column. destruct (column_index column df); [|discriminate].
  cbn [bind]. intros H. inversion H. unfold len. rewrite length_map.
  reflexivity.
Qed.

Lemma combine_maps {A B C : Type} (f : A -> B) (g : A -> C) (l : list A) :
  combine (map f l) (map g l) = map (fun x => (f x, g x)) l.
Proof.
  induction l as [|a t IH]; simpl; [reflexivity|]. rewrite IH. reflexivity.
Qed.

(** What rare-category detection returns for a column the table has,
    unless the column is itself named [count] or [percentage]. *)
Lemma categorical_plain (self : OutlierDetector.t) (df : DataFrame)
  (column : string) (cells : list value) :
  get_column column df = Ok cells ->
  ~ In column ["count"; "percentage"] ->
  OutlierDetector._detect_categorical_outliers self df column =
  Ok (mkFrame [column; "count"; "percentage"]
        (filter (fun row => OutlierDetector.below_threshold self (cell 2 row))
           (map (fun g => [fst g; PyInt (snd g);
                           PyFloat (OutlierDetector.percentage (snd g)
                                      (len df))])
              (group_by_count value_eq_dec cells)))).
Proof.
  intros Hcol Hname.
  assert (Hc : column <> "count") by (intros ->; apply Hname; simpl; auto).
  assert (Hp : "percentage" <> column)
    by (intros <-; apply Hname; simpl; auto).
  unfold OutlierDetector._detect_categorical_outliers.
  rewrite Hcol. cbn [bind]. cbv zeta.
  destruct (string_dec column "count") as [|_]; [contradiction|].
  cbn [bind]. unfold with_column, column_index. cbn [names rows index_of].
  destruct (string_dec "percentage" column) as [|_]; [contradiction|].
  destruct (string_dec "percentage" "count") as [H|_]; [discriminate H|].
  cbn [names rows app index_of].
  destruct (string_dec "percentage" column) as [|_]; [contradiction|].
  destruct (string_dec "percentage" "count") as [H|_]; [discriminate H|].
  destruct (string_dec "percentage" "percentage") as [_|H]; [|congruence].
  cbn [bind try_except]. rewrite combine_maps, map_map. reflexivity.
Qed.

(** C4 (amended): a value of a column not named [count] or [percentage],
    null included, is returned as a rare category exactly when its stored
    percentage is strictly below [rare_category_threshold]; the stored
    percentage is the float quotient of 100 times its count, reduced
    modulo 2^32 as the [UInt32] count column wraps, by the number of rows
    of the column, nulls included; the row carries that count and
    percentage. *)
Theorem rare_categories_by_share_of_rows (self : OutlierDetector.t)
  (df : DataFrame) (column : string) (cells : list value) :
  get_column column df = Ok cells ->
  ~ In column ["count"; "percentage"] ->
  exists out,
    OutlierDetector._detect_categorical_outliers self df column = Ok out /\
    names out = [column; "count"; "percentage"] /\
    forall row,
      In row (rows out) <->
      exists v,
        In v cells /\
        let count := Z.of_nat (count_occ value_eq_dec cells v) in
        let total := Z.of_nat (List.length cells) in
        let share :=
          Float64.to_Q
            (Float64.div (Float64.of_Z ((count * 100) mod 2 ^ 32))
               (Float64.of_Z total)) in
        (share < OutlierDetector.rare_category_threshold self)%Q /\
        row = [v; PyInt count; PyFloat share].
Proof.
  intros Hcol Hname.
  rewrite (categorical_plain self df column cells Hcol Hname).
  rewrite (get_column_length _ _ _ Hcol).
  eexists. split; [reflexivity|]. split; [reflexivity|].
  intros row. cbn [rows]. rewrite filter_In, in_map_iff. split.
  - intros [[[v c] [<- Hg]] Hlt].
    apply In_group_by_count in Hg. destruct Hg as [Hv ->].
    cbn [fst snd] in *. unfold OutlierDetector.below_threshold in Hlt.
    cbn in Hlt. apply Qltb_lt in Hlt.
    exists v. split; [exact Hv|]. split; [exact Hlt|reflexivity].
  - intros [v [Hv [Hlt ->]]]. split.
    + exists (v, Z.of_nat (count_occ value_eq_dec cells v)).
      cbn [fst snd]. split; [reflexivity|].
      apply In_group_by_count. auto.
    + unfold OutlierDetector.below_threshold. cbn. apply Qltb_lt. exact Hlt.
Qed.

Lemma rare_categories_by_share_of_rows_witness :
  get_column "c" categories =
    Ok [PyStr "a"; PyStr "b"; PyStr "b"; PyNone] /\
  ~ In "c" ["count"; "percentage"] /\
  exists out,
    OutlierDetector._detect_categorical_outliers (OutlierDetector.mk 10 30)
      categories "c" = Ok out /\
    names out = ["c"; "count"; "percentage"].
Proof.
  assert (Hname : ~ In "c" ["count"; "percentage"])
    by (intros [H|[H|[]]]; discriminate).
  split; [reflexivity|]. split; [exact Hname|].
  destruct (rare_categories_by_share_of_rows (OutlierDetector.mk 10 30)
              categories "c" [PyStr "a"; PyStr "b"; PyStr "b"; PyNone]
              eq_refl Hname)
    as (out & Hout & Hnames & _).
  exists out. split; assumption.
Defined.

(** C4 as stated fails on a column with a null: [a] is one row of four,
    so it is stored with 25 percent and returned under a threshold of 30,
    while 100 times its count over the three non-null rows is not below
    30.  It also fails where 100 times the count passes 2^32: a value
    that fills all of 42949673 rows is stored with 4 / 42949673 percent,
    below a threshold of 1. *)
Lemma rare_category_counterexample :
  OutlierDetector._detect_categorical_outliers (OutlierDetector.mk 10 30)
    categories "c" =
  Ok (mkFrame ["c"; "count"; "percentage"]
        [[PyStr "a"; PyInt 1; PyFloat 25];
         [PyNone; PyInt 1; PyFloat 25]]) /\
  ~ (percentage_of_non_null
       [PyStr "a"; PyStr "b"; PyStr "b"; PyNone] (PyStr "a") < 30)%Q /\
  ~ (25 ==
     percentage_of_non_null
       [PyStr "a"; PyStr "b"; PyStr "b"; PyNone] (PyStr "a"))%Q /\
  (42949673 * 100) mod 2 ^ 32 = 4 /\
  (OutlierDetector.percentage 42949673 42949673 < 1)%Q.
Proof.
  split; [vm_compute; reflexivity|].
  split; [vm_compute; intros H; discriminate|].
  split; [vm_compute; intros H; discriminate|].
  split; vm_compute; reflexivity.
Qed.

(** ** Dates *)

(** C5 (as the code behaves): the round trip of [_detect_date_outliers]
    does not give the date back.  The cast to [Int64] yields the days since
    the epoch of a [Date] (the ticks of a [Datetime]) and [from_epoch]
    reads the integer as seconds, so the flagged date 2052-02-20 (day
    30000) is returned as the timestamp 30000 seconds after the epoch,
    1970-01-01 08:20:00. *)
Theorem date_outlier_returned_as_seconds :
  get_column "d" policy_dates =
    Ok (map PyDate [18262; 18263; 18264; 18265; 18266; 30000]) /\
  OutlierDetector._detect_date_outliers nearest default_detector
    policy_dates "d" =
  Ok (mkFrame ["method"; "direction"; "d"]
        [[PyStr "IQR"; PyStr "above"; PyDatetime Us 30000000000]]) /\
  PyDatetime Us 30000000000 <> PyDate 30000 /\
  (forall days,
      (ts <- cast_int64 (PyDate days) ;; from_epoch EpochS ts) =
      Ok (PyDatetime Us (wrap_int64 (days * 1000000)))) /\
  (forall tu ticks,
      (ts <- cast_int64 (PyDatetime tu ticks) ;; from_epoch EpochS ts) =
      Ok (PyDatetime Us (wrap_int64 (ticks * 1000000)))).
Proof.
  split; [reflexivity|]. split; [vm_compute; reflexivity|].
  split; [discriminate|]. split; intros; reflexivity.
Qed.

(** ** Classification *)

(** C8 (as the code behaves): a date cell is no instance of the polars
    dtype classes the code tests against, so [_determine_column_type]
    never answers DATE and says CATEGORICAL for a [Date] column; and the
    classification [detect_outliers] uses reads the first cell, null or
    not, so a numeric column that starts with a null
    ([_determine_column_type] says NUMERIC) goes through the rare-category
    method, and so does a [Date] column. *)
Theorem dates_and_leading_nulls_go_categorical :
  OutlierDetector._determine_column_type default_detector policy_dates "d" =
    Ok OutlierDetector.CATEGORICAL /\
  (forall self df column,
      OutlierDetector._determine_column_type self df column <>
      Ok OutlierDetector.DATE) /\
  OutlierDetector._determine_column_type default_detector
    readings_after_null "x" = Ok OutlierDetector.NUMERIC /\
  (exists out,
      OutlierDetector.detect_outliers nearest (OutlierDetector.mk 10 20)
        readings_after_null = Ok [("x", out)] /\
      names out = ["x"; "count"; "percentage"]) /\
  (exists out,
      OutlierDetector.detect_outliers nearest (OutlierDetector.mk 10 20)
        policy_dates = Ok [("d", out)] /\
      names out = ["d"; "count"; "percentage"]).
Proof.
  split; [reflexivity|]. split.
  { intros self df column. unfold OutlierDetector._determine_column_type.
    destruct (get_column column df) as [cells|e]; cbn [bind]; [|discriminate].
    destruct (filter _ cells) as [|v t]; [discriminate|].
    destruct v; simpl; discriminate. }
  split; [reflexivity|].
  split; eexists; split; reflexivity.
Qed.

(** ** Whole-table detection *)

Lemma In_dict_set (results : OutlierDetector.dict) (column : string)
  (outliers : DataFrame) (x : string * DataFrame) :
  (forall o, In (column, o) results -> o = outliers) ->
  In x (OutlierDetector.dict_set results column outliers) <->
  In x results \/ x = (column, outliers).
Proof.
  induction results as [|[k v] t IH]; intros Hsame; simpl.
  - intuition.
  - destruct (string_dec k column) as [->|Hne].
    + rewrite (Hsame v) by (simpl; auto). simpl. intuition.
    + simpl. rewrite IH by (intros o Ho; apply Hsame; simpl; auto).
      intuition.
Qed.

Section Detect.
Variable pick : Q -> list Q -> Q.
Variable self : OutlierDetector.t.
Variable df : DataFrame.

(** The loop never raises, and adds to [results] exactly what each column
    contributes. *)
Lemma detect_loop_spec (columns : list string) :
  forall results : OutlierDetector.dict,
    (forall c o,
        In (c, o) results ->
        OutlierDetector.process_column pick self df c = Ok (Some o)) ->
    exists results',
      OutlierDetector.detect_loop pick self df columns results = Ok results' /\
      forall c o,
        In (c, o) results' <->
        In (c, o) results \/
        (In c columns /\
         OutlierDetector.process_column pick self df c = Ok (Some o)).
Proof.
  induction columns as [|column rest IH]; intros results Hinv.
  - exists results. split; [reflexivity|]. simpl. tauto.
  - cbn [OutlierDetector.detect_loop].
    destruct (OutlierDetector.process_column pick self df column)
      as [[outliers|]|e] eqn:E; cbn [bind try_except].
    + assert (Hsame : forall o, In (column, o) results -> o = outliers).
      { intros o Ho. apply Hinv in Ho. rewrite E in Ho. inversion Ho.
        reflexivity. }
      destruct (IH (OutlierDetector.dict_set results column outliers))
        as [results' [Hloop Hin]].
      { intros c o Hc. apply In_dict_set in Hc; [|exact Hsame].
        destruct Hc as [Hc|Hc]; [auto|]. inversion Hc; subst. exact E. }
      exists results'. split; [exact Hloop|]. intros c o.
      rewrite Hin, (In_dict_set _ _ _ _ Hsame). simpl. split.
      * intros [[H|H]|[H1 H2]]; [auto| |auto].
        inversion H; subst. right. split; [auto|exact E].
      * intros [H|[[<-|H1] H2]]; [auto| |auto].
        left. right. rewrite E in H2.
        inversion H2. reflexivity.
    + destruct (IH results Hinv) as [results' [Hloop Hin]].
      exists results'. split; [exact Hloop|]. intros c o.
      rewrite Hin. simpl. split.
      * intros [H|[H1 H2]]; auto.
      * intros [H|[[<-|H1] H2]]; [auto| |auto].
        rewrite E in H2. discriminate.
    + destruct (IH results Hinv) as [results' [Hloop Hin]].
      exists results'. split; [exact Hloop|]. intros c o.
      rewrite Hin. simpl. split.
      * intros [H|[H1 H2]]; auto.
      * intros [H|[[<-|H1] H2]]; [auto| |auto].
        rewrite E in H2. discriminate.
Qed.

Lemma process_column_no_rows (column : string) (o : DataFrame) :
  rows df = [] ->
  OutlierDetector.process_column pick self df column <> Ok (Some o).
Proof.
  intros Hrows. unfold OutlierDetector.process_column, get_column.
  destruct (column_index column df); cbn [bind]; [|discriminate].
  rewrite Hrows. simpl. discriminate.
Qed.

End Detect.

(** C9: [detect_outliers] always returns a mapping.  A column is in it,
    with its outliers, exactly when processing that column alone returns a
    non-empty outlier frame; a column whose processing raises contributes
    nothing and takes nothing away from the others; a table with zero rows
    gives the empty mapping. *)
Theorem detect_outliers_isolates_columns (pick : Q -> list Q -> Q)
  (self : OutlierDetector.t) (df : DataFrame) :
  exists results,
    OutlierDetector.detect_outliers pick self df = Ok results /\
    (forall column outliers,
        In (column, outliers) results <->
        In column (names df) /\
        OutlierDetector.process_column pick self df column =
        Ok (Some outliers)) /\
    (forall column e,
        OutlierDetector.process_column pick self df column = Raise e ->
        forall outliers, ~ In (column, outliers) results) /\
    (rows df = [] -> results = []).
Proof.
  destruct (detect_loop_spec pick self df (names df) [])
    as [results [Hloop Hin]]; [intros c o []|].
  exists results. split; [exact Hloop|].
  assert (Hiff : forall column outliers,
             In (column, outliers) results <->
             In column (names df) /\
             OutlierDetector.process_column pick self df column =
             Ok (Some outliers)).
  { intros column outliers. rewrite Hin. simpl. tauto. }
  split; [exact Hiff|]. split.
  - intros column e He outliers H. apply Hiff in H.
    destruct H as [_ H]. congruence.
  - intros Hrows. destruct results as [|[c o] t]; [reflexivity|].
    exfalso. destruct (proj1 (Hiff c o)) as [_ H]; [simpl; auto|].
    exact (process_column_no_rows pick self df c o Hrows H).
Qed.

Lemma detect_outliers_isolates_columns_witness :
  OutlierDetector.process_column nearest (OutlierDetector.mk 150 30)
    labelled_readings "x" = Raise ComputeError /\
  OutlierDetector.detect_outliers nearest (OutlierDetector.mk 150 30)
    labelled_readings =
  Ok [("c", mkFrame ["c"; "count"; "percentage"]
              [[PyStr "a"; PyInt 1; PyFloat 25]])] /\
  rows no_rows = [] /\
  exists results,
    OutlierDetector.detect_outliers nearest default_detector no_rows =
    Ok results /\ results = [].
Proof.
  split; [reflexivity|]. split; [reflexivity|]. split; [reflexivity|].
  destruct (detect_outliers_isolates_columns nearest default_detector no_rows)
    as (results & Hret & _ & _ & Hnil).
  exists results. split; [exact Hret|]. apply Hnil. reflexivity.
Defined.

(** * Further properties

    ** More on [compare_datasets] *)

Lemma validated_any_label (self : DataComparison.t) (df : DataFrame)
  (label label' : string) :
  validated self df label -> validated self df label'.
Proof. intros H. apply validated_inv. apply validated_inv in H. exact H. Qed.





(** X2: comparing the two tables the other way round swaps the roles: what
    was new is lapsed, what was lapsed is new, and so are the counts. *)
Theorem swapping_tables_swaps_new_and_lapsed (self : DataComparison.t)
  (a b : DataFrame) (r1 r2 : DataComparison.comparison) :
  validated self a "current" ->
  validated self b "previous" ->
  DataComparison.compare_datasets self a b = Ok r1 ->
  DataComparison.compare_datasets self b a = Ok r2 ->
  let s1 := DataComparison.comparison_stats r1 in
  let s2 := DataComparison.comparison_stats r2 in
  DataComparison.table_new r1 = DataComparison.table_lapsed r2 /\
  DataComparison.table_lapsed r1 = DataComparison.table_new r2 /\
  DataComparison.new_records s1 = DataComparison.lapsed_records s2 /\
  DataComparison.lapsed_records s1 = DataComparison.new_records s2 /\
  DataComparison.total_records_current s1 =
    DataComparison.total_records_previous s2 /\
  DataComparison.total_records_previous s1 =
    DataComparison.total_records_current s2.
Proof.
  intros Ha Hb H1 H2.
  destruct (compare_Ok self a b r1 Ha Hb H1) as (q1 & j1 & _ & _ & ->).
  destruct (compare_Ok self b a r2
              (validated_any_label _ _ _ "current" Hb)
              (validated_any_label _ _ _ "previous" Ha) H2)
    as (q2 & j2 & _ & _ & ->).
  cbn. repeat split; reflexivity.
Qed.

Lemma swapping_tables_swaps_new_and_lapsed_witness :
  validated by_id (int_frame "id" [1; 2; 3]) "current" /\
  validated by_id (int_frame "id" [2; 3; 4]) "previous" /\
  exists r1 r2,
    DataComparison.compare_datasets by_id
      (int_frame "id" [1; 2; 3]) (int_frame "id" [2; 3; 4]) = Ok r1 /\
    DataComparison.compare_datasets by_id
      (int_frame "id" [2; 3; 4]) (int_frame "id" [1; 2; 3]) = Ok r2 /\
    DataComparison.table_new r1 = DataComparison.table_lapsed r2.
Proof.
  split; [reflexivity|]. split; [reflexivity|].
  eexists. eexists. split; [reflexivity|]. split; [reflexivity|].
  exact (proj1 (swapping_tables_swaps_new_and_lapsed by_id
                  (int_frame "id" [1; 2; 3]) (int_frame "id" [2; 3; 4]) _ _
                  eq_refl eq_refl eq_refl eq_refl)).
Defined.

Lemma unmatched_self (keys : list string) (df : DataFrame) :
  (forall row, In row (rows df) -> ~ In PyNone (key_tuple keys df row)) ->
  unmatched keys df df = [].
Proof.
  intros Hnn. unfold unmatched.
  destruct (filter _ (rows df)) as [|row t] eqn:E; [reflexivity|].
  assert (Hin : In row (filter
                         (fun r => negb (has_match (key_tuple keys df r)
                                           (key_tuples keys df))) (rows df)))
    by (rewrite E; simpl; auto).
  apply filter_In in Hin. destruct Hin as [Hrow Hm].
  apply negb_true_iff in Hm.
  assert (Ht : has_match (key_tuple keys df row) (key_tuples keys df) = true).
  { apply has_match_true. split; [apply Hnn; exact Hrow|].
    unfold key_tuples. apply in_map. exact Hrow. }
  congruence.
Qed.

(** X3: comparing a validated table that has a row and no null key with
    itself reports nothing new, nothing lapsed and a retention rate of
    100 (no column being named like another one with [_prev] appended, so
    that the suffixed names of the joined view are new). *)
Theorem comparing_a_table_with_itself (self : DataComparison.t)
  (df : DataFrame) :
  validated self df "current" ->
  rows df <> [] ->
  (forall c, In c (names df) -> ~ In (c ++ "_prev")%string (names df)) ->
  (forall row,
      In row (rows df) ->
      ~ In PyNone (key_tuple (DataComparison.primary_keys self) df row)) ->
  exists r,
    DataComparison.compare_datasets self df df = Ok r /\
    rows (DataComparison.table_new r) = [] /\
    rows (DataComparison.table_lapsed r) = [] /\
    DataComparison.new_records (DataComparison.comparison_stats r) = 0 /\
    DataComparison.lapsed_records (DataComparison.comparison_stats r) = 0 /\
    (DataComparison.retention_rate (DataComparison.comparison_stats r)
     == 100)%Q.
Proof.
  intros Hv Hne Hsfx Hnn.
  pose proof (validated_any_label _ _ _ "previous" Hv) as Hv'.
  pose proof (compare_validated self df df Hv Hv') as E.
  cbv zeta in E.
  pose proof (proj1 (validated_inv _ _ _) Hv) as [_ [Hm _]].
  assert (Hfree : suffix_is_free df df)
    by (intros c Hc _; split; apply Hsfx; exact Hc).
  destruct (join_outer_ok _ df df "_prev" Hm Hm
              (proj1 (suffix_clash_free _ _) Hfree)) as [joined Hj].
  rewrite (unmatched_self _ _ Hnn) in E. cbn [List.length] in E.
  rewrite truediv_nonzero in E
    by (unfold len; destruct (rows df); [congruence|simpl; lia]).
  cbn [bind] in E. rewrite Hj in E. cbn [bind] in E.
  eexists. split; [exact E|]. cbn.
  repeat (split; [reflexivity|]).
  rewrite Z.sub_0_r.
  assert (Hpos : ~ (inject_Z (len df) == 0)%Q).
  { unfold len. destruct (rows df); [congruence|].
    unfold Qeq. simpl. lia. }
  field. exact Hpos.
Qed.

Lemma comparing_a_table_with_itself_witness :
  validated by_id (int_frame "id" [1; 2; 3]) "current" /\
  rows (int_frame "id" [1; 2; 3]) <> [] /\
  (forall c,
      In c (names (int_frame "id" [1; 2; 3])) ->
      ~ In (c ++ "_prev")%string (names (int_frame "id" [1; 2; 3]))) /\
  (forall row,
      In row (rows (int_frame "id" [1; 2; 3])) ->
      ~ In PyNone
          (key_tuple (DataComparison.primary_keys by_id)
             (int_frame "id" [1; 2; 3]) row)) /\
  exists r,
    DataComparison.compare_datasets by_id
      (int_frame "id" [1; 2; 3]) (int_frame "id" [1; 2; 3]) = Ok r /\
    rows (DataComparison.table_new r) = [].
Proof.
  assert (Hne : rows (int_frame "id" [1; 2; 3]) <> []) by discriminate.
  assert (Hsfx : forall c,
             In c (names (int_frame "id" [1; 2; 3])) ->
             ~ In (c ++ "_prev")%string (names (int_frame "id" [1; 2; 3]))).
  { intros c [<-|[]] [H|[]]. discriminate. }
  assert (Hnn : forall row,
             In row (rows (int_frame "id" [1; 2; 3])) ->
             ~ In PyNone
                 (key_tuple (DataComparison.primary_keys by_id)
                    (int_frame "id" [1; 2; 3]) row)).
  { intros row Hrow. simpl in Hrow.
    destruct Hrow as [<-|[<-|[<-|[]]]]; simpl; intros [H|[]]; discriminate. }
  split; [reflexivity|]. split; [exact Hne|]. split; [exact Hsfx|].
  split; [exact Hnn|].
  destruct (comparing_a_table_with_itself by_id (int_frame "id" [1; 2; 3])
              eq_refl Hne Hsfx Hnn) as (r & Hr & Hnew & _).
  exists r. split; assumption.
Defined.

(** ** The joined view *)

Lemma keys_match_sym (a b : list value) : keys_match a b = keys_match b a.
Proof.
  apply eq_true_iff_eq. rewrite !keys_match_true.
  split; intros [Hn He]; subst; auto.
Qed.

Lemma at_most_one_match {A : Type} (f : A -> list value) (k : list value)
  (l : list A) :
  NoDup (map f l) ->
  (List.length (filter (fun r => keys_match k (f r)) l) <= 1)%nat.
Proof.
  induction l as [|a t IH]; simpl; intros Hnd; [lia|].
  inversion Hnd as [|? ? Ha Ht]; subst.
  destruct (keys_match k (f a)) eqn:E; [|auto].
  apply keys_match_true in E. destruct E as [_ ->].
  destruct (filter (fun r => keys_match (f a) (f r)) t) as [|x t'] eqn:Ef;
    [simpl; lia|].
  exfalso. apply Ha.
  assert (Hx : In x (filter (fun r => keys_match (f a) (f r)) t))
    by (rewrite Ef; simpl; auto).
  apply filter_In in Hx. destruct Hx as [Hx Hm].
  apply keys_match_true in Hm. destruct Hm as [_ ->].
  apply in_map. exact Hx.
Qed.

Lemma flat_map_singletons {A B : Type} (f : A -> list B) (l : list A) :
  (forall x, In x l -> List.length (f x) = 1%nat) ->
  List.length (flat_map f l) = List.length l.
Proof.
  induction l as [|a t IH]; simpl; intros H; [reflexivity|].
  rewrite length_app, (H a) by auto. rewrite IH by auto. reflexivity.
Qed.

(** The outer join of a frame with one whose key tuples are unique has one
    row per left row and one more per unmatched right row. *)
Lemma join_outer_length (keys : list string) (left right joined : DataFrame)
  (suffix : string) :
  missing_keys keys left = [] ->
  missing_keys keys right = [] ->
  NoDup (key_tuples keys right) ->
  join_outer left right keys suffix = Ok joined ->
  names joined =
    names left ++
    map (fun c => if mem c (names left) then (c ++ suffix)%string else c)
      (names right) /\
  List.length (rows joined) =
    (List.length (rows left) + List.length (unmatched keys right left))%nat.
Proof.
  intros Hl Hr Hnd.
  destruct (key_indices keys left (proj1 (missing_keys_nil keys left) Hl))
    as [li [Hli Hpl]].
  destruct (key_indices keys right (proj1 (missing_keys_nil keys right) Hr))
    as [ri [Hri Hpr]].
  unfold join_outer. rewrite Hli. cbn [bind]. rewrite Hri. cbn [bind].
  destruct (suffix_clash left right suffix); [discriminate|].
  intros H. inversion H; subst joined; clear H. cbn [names rows].
  split; [reflexivity|].
  rewrite length_app, length_map. f_equal.
  - apply flat_map_singletons. intros l _.
    pose proof (at_most_one_match (project ri) (project li l) (rows right))
      as Hle.
    rewrite (map_ext _ _ Hpr) in Hle. specialize (Hle Hnd).
    destruct (filter _ (rows right)) as [|m [|m' t]]; simpl in *;
      [reflexivity|reflexivity|lia].
  - unfold unmatched. f_equal. apply filter_ext. intros r.
    rewrite Hpr. f_equal. unfold has_match, key_tuples.
    rewrite (map_ext _ _ Hpl).
    induction (map (key_tuple keys left) (rows left)) as [|k t IH];
      [reflexivity|].
    simpl. rewrite IH, keys_match_sym. reflexivity.
Qed.

(** X4: the joined view [compare_datasets] returns for two validated
    tables holds every current row once and every lapsed row once more:
    it has total_current + lapsed_count rows, which is also
    total_previous + new_count; its columns are those of current followed
    by those of previous, suffixed with [_prev] where current has the
    name. *)
Theorem joined_view_has_every_row_once (self : DataComparison.t)
  (current previous : DataFrame) (r : DataComparison.comparison) :
  validated self current "current" ->
  validated self previous "previous" ->
  DataComparison.compare_datasets self current previous = Ok r ->
  let stats := DataComparison.comparison_stats r in
  let joined := DataComparison.joined_data r in
  len joined =
    DataComparison.total_records_current stats +
    DataComparison.lapsed_records stats /\
  len joined =
    DataComparison.total_records_previous stats +
    DataComparison.new_records stats /\
  names joined =
    names current ++
    map (fun c => if mem c (names current) then (c ++ "_prev")%string else c)
      (names previous).
Proof.
  intros Hc Hp Hr.
  destruct (compare_Ok self current previous r Hc Hp Hr)
    as (ratio & joined & _ & Hj & ->).
  pose proof (proj1 (validated_inv _ _ _) Hc) as [_ [Hmc Hnc]].
  pose proof (proj1 (validated_inv _ _ _) Hp) as [_ [Hmp Hnp]].
  destruct (join_outer_length _ _ _ _ _ Hmc Hmp Hnp Hj) as [Hnames Hlen].
  set (keys := DataComparison.primary_keys self) in *.
  pose proof (matched_unmatched_length keys current previous) as H1.
  pose proof (matched_unmatched_length keys previous current) as H2.
  pose proof (matched_length_sym keys current previous Hnc Hnp) as H3.
  cbn -[unmatched len]. unfold len.
  split; [lia|]. split; [lia|exact Hnames].
Qed.

Lemma joined_view_has_every_row_once_witness :
  validated by_id (int_frame "id" [1; 2; 3]) "current" /\
  validated by_id (int_frame "id" [2; 3; 4]) "previous" /\
  exists r,
    DataComparison.compare_datasets by_id
      (int_frame "id" [1; 2; 3]) (int_frame "id" [2; 3; 4]) = Ok r /\
    len (DataComparison.joined_data r) =
    DataComparison.total_records_current (DataComparison.comparison_stats r) +
    DataComparison.lapsed_records (DataComparison.comparison_stats r).
Proof.
  split; [reflexivity|]. split; [reflexivity|].
  eexists. split; [reflexivity|].
  exact (proj1 (joined_view_has_every_row_once by_id
                  (int_frame "id" [1; 2; 3]) (int_frame "id" [2; 3; 4]) _
                  eq_refl eq_refl eq_refl)).
Defined.

(** ** The indicator columns of [identify_lapsed_and_new] *)

Lemma filter_rows_Ok (p : list value -> result (option bool))
  (df out : DataFrame) :
  filter_rows p df = Ok out ->
  out = mkFrame (names df) (filter (holds p) (rows df)).
Proof.
  unfold filter_rows. destruct (mapM p (rows df)); [|discriminate].
  cbn [bind]. intros H. inversion H. reflexivity.
Qed.

Lemma select_Ok (cols : list string) (df out : DataFrame) :
  select cols df = Ok out ->
  exists idxs,
    mapM (fun c => column_index c df) cols = Ok idxs /\
    out = mkFrame cols (map (project idxs) (rows df)).
Proof.
  unfold select.
  destruct (mapM (fun c => column_index c df) cols) as [idxs|];
    [|discriminate].
  cbn [bind]. destruct (distinct cols); [|discriminate].
  intros H. inversion H. eauto.
Qed.

Lemma mapM_column_index_names (cols : list string) (df df' : DataFrame) :
  names df = names df' ->
  mapM (fun c => column_index c df) cols =
  mapM (fun c => column_index c df') cols.
Proof.
  intros H. induction cols as [|c t IH]; [reflexivity|].
  simpl. unfold column_index at 1 3. rewrite H, IH. reflexivity.
Qed.

Lemma holds_in_a_not_b (i j : nat) (row : list value) :
  holds (DataComparison.in_a_not_b i j) row = true <->
  cell i row = PyBool true /\ cell j row = PyBool false.
Proof.
  unfold holds, DataComparison.in_a_not_b.
  destruct (cell i row) as [| [|] | | | | |];
    destruct (cell j row) as [| [|] | | | | |];
    simpl; split; try discriminate; try (intros [? ?]; discriminate); auto.
Qed.

(** What [identify_lapsed_and_new] returns, when it returns. *)
Lemma identify_spec (self : DataComparison.t)
  (joined lapsed new : DataFrame) :
  DataComparison.identify_lapsed_and_new self joined = Ok (lapsed, new) ->
  exists ip ic idxs,
    index_of "in_previous_year" (names joined) = Some ip /\
    index_of "in_current_year" (names joined) = Some ic /\
    mapM (fun c => column_index c joined)
      (DataComparison.clean_columns (names joined)) = Ok idxs /\
    lapsed =
      mkFrame (DataComparison.clean_columns (names joined))
        (map (project idxs)
           (filter (holds (DataComparison.in_a_not_b ip ic)) (rows joined))) /\
    new =
      mkFrame (DataComparison.clean_columns (names joined))
        (map (project idxs)
           (filter (holds (DataComparison.in_a_not_b ic ip)) (rows joined))).
Proof.
  unfold DataComparison.identify_lapsed_and_new, column_index.
  destruct (index_of "in_previous_year" (names joined)) as [ip|];
    [|discriminate].
  destruct (index_of "in_current_year" (names joined)) as [ic|];
    [|discriminate].
  cbn [bind].
  destruct (filter_rows (DataComparison.in_a_not_b ip ic) joined)
    as [l0|] eqn:El; [|discriminate].
  destruct (filter_rows (DataComparison.in_a_not_b ic ip) joined)
    as [n0|] eqn:En; [|discriminate].
  cbn [bind].
  apply filter_rows_Ok in El. apply filter_rows_Ok in En.
  destruct (select _ l0) as [tl|] eqn:Esl; [|discriminate].
  destruct (select _ n0) as [tn|] eqn:Esn; [|discriminate].
  cbn [bind]. intros H. inversion H; subst tl tn; clear H.
  apply select_Ok in Esl. destruct Esl as [idxs [Hi ->]].
  apply select_Ok in Esn. destruct Esn as [idxs' [Hi' ->]].
  rewrite (mapM_column_index_names _ l0 joined) in Hi
    by (subst l0; reflexivity).
  rewrite (mapM_column_index_names _ n0 joined) in Hi'
    by (subst n0; reflexivity).
  assert (idxs' = idxs) by congruence. subst idxs'.
  exists ip, ic, idxs. subst l0 n0. cbn [rows]. auto.
Qed.

(** X5: a row of the joined frame is reported as lapsed by
    [identify_lapsed_and_new] only when its [in_previous_year] cell is true
    and its [in_current_year] cell is false, and as new only the other way
    round: a null indicator, as an outer join leaves on the missing side,
    does not count.  On a joined frame without a false indicator both
    tables are empty. *)
Theorem identify_asks_for_a_false_indicator (self : DataComparison.t)
  (joined lapsed new : DataFrame) :
  DataComparison.identify_lapsed_and_new self joined = Ok (lapsed, new) ->
  exists ip ic idxs,
    index_of "in_previous_year" (names joined) = Some ip /\
    index_of "in_current_year" (names joined) = Some ic /\
    mapM (fun c => column_index c joined)
      (DataComparison.clean_columns (names joined)) = Ok idxs /\
    (forall row,
        In row (rows lapsed) <->
        exists j,
          In j (rows joined) /\ cell ip j = PyBool true /\
          cell ic j = PyBool false /\ row = project idxs j) /\
    (forall row,
        In row (rows new) <->
        exists j,
          In j (rows joined) /\ cell ic j = PyBool true /\
          cell ip j = PyBool false /\ row = project idxs j) /\
    ((forall j, In j (rows joined) -> cell ic j <> PyBool false) ->
     rows lapsed = []) /\
    ((forall j, In j (rows joined) -> cell ip j <> PyBool false) ->
     rows new = []).
Proof.
  intros H. apply identify_spec in H.
  destruct H as (ip & ic & idxs & Hip & Hic & Hidx & -> & ->).
  exists ip, ic, idxs. repeat (split; [assumption|]). cbn [rows].
  assert (Hchar : forall a b row,
             In row (map (project idxs)
                       (filter (holds (DataComparison.in_a_not_b a b))
                          (rows joined))) <->
             exists j,
               In j (rows joined) /\ cell a j = PyBool true /\
               cell b j = PyBool false /\ row = project idxs j).
  { intros a b row. rewrite in_map_iff. split.
    - intros [j [<- Hj]]. apply filter_In in Hj. destruct Hj as [Hj Hh].
      apply holds_in_a_not_b in Hh. exists j. tauto.
    - intros [j [Hj [Ha [Hb ->]]]]. exists j. split; [reflexivity|].
      apply filter_In. split; [exact Hj|]. apply holds_in_a_not_b. auto. }
  assert (Hnone : forall a b,
             (forall j, In j (rows joined) -> cell b j <> PyBool false) ->
             map (project idxs)
               (filter (holds (DataComparison.in_a_not_b a b)) (rows joined))
             = []).
  { intros a b Hb.
    destruct (map _ _) as [|row t] eqn:E; [reflexivity|].
    assert (Hin : In row (map (project idxs)
                            (filter (holds (DataComparison.in_a_not_b a b))
                               (rows joined))))
      by (rewrite E; simpl; auto).
    apply Hchar in Hin. destruct Hin as [j [Hj [_ [Hf _]]]].
    elim (Hb j Hj Hf). }
  split; [apply Hchar|]. split; [apply Hchar|].
  split; apply Hnone.
Qed.

Lemma identify_asks_for_a_false_indicator_witness :
  DataComparison.identify_lapsed_and_new by_id joined_ids =
    Ok (mkFrame ["id"] [], mkFrame ["id"] []) /\
  exists ip ic,
    index_of "in_previous_year" (names joined_ids) = Some ip /\
    index_of "in_current_year" (names joined_ids) = Some ic.
Proof.
  split; [reflexivity|].
  destruct (identify_asks_for_a_false_indicator by_id joined_ids _ _ eq_refl)
    as (ip & ic & idxs & Hip & Hic & _).
  exists ip, ic. split; assumption.
Defined.

(** ** The helper path: prepare, join, identify *)

Lemma index_of_not_In (k : string) (cols : list string) :
  ~ In k cols -> index_of k cols = None.
Proof.
  intros H. destruct (index_of k cols) as [i|] eqn:E; [|reflexivity].
  elim H. exact (index_of_Some_In _ _ _ E).
Qed.

Lemma index_of_app_l (k : string) (l1 l2 : list string) :
  In k l1 -> index_of k (l1 ++ l2) = index_of k l1.
Proof.
  induction l1 as [|c t IH]; simpl; [tauto|].
  intros H. destruct (string_dec k c) as [_|Hne]; [reflexivity|].
  destruct H as [H|H]; [congruence|]. rewrite (IH H). reflexivity.
Qed.

Lemma index_of_app_r (k : string) (l1 l2 : list string) (j : nat) :
  ~ In k l1 -> index_of k l2 = Some j ->
  index_of k (l1 ++ l2) = Some (List.length l1 + j)%nat.
Proof.
  induction l1 as [|c t IH]; simpl; intros Hn Hj; [exact Hj|].
  destruct (string_dec k c) as [->|_]; [elim Hn; auto|].
  rewrite IH by tauto. reflexivity.
Qed.

Lemma index_of_last (k : string) (l : list string) :
  ~ In k l -> index_of k (l ++ [k]) = Some (List.length l).
Proof.
  intros H. rewrite (index_of_app_r k l [k] 0 H).
  - f_equal. lia.
  - simpl. destruct (string_dec k k); [reflexivity|congruence].
Qed.

Lemma combine_map_r {A B : Type} (f : A -> B) (l : list A) :
  combine l (map f l) = map (fun x => (x, f x)) l.
Proof.
  induction l as [|a t IH]; simpl; [reflexivity|]. rewrite IH. reflexivity.
Qed.

Lemma with_literal_fresh (name : string) (v : value) (df : DataFrame) :
  ~ In name (names df) ->
  with_literal name v df =
  mkFrame (names df ++ [name]) (map (fun r => r ++ [v]) (rows df)).
Proof.
  intros H. unfold with_literal, with_column.
  rewrite (index_of_not_In _ _ H), combine_map_r, map_map. reflexivity.
Qed.

Lemma suffixed_is_not_in_previous_year (c : string) :
  (c ++ "_prev")%string <> "in_previous_year".
Proof.
  intros H.
  repeat (destruct c as [|? c]; simpl in H;
          [discriminate H | injection H as _ H]).
  destruct c; discriminate H.
Qed.

Lemma nth_nulls (i : nat) (cols : list string) :
  nth i (map (fun _ : string => PyNone) cols) PyNone = PyNone.
Proof.
  revert i. induction cols as [|c t IH]; intros [|i]; simpl; auto.
Qed.

Section HelperPath.
Variables current previous joined : DataFrame.
Variable keys : list string.
Hypothesis wf_current : well_formed_frame current.
Hypothesis wf_previous : well_formed_frame previous.
Hypothesis fresh_current : ~ In "in_current_year" (names current).
Hypothesis fresh_previous_l : ~ In "in_previous_year" (names current).
Hypothesis fresh_previous_r : ~ In "in_previous_year" (names previous).
Hypothesis joined_is :
  join_outer (with_literal "in_current_year" (PyBool true) current)
    (with_literal "in_previous_year" (PyBool true) previous) keys "_prev" =
  Ok joined.

(** Where the indicator columns sit in the joined frame, and what they
    hold: true on the side a row comes from, null on the other. *)
Lemma joined_indicators :
  let ic := List.length (names current) in
  let ip := (S (List.length (names current))
             + List.length (names previous))%nat in
  index_of "in_current_year" (names joined) = Some ic /\
  index_of "in_previous_year" (names joined) = Some ip /\
  forall j,
    In j (rows joined) ->
    (cell ic j = PyBool true \/ cell ic j = PyNone) /\
    (cell ip j = PyBool true \/ cell ip j = PyNone).
Proof.
  intros ic ip. revert joined_is.
  rewrite (with_literal_fresh _ _ _ fresh_current).
  rewrite (with_literal_fresh _ _ _ fresh_previous_r).
  unfold join_outer. cbn [names rows].
  destruct (mapM _ keys) as [li|]; [|discriminate]. cbn [bind].
  destruct (mapM _ keys) as [ri|]; [|discriminate]. cbn [bind].
  destruct (suffix_clash _ _ _); [discriminate|].
  intros H. inversion H as [Hjoined]; clear H. cbn [names rows].
  set (L := names current ++ ["in_current_year"]).
  set (R := names previous ++ ["in_previous_year"]).
  assert (HlenL : List.length L = S (List.length (names current)))
    by (unfold L; rewrite length_app; simpl; lia).
  assert (HlenR : List.length R = S (List.length (names previous)))
    by (unfold R; rewrite length_app; simpl; lia).
  assert (HnL : ~ In "in_previous_year" L).
  { unfold L. rewrite in_app_iff. simpl. intros [H|[H|[]]];
      [tauto|discriminate]. }
  split; [|split].
  - rewrite index_of_app_l by (unfold L; apply in_or_app; simpl; auto).
    apply index_of_last. exact fresh_current.
  - unfold ip. rewrite <- HlenL. apply index_of_app_r; [exact HnL|].
    unfold R. rewrite map_app. cbn [map].
    replace (mem "in_previous_year" L) with false
      by (symmetry; destruct (mem "in_previous_year" L) eqn:E;
          [apply mem_true in E; tauto|reflexivity]).
    rewrite <- (length_map
                  (fun c => if mem c L then (c ++ "_prev")%string else c)
                  (names previous)).
    apply index_of_last. rewrite in_map_iff. intros [c [Hc Hin]].
    destruct (mem c L).
    + exact (suffixed_is_not_in_previous_year c Hc).
    + subst c. tauto.
  - assert (Hl : forall l, In l (map (fun r => r ++ [PyBool true])
                                   (rows current)) ->
                 forall x d,
                   nth ic (l ++ x) d = PyBool true /\
                   List.length l = List.length L).
    { intros l Hin x d. apply in_map_iff in Hin.
      destruct Hin as [l0 [<- Hl0]]. pose proof (wf_current l0 Hl0) as Hlen.
      split.
      - rewrite <- app_assoc. cbn [app]. unfold ic. rewrite <- Hlen.
        apply nth_middle.
      - rewrite length_app, HlenL. simpl. lia. }
    assert (Hr : forall r, In r (map (fun r => r ++ [PyBool true])
                                   (rows previous)) ->
                 nth (List.length (names previous)) r PyNone = PyBool true).
    { intros r Hin. apply in_map_iff in Hin.
      destruct Hin as [r0 [<- Hr0]]. rewrite <- (wf_previous r0 Hr0).
      apply nth_middle. }
    assert (Hip : ip = (List.length L + List.length (names previous))%nat)
      by (unfold ip; lia).
    intros j Hj. unfold cell. apply in_app_or in Hj.
    destruct Hj as [Hj|Hj].
    + apply in_flat_map in Hj. destruct Hj as [l [Hl0 Hj]].
      destruct (Hl l Hl0 [] PyNone) as [_ HlenL'].
      destruct (filter (fun r => keys_match (project li l) (project ri r)) _)
        as [|m ms] eqn:Ef.
      * destruct Hj as [<-|[]]. split.
        -- left. apply (Hl l Hl0).
        -- right. rewrite Hip, <- HlenL'. rewrite app_nth2_plus.
           apply nth_nulls.
      * change ((l ++ m) :: map (fun r => l ++ r) ms)
          with (map (fun r => l ++ r) (m :: ms)) in Hj.
        apply in_map_iff in Hj. destruct Hj as [r [<- Hr0]].
        rewrite <- Ef in Hr0. apply filter_In in Hr0.
        destruct Hr0 as [Hr0 _]. split.
        -- left. apply (Hl l Hl0).
        -- left. rewrite Hip, <- HlenL'. rewrite app_nth2_plus.
           apply Hr. exact Hr0.
    + apply in_map_iff in Hj. destruct Hj as [r [<- Hr0]].
      apply filter_In in Hr0. destruct Hr0 as [Hr0 _]. split.
      * right. rewrite app_nth1 by (rewrite length_map, HlenL; unfold ic; lia).
        apply nth_nulls.
      * left. rewrite Hip.
        rewrite <- (length_map (fun _ : string => PyNone) L).
        rewrite app_nth2_plus. apply Hr. exact Hr0.
Qed.

End HelperPath.

Lemma mapM_all_Ok {A B : Type} (f : A -> result B) (l : list A) :
  (forall x, In x l -> exists y, f x = Ok y) ->
  exists ys, mapM f l = Ok ys.
Proof.
  induction l as [|a t IH]; intros H; [exists []; reflexivity|].
  destruct (H a) as [y Hy]; [simpl; auto|].
  destruct IH as [ys Hys]; [intros x Hx; apply H; simpl; auto|].
  exists (y :: ys). simpl. rewrite Hy. cbn [bind]. rewrite Hys. reflexivity.
Qed.

Lemma filter_none {A : Type} (f : A -> bool) (l : list A) :
  (forall x, In x l -> f x = false) -> filter f l = [].
Proof.
  induction l as [|a t IH]; intros H; [reflexivity|].
  simpl. rewrite (H a) by (simpl; auto). apply IH.
  intros x Hx. apply H. simpl. auto.
Qed.

Lemma join_datasets_outer
  (other_joins :
     string -> DataFrame -> DataFrame -> list string -> string ->
     result DataFrame)
  (self : DataComparison.t) (current previous : DataFrame) :
  DataComparison.join_type self = "outer" ->
  DataComparison.join_datasets other_joins self current previous =
  join_outer (with_literal "in_current_year" (PyBool true) current)
    (with_literal "in_previous_year" (PyBool true) previous)
    (DataComparison.primary_keys self) "_prev".
Proof.
  intros Hj. unfold DataComparison.join_datasets.
  cbn [DataComparison.prepare_for_comparison]. rewrite Hj. unfold join.
  destruct (string_dec "outer" "outer"); [reflexivity|congruence].
Qed.

(** On a frame whose indicator cells are true or null, both filters of
    [identify_lapsed_and_new] keep nothing, and it returns two frames
    without rows. *)
Lemma identify_without_false (self : DataComparison.t) (joined : DataFrame)
  (ip ic : nat) :
  index_of "in_previous_year" (names joined) = Some ip ->
  index_of "in_current_year" (names joined) = Some ic ->
  (forall j,
      In j (rows joined) ->
      (cell ic j = PyBool true \/ cell ic j = PyNone) /\
      (cell ip j = PyBool true \/ cell ip j = PyNone)) ->
  NoDup (names joined) ->
  DataComparison.identify_lapsed_and_new self joined =
  Ok (mkFrame (DataComparison.clean_columns (names joined)) [],
      mkFrame (DataComparison.clean_columns (names joined)) []).
Proof.
  intros Hip Hic Hcells Hnd.
  assert (Hfilter : forall a b,
             (forall j,
                 In j (rows joined) ->
                 (cell a j = PyBool true \/ cell a j = PyNone) /\
                 (cell b j = PyBool true \/ cell b j = PyNone)) ->
             filter_rows (DataComparison.in_a_not_b a b) joined =
             Ok (mkFrame (names joined) [])).
  { intros a b H. unfold filter_rows.
    destruct (mapM_all_Ok (DataComparison.in_a_not_b a b) (rows joined))
      as [ys ->].
    { intros j Hj. destruct (H j Hj) as [[Ha|Ha] [Hb|Hb]];
        unfold DataComparison.in_a_not_b; rewrite Ha, Hb; simpl; eauto. }
    cbn [bind]. rewrite filter_none; [reflexivity|].
    intros j Hj. destruct (holds _ j) eqn:E; [|reflexivity].
    apply holds_in_a_not_b in E. destruct E as [_ E].
    destruct (H j Hj) as [_ [Hb|Hb]]; congruence. }
  unfold DataComparison.identify_lapsed_and_new, column_index.
  rewrite Hip, Hic. cbn [bind].
  rewrite (Hfilter ip ic) by (intros j Hj; destruct (Hcells j Hj); auto).
  rewrite (Hfilter ic ip) by (intros j Hj; destruct (Hcells j Hj); auto).
  cbn [bind].
  set (clean := DataComparison.clean_columns (names joined)).
  assert (Hsel : select clean (mkFrame (names joined) []) =
                 Ok (mkFrame clean [])).
  { unfold select.
    destruct (key_indices clean (mkFrame (names joined) [])) as [idxs [-> _]].
    { intros k Hk. unfold clean, DataComparison.clean_columns in Hk.
      apply filter_In in Hk. exact (proj1 Hk). }
    cbn [bind].
    rewrite (proj2 (distinct_NoDup clean))
      by (apply NoDup_filter; exact Hnd).
    reflexivity. }
  rewrite Hsel. reflexivity.
Qed.

(** X6: the helper path never finds a record.  When the two prepared
    tables are outer-joined (the default join type of [join_datasets]),
    every indicator is true or null, so [identify_lapsed_and_new] returns
    a lapsed table and a new table without rows, whatever the tables
    hold. *)
Theorem helper_path_finds_no_lapsed_or_new_record
  (other_joins :
     string -> DataFrame -> DataFrame -> list string -> string ->
     result DataFrame)
  (self : DataComparison.t) (current previous joined : DataFrame) :
  DataComparison.join_type self = "outer" ->
  well_formed_frame current ->
  well_formed_frame previous ->
  ~ In "in_current_year" (names current) ->
  ~ In "in_previous_year" (names current) ->
  ~ In "in_previous_year" (names previous) ->
  DataComparison.join_datasets other_joins self current previous =
    Ok joined ->
  NoDup (names joined) ->
  DataComparison.identify_lapsed_and_new self joined =
  Ok (mkFrame (DataComparison.clean_columns (names joined)) [],
      mkFrame (DataComparison.clean_columns (names joined)) []).
Proof.
  intros Hjt Hwc Hwp Hcc Hpc Hpp Hj Hnd.
  rewrite (join_datasets_outer _ _ _ _ Hjt) in Hj.
  destruct (joined_indicators current previous joined _
              Hwc Hwp Hcc Hpc Hpp Hj) as [Hic [Hip Hcells]].
  exact (identify_without_false self joined _ _ Hip Hic Hcells Hnd).
Qed.

Lemma int_frame_well_formed (column : string) (l : list Z) :
  well_formed_frame (int_frame column l).
Proof.
  intros row Hrow. unfold int_frame in Hrow. cbn [rows] in Hrow.
  apply in_map_iff in Hrow. destruct Hrow as [z [<- _]]. reflexivity.
Qed.

Lemma helper_path_finds_no_lapsed_or_new_record_witness :
  DataComparison.join_type by_id = "outer" /\
  well_formed_frame (int_frame "id" [1; 2; 3]) /\
  well_formed_frame (int_frame "id" [2; 3; 4]) /\
  ~ In "in_current_year" (names (int_frame "id" [1; 2; 3])) /\
  ~ In "in_previous_year" (names (int_frame "id" [1; 2; 3])) /\
  ~ In "in_previous_year" (names (int_frame "id" [2; 3; 4])) /\
  DataComparison.join_datasets no_other_join by_id
    (int_frame "id" [1; 2; 3]) (int_frame "id" [2; 3; 4]) = Ok joined_ids /\
  NoDup (names joined_ids) /\
  DataComparison.identify_lapsed_and_new by_id joined_ids =
  Ok (mkFrame ["id"] [], mkFrame ["id"] []).
Proof.
  assert (Hfresh : forall name l,
             name <> "id" -> ~ In name (names (int_frame "id" l)))
    by (intros name l Hne [H|[]]; congruence).
  assert (Hc : ~ In "in_current_year" (names (int_frame "id" [1; 2; 3])))
    by (apply Hfresh; discriminate).
  assert (Hpc : ~ In "in_previous_year" (names (int_frame "id" [1; 2; 3])))
    by (apply Hfresh; discriminate).
  assert (Hpp : ~ In "in_previous_year" (names (int_frame "id" [2; 3; 4])))
    by (apply Hfresh; discriminate).
  assert (Hnd : NoDup (names joined_ids)).
  { apply distinct_NoDup. reflexivity. }
  split; [reflexivity|].
  split; [apply int_frame_well_formed|].
  split; [apply int_frame_well_formed|].
  split; [exact Hc|]. split; [exact Hpc|]. split; [exact Hpp|].
  split; [reflexivity|]. split; [exact Hnd|].
  exact (helper_path_finds_no_lapsed_or_new_record no_other_join by_id
           (int_frame "id" [1; 2; 3]) (int_frame "id" [2; 3; 4]) joined_ids
           eq_refl (int_frame_well_formed _ _) (int_frame_well_formed _ _)
           Hc Hpc Hpp eq_refl Hnd).
Defined.

(** ** Counting the rows of an outer join by the side they come from *)



Section OuterJoinCounts.
Variables left right joined : DataFrame.
Variable keys : list string.
Variable suffix : string.
Variables from_left from_right : list value -> bool.
Hypothesis keys_left : missing_keys keys left = [].
Hypothesis keys_right : missing_keys keys right = [].
Hypothesis unique_left : NoDup (key_tuples keys left).
Hypothesis unique_right : NoDup (key_tuples keys right).
Hypothesis joined_is : join_outer left right keys suffix = Ok joined.
Hypothesis left_rows :
  forall l x, In l (rows left) -> from_left (l ++ x) = true.
Hypothesis left_padding :
  forall r,
    In r (rows right) ->
    from_left (map (fun _ => PyNone) (names left) ++ r) = false.
Hypothesis right_rows :
  forall l r, In r (rows right) -> List.length l = List.length (names left) ->
              from_right (l ++ r) = true.
Hypothesis right_padding :
  forall l,
    In l (rows left) ->
    from_right (l ++ map (fun _ => PyNone) (names right)) = false.


End OuterJoinCounts.

(** ** The statistics of the helper path *)








(** ** The frames [detect_outliers] stores and their summary *)

Lemma flat_map_at_most_one {A B : Type} (f : A -> list B) (l : list A) :
  (forall x, (List.length (f x) <= 1)%nat) ->
  (List.length (flat_map f l) <= List.length l)%nat.
Proof.
  intros H. induction l as [|a t IH]; simpl; [lia|].
  rewrite length_app. specialize (H a). lia.
Qed.

Lemma filter_length_le {A : Type} (f : A -> bool) (l : list A) :
  (List.length (filter f l) <= List.length l)%nat.
Proof.
  induction l as [|a t IH]; simpl; [lia|]. destruct (f a); simpl; lia.
Qed.

Lemma unique_from_length_le {A : Type}
  (eq_dec : forall a b : A, {a = b} + {a <> b}) (seen l : list A) :
  (List.length (unique_from eq_dec seen l) <= List.length l)%nat.
Proof.
  revert seen. induction l as [|a t IH]; intros seen; simpl; [lia|].
  destruct (in_dec eq_dec a seen); simpl.
  - specialize (IH seen). lia.
  - specialize (IH (a :: seen)). lia.
Qed.

Lemma n_unique_bounds (cells : list value) :
  cells <> [] ->
  1 <= n_unique cells <= Z.of_nat (List.length cells).
Proof.
  unfold n_unique. destruct cells as [|v t]; [congruence|]. intros _.
  simpl. destruct (in_dec value_eq_dec v []) as [[]|_].
  pose proof (unique_from_length_le value_eq_dec [v] t).
  cbn [List.length]. lia.
Qed.

Lemma outlier_row_at_most_one (lower upper : Float64.float64) (c : value) :
  (List.length (OutlierDetector.outlier_row lower upper c) <= 1)%nat.
Proof.
  unfold OutlierDetector.outlier_row.
  destruct (as_number c) as [[x|]|]; [|simpl; lia|simpl; lia].
  cbv zeta. destruct (_ || _); simpl; lia.
Qed.

(** The frame numeric detection returns: the column, [method] and
    [direction], with at most one row per row of the table. *)
Lemma numeric_frame_shape (pick : Q -> list Q -> Q)
  (self : OutlierDetector.t) (df : DataFrame) (column : string)
  (o : DataFrame) :
  OutlierDetector._detect_numeric_outliers pick self df column = Ok o ->
  names o = [column; "method"; "direction"] /\
  (List.length (rows o) <= List.length (rows df))%nat.
Proof.
  unfold OutlierDetector._detect_numeric_outliers, get_column.
  destruct (column_index column df) as [i|]; [|discriminate]. cbn [bind].
  destruct (mapM as_number _) as [xs|]; [|discriminate]. cbn [bind].
  destruct (quantile pick _ xs) as [up|]; [|discriminate]. cbn [bind].
  destruct (quantile pick _ xs) as [lo|]; [|discriminate]. cbn [bind].
  destruct (quantile pick _ xs) as [q3|]; [|discriminate]. cbn [bind].
  destruct (quantile pick _ xs) as [q1|]; [|discriminate]. cbn [bind].
  destruct (float q1) as [x1|]; [|discriminate]. cbn [bind].
  destruct (float q3) as [x3|]; [|discriminate]. cbn [bind]. cbv zeta.
  destruct (mem column ["method"; "direction"]); [discriminate|].
  intros H. inversion H. cbn [names rows]. split; [reflexivity|].
  rewrite <- (length_map (cell i) (rows df)).
  apply flat_map_at_most_one. intros c. apply outlier_row_at_most_one.
Qed.

Lemma with_column_length (name : string) (cells : list value)
  (df : DataFrame) :
  (List.length (rows (with_column name cells df)) <=
   List.length (rows df))%nat.
Proof.
  unfold with_column.
  destruct (index_of name (names df)); cbn [rows];
    rewrite length_map, length_combine; lia.
Qed.

Lemma with_column_names (name : string) (cells : list value)
  (df : DataFrame) :
  exists rest, names (with_column name cells df) = (names df ++ rest)%list.
Proof.
  unfold with_column.
  destruct (index_of name (names df)); cbn [names].
  - exists []. rewrite app_nil_r. reflexivity.
  - eexists. reflexivity.
Qed.

(** The frame rare-category detection returns: the frame without columns
    of its [except] branch, or a frame that starts with the column and has
    at most one row per row of the table. *)
Lemma categorical_frame_shape (self : OutlierDetector.t) (df : DataFrame)
  (column : string) :
  exists o,
    OutlierDetector._detect_categorical_outliers self df column = Ok o /\
    (o = empty_frame \/
     (exists rest, names o = column :: rest) /\
     (List.length (rows o) <= List.length (rows df))%nat).
Proof.
  unfold OutlierDetector._detect_categorical_outliers, get_column.
  destruct (column_index column df) as [i|]; cbn [bind try_except];
    [|eexists; split; [reflexivity|left; reflexivity]].
  cbv zeta.
  destruct (string_dec column "count") as [_|_]; cbn [bind try_except];
    [eexists; split; [reflexivity|left; reflexivity]|].
  match goal with
  | |- context [with_column ?n ?c ?f] => set (frequencies := with_column n c f)
  end.
  destruct (column_index "percentage" frequencies) as [j|];
    cbn [bind try_except];
    [|eexists; split; [reflexivity|left; reflexivity]].
  eexists. split; [reflexivity|]. right. cbn [names rows]. split.
  - destruct (with_column_names "percentage"
                (map (fun g => PyFloat (OutlierDetector.percentage (snd g)
                                          (len df)))
                   (group_by_count value_eq_dec (map (cell i) (rows df))))
                (mkFrame [column; "count"]
                   (map (fun g => [fst g; PyInt (snd g)])
                      (group_by_count value_eq_dec
                         (map (cell i) (rows df))))))
      as [rest Hrest].
    fold frequencies in Hrest. rewrite Hrest. cbn [names app]. eauto.
  - etransitivity; [apply filter_length_le|].
    etransitivity; [apply with_column_length|].
    cbn [rows]. rewrite length_map.
    unfold group_by_count. rewrite length_map.
    etransitivity; [apply unique_from_length_le|].
    rewrite length_map. lia.
Qed.

(** A frame [detect_outliers] stores for a column starts with that column,
    has a row, and has no more rows than the table. *)
Lemma process_column_shape (pick : Q -> list Q -> Q)
  (self : OutlierDetector.t) (df : DataFrame) (column : string)
  (o : DataFrame) :
  OutlierDetector.process_column pick self df column = Ok (Some o) ->
  exists rest,
    names o = column :: rest /\
    rows o <> [] /\
    (List.length (rows o) <= List.length (rows df))%nat.
Proof.
  unfold OutlierDetector.process_column.
  destruct (get_column column df) as [[|first t]|]; cbn [bind];
    try discriminate.
  replace (isinstance_pl_Date_Datetime first) with false
    by (destruct first; reflexivity).
  assert (Hne : forall o', is_empty o' = false -> rows o' <> []).
  { intros o' H. unfold is_empty in H. destruct (rows o');
      [discriminate|congruence]. }
  destruct (isinstance_int_float first).
  - destruct (OutlierDetector._detect_numeric_outliers pick self df column)
      as [o'|] eqn:E; cbn [bind]; [|discriminate].
    destruct (is_empty o') eqn:Ee; simpl; intros H; inversion H; subst o'.
    apply numeric_frame_shape in E. destruct E as [Hn Hl].
    eexists. split; [exact Hn|]. split; [apply Hne; exact Ee|exact Hl].
  - destruct (categorical_frame_shape self df column) as [o' [E Hs]].
    rewrite E. cbn [bind].
    destruct (is_empty o') eqn:Ee; simpl; intros H; inversion H; subst o'.
    destruct Hs as [->|[[rest Hn] Hl]]; [discriminate Ee|].
    exists rest. split; [exact Hn|]. split; [apply Hne; exact Ee|exact Hl].
Qed.

Lemma mapM_Forall2 {A B : Type} (f : A -> result B) (P : A -> B -> Prop)
  (l : list A) :
  (forall x, In x l -> exists y, f x = Ok y /\ P x y) ->
  exists ys, mapM f l = Ok ys /\ Forall2 P l ys.
Proof.
  induction l as [|a t IH]; intros H.
  - exists []. split; [reflexivity|constructor].
  - destruct (H a) as [y [Hy Hp]]; [simpl; auto|].
    destruct IH as [ys [Hys HF]]; [intros x Hx; apply H; simpl; auto|].
    exists (y :: ys). split.
    + simpl. rewrite Hy. cbn [bind]. rewrite Hys. reflexivity.
    + constructor; assumption.
Qed.

(** X8: [summarize_outliers] on what [detect_outliers] found.  Both
    return for every table; the summary has one row per column with
    outliers, in the order of the mapping, holding the column, the number
    n of outlier rows, 100 times n as [outlier_percentage] (it is never
    divided by a total) and the number u of distinct cells of that column
    in the outlier frame: u is [n_unique] of those cells, the length of
    a list without repetition that holds exactly those cells, and
    1 <= u <= n <= the number of rows of the table. *)
Theorem summary_of_detected_outliers (pick : Q -> list Q -> Q)
  (self : OutlierDetector.t) (df : DataFrame) :
  exists results summary,
    OutlierDetector.detect_outliers pick self df = Ok results /\
    OutlierDetector.summarize_outliers self results = Ok summary /\
    Forall2
      (fun entry row =>
         exists n u cells distinct_cells,
           row = [PyStr (fst entry); PyInt n; PyInt (n * 100); PyInt u] /\
           n = len (snd entry) /\
           In (fst entry) (names df) /\
           get_column (fst entry) (snd entry) = Ok cells /\
           u = n_unique cells /\
           NoDup distinct_cells /\
           (forall v, In v distinct_cells <-> In v cells) /\
           u = Z.of_nat (List.length distinct_cells) /\
           1 <= u <= n /\ n <= len df)
      results (rows summary).
Proof.
  destruct (detect_loop_spec pick self df (names df) [])
    as [results [Hloop Hin]]; [intros c o []|].
  exists results. unfold OutlierDetector.detect_outliers.
  unfold OutlierDetector.summarize_outliers.
  match goal with
  | |- context [mapM ?f results] =>
      destruct (mapM_Forall2 f
                  (fun entry row =>
                     exists n u cells distinct_cells,
                       row = [PyStr (fst entry); PyInt n; PyInt (n * 100);
                              PyInt u] /\
                       n = len (snd entry) /\
                       In (fst entry) (names df) /\
                       get_column (fst entry) (snd entry) = Ok cells /\
                       u = n_unique cells /\
                       NoDup distinct_cells /\
                       (forall v, In v distinct_cells <-> In v cells) /\
                       u = Z.of_nat (List.length distinct_cells) /\
                       1 <= u <= n /\ n <= len df)
                  results) as [ys [Hys HF]]
  end.
  { intros [c o] Hentry. cbn [fst snd].
    apply Hin in Hentry. destruct Hentry as [[]|[Hc Hp]].
    apply process_column_shape in Hp.
    destruct Hp as [rest [Hn [Hne Hle]]].
    unfold get_column, column_index. rewrite Hn. cbn [index_of].
    destruct (string_dec c c) as [_|Hcc]; [|congruence]. cbn [bind].
    eexists. split; [reflexivity|].
    exists (len o), (n_unique (map (cell 0) (rows o))),
      (map (cell 0) (rows o)),
      (unique_from value_eq_dec [] (map (cell 0) (rows o))).
    split; [reflexivity|]. split; [reflexivity|]. split; [exact Hc|].
    split; [reflexivity|]. split; [reflexivity|].
    split; [apply NoDup_unique_from|].
    split; [intros v; rewrite In_unique_from; simpl; tauto|].
    split; [reflexivity|].
    pose proof (n_unique_bounds (map (cell 0) (rows o))) as Hb.
    rewrite length_map in Hb. unfold len. split; [|lia].
    apply Hb. destruct (rows o); [congruence|discriminate]. }
  rewrite Hys. cbn [bind].
  exists (match ys with
          | [] => empty_frame
          | _ :: _ =>
              mkFrame ["column"; "outlier_count"; "outlier_percentage";
                       "unique_outlier_values"] ys
          end).
  split; [exact Hloop|]. split; [destruct ys; reflexivity|].
  destruct ys; exact HF.
Qed.

(** X9: numeric detection needs a value.  On a column without a non-null
    cell (a table without rows, or a column of nulls)
    [_detect_numeric_outliers] returns no frame: it raises, whatever the
    percentile threshold.  (On a numeric column the quartiles are null
    and it is [float] of the first that raises; polars refuses the
    quantile of a column of another dtype before that.) *)
Theorem numeric_detection_needs_a_value (pick : Q -> list Q -> Q)
  (self : OutlierDetector.t) (df : DataFrame) (column : string)
  (cells : list value) :
  get_column column df = Ok cells ->
  (forall v, In v cells -> v = PyNone) ->
  exists e,
    OutlierDetector._detect_numeric_outliers pick self df column = Raise e.
Proof.
  intros Hcol Hnull.
  assert (Hxs : mapM as_number cells = Ok (map (fun _ => None) cells) /\
                non_null (map (fun _ : value => @None Q) cells) = []).
  { clear Hcol. induction cells as [|c t IH]; [split; reflexivity|].
    destruct IH as [IH1 IH2]; [intros v Hv; apply Hnull; simpl; auto|].
    rewrite (Hnull c) by (simpl; auto). simpl. rewrite IH1. simpl.
    split; [reflexivity|exact IH2]. }
  destruct Hxs as [Hxs Hnn].
  unfold OutlierDetector._detect_numeric_outliers.
  rewrite Hcol. cbn [bind]. rewrite Hxs. cbn [bind].
  unfold quantile. rewrite Hnn.
  repeat match goal with
         | |- context [if ?b then Ok None else Raise ComputeError] =>
             destruct b; cbn [bind]; [|eauto]
         end.
  cbn [float bind]. eauto.
Qed.

Lemma numeric_detection_needs_a_value_witness :
  get_column "x" no_rows = Ok [] /\
  (forall v, In v (@nil value) -> v = PyNone) /\
  OutlierDetector._detect_numeric_outliers nearest default_detector
    no_rows "x" = Raise TypeError /\
  exists e,
    OutlierDetector._detect_numeric_outliers nearest
      (OutlierDetector.mk 150 1) no_rows "x" = Raise e.
Proof.
  assert (Hnull : forall v, In v (@nil value) -> v = PyNone)
    by (intros v []).
  split; [reflexivity|]. split; [exact Hnull|]. split; [reflexivity|].
  exact (numeric_detection_needs_a_value nearest (OutlierDetector.mk 150 1)
           no_rows "x" [] eq_refl Hnull).
Defined.

(** ** The rare-category threshold *)

Lemma binary_round_aux_sign (s : bool) (m e : Z) (l : location) :
  match binary_round_aux Float64.prec Float64.emax s m e l with
  | S754_zero s' | S754_infinity s' | S754_finite s' _ _ => s' = s
  | S754_nan => True
  end.
Proof.
  unfold binary_round_aux.
  destruct (shr_fexp _ _ m e l) as [mrs' e'].
  destruct (shr_fexp _ _ _ e' loc_Exact) as [mrs'' e''].
  destruct (shr_m mrs''); [reflexivity| |exact I].
  destruct (e'' <=? _); reflexivity.
Qed.

Lemma of_Z_not_negative (z : Z) : 0 <= z -> not_negative (Float64.of_Z z).
Proof.
  intros Hz. unfold Float64.of_Z, binary_normalize.
  destruct z as [|m|m]; [reflexivity| |lia].
  unfold binary_round. destruct (shl_align _ _ _) as [mz ez].
  pose proof (binary_round_aux_sign false (Zpos mz) ez loc_Exact) as H.
  unfold not_negative.
  destruct (binary_round_aux _ _ _ _ _ _); auto.
Qed.

Lemma div_not_negative (x y : Float64.float64) :
  not_negative x -> not_negative y -> not_negative (Float64.div x y).
Proof.
  unfold Float64.div, SFdiv.
  destruct x as [sx|sx| |sx mx ex]; destruct y as [sy|sy| |sy my ey];
    simpl; intros Hx Hy; subst; try exact I; try reflexivity.
  destruct (SFdiv_core_binary _ _ _ _ _ _) as [[mz ez] lz].
  pose proof (binary_round_aux_sign false mz ez lz) as H.
  unfold not_negative.
  destruct (binary_round_aux _ _ _ _ _ _); auto.
Qed.

Lemma to_Q_not_negative (x : Float64.float64) :
  not_negative x -> (0 <= Float64.to_Q x)%Q.
Proof.
  unfold not_negative, Float64.to_Q.
  destruct x as [s|s| |s m e]; intros H; try apply Qle_refl.
  subst s. destruct e as [|k|k].
  - change 0%Q with (inject_Z 0). rewrite <- Zle_Qle. lia.
  - change 0%Q with (inject_Z 0). rewrite <- Zle_Qle.
    apply Z.mul_nonneg_nonneg; [lia|]. apply Z.pow_nonneg. lia.
  - rewrite Qred_correct. unfold Qle. cbn [Qnum Qden]. lia.
Qed.

(** The stored percentage is never negative. *)
Lemma percentage_not_negative (count total : Z) :
  0 <= total -> (0 <= OutlierDetector.percentage count total)%Q.
Proof.
  intros Ht. unfold OutlierDetector.percentage.
  apply to_Q_not_negative. apply div_not_negative.
  - apply of_Z_not_negative. apply Z.mod_pos_bound. reflexivity.
  - apply of_Z_not_negative. exact Ht.
Qed.

Lemma below_threshold_mono (self self' : OutlierDetector.t) (v : value) :
  (OutlierDetector.rare_category_threshold self <=
   OutlierDetector.rare_category_threshold self')%Q ->
  OutlierDetector.below_threshold self v = true ->
  OutlierDetector.below_threshold self' v = true.
Proof.
  intros Hle. unfold OutlierDetector.below_threshold.
  destruct (as_number v) as [[p|]|]; try discriminate.
  intros H. apply Qltb_lt. apply Qltb_lt in H.
  exact (Qlt_le_trans _ _ _ H Hle).
Qed.

(** What rare-category detection returns for a column the table has and
    that is not named [count]: the rows of one frame, the same for every
    threshold, whose percentage is below the threshold. *)
Lemma categorical_rows (df : DataFrame) (column : string)
  (cells : list value) :
  get_column column df = Ok cells ->
  column <> "count" ->
  exists columns i frequencies,
    (forall self,
        OutlierDetector._detect_categorical_outliers self df column =
        Ok (mkFrame columns
              (filter
                 (fun row =>
                    OutlierDetector.below_threshold self (cell i row))
                 frequencies))) /\
    forall row,
      In row frequencies ->
      exists count,
        cell i row = PyFloat (OutlierDetector.percentage count (len df)).
Proof.
  intros Hcol Hcount.
  destruct (string_dec column "percentage") as [->|Hp].
  - exists ["percentage"; "count"], 0%nat.
    eexists. split.
    + intros self. unfold OutlierDetector._detect_categorical_outliers.
      rewrite Hcol. cbn [bind]. cbv zeta.
      destruct (string_dec "percentage" "count") as [H|_];
        [discriminate H|].
      cbn [bind]. unfold with_column, column_index. cbn [names rows index_of].
      destruct (string_dec "percentage" "percentage") as [_|H];
        [|congruence].
      cbn [names rows index_of].
      destruct (string_dec "percentage" "percentage") as [_|H];
        [|congruence].
      cbn [bind try_except]. reflexivity.
    + intros row Hrow. apply in_map_iff in Hrow.
      destruct Hrow as [[r c] [<- Hrc]]. cbn [fst snd firstn app cell nth].
      apply in_combine_r in Hrc. apply in_map_iff in Hrc.
      destruct Hrc as [g [<- _]]. eauto.
  - assert (Hname : ~ In column ["count"; "percentage"])
      by (intros [H|[H|[]]]; congruence).
    exists [column; "count"; "percentage"], 2%nat.
    eexists. split.
    + intros self. apply (categorical_plain self df column cells Hcol Hname).
    + intros row Hrow. apply in_map_iff in Hrow.
      destruct Hrow as [g [<- _]]. cbn. eauto.
Qed.

(** X10: rare-category detection never raises, and what it flags grows
    with the threshold.  With a lower threshold every flagged row is also
    flagged under the higher one; a column the table lacks, or a column
    named [count], gives the frame without columns; a threshold of 0 or
    less flags nothing. *)
Theorem rare_category_threshold_is_monotone (self self' : OutlierDetector.t)
  (df : DataFrame) (column : string) :
  (OutlierDetector.rare_category_threshold self <=
   OutlierDetector.rare_category_threshold self')%Q ->
  exists out out',
    OutlierDetector._detect_categorical_outliers self df column = Ok out /\
    OutlierDetector._detect_categorical_outliers self' df column = Ok out' /\
    incl (rows out) (rows out') /\
    (~ In column (names df) -> out = empty_frame) /\
    (column = "count" -> out = empty_frame) /\
    ((OutlierDetector.rare_category_threshold self <= 0)%Q ->
     rows out = []).
Proof.
  intros Hle.
  destruct (get_column column df) as [cells|e] eqn:Hcol.
  - destruct (string_dec column "count") as [Hc|Hc].
    + exists empty_frame, empty_frame.
      unfold OutlierDetector._detect_categorical_outliers.
      rewrite Hcol. cbn [bind]. cbv zeta.
      destruct (string_dec column "count") as [_|H]; [|contradiction].
      cbn [bind try_except].
      split; [reflexivity|]. split; [reflexivity|].
      split; [intros row []|]. repeat split; reflexivity.
    + destruct (categorical_rows df column cells Hcol Hc)
        as (columns & i & frequencies & Hout & Hshare).
      eexists. eexists.
      split; [apply (Hout self)|]. split; [apply (Hout self')|].
      cbn [rows]. split; [|split; [|split]].
      * intros row Hrow. apply filter_In in Hrow. apply filter_In.
        destruct Hrow as [Hrow Hlt]. split; [exact Hrow|].
        exact (below_threshold_mono self self' _ Hle Hlt).
      * intros Hn. exfalso. apply Hn. unfold get_column in Hcol.
        unfold column_index in Hcol.
        destruct (index_of column (names df)) as [j|] eqn:Ej;
          [|discriminate Hcol].
        exact (index_of_Some_In _ _ _ Ej).
      * intros H. contradiction.
      * intros H0. apply filter_none. intros row Hrow.
        destruct (Hshare row Hrow) as [count Hcell].
        unfold OutlierDetector.below_threshold. rewrite Hcell.
        cbn [as_number]. apply Qltb_false. intros Hlt.
        pose proof (percentage_not_negative count (len df)) as Hge.
        apply (Qlt_irrefl 0).
        apply (Qle_lt_trans _ _ _ (Hge (Zle_0_nat _))).
        exact (Qlt_le_trans _ _ _ Hlt H0).
  - exists empty_frame, empty_frame.
    unfold OutlierDetector._detect_categorical_outliers.
    rewrite Hcol. cbn [bind try_except].
    split; [reflexivity|]. split; [reflexivity|].
    split; [intros row []|]. repeat split; reflexivity.
Qed.

Lemma rare_category_threshold_is_monotone_witness :
  (OutlierDetector.rare_category_threshold default_detector <=
   OutlierDetector.rare_category_threshold (OutlierDetector.mk 10 30))%Q /\
  exists out out',
    OutlierDetector._detect_categorical_outliers default_detector
      categories "c" = Ok out /\
    OutlierDetector._detect_categorical_outliers (OutlierDetector.mk 10 30)
      categories "c" = Ok out' /\
    incl (rows out) (rows out').
Proof.
  assert (Hle : (OutlierDetector.rare_category_threshold default_detector <=
                 OutlierDetector.rare_category_threshold
                   (OutlierDetector.mk 10 30))%Q)
    by discriminate.
  split; [exact Hle|].
  destruct (rare_category_threshold_is_monotone default_detector
              (OutlierDetector.mk 10 30) categories "c" Hle)
    as (out & out' & Hout & Hout' & Hincl & _).
  exists out, out'. auto.
Defined.

(** * [DataLoader.validate_columns] *)

Lemma set_difference_NoDup (a b : list string) :
  NoDup a ->
  DataLoader.set_difference a b = filter (fun c => negb (mem c b)) a.
Proof.
  intros H. unfold DataLoader.set_difference.
  apply unique_from_NoDup; [apply NoDup_filter; exact H|].
  intros x _ [].
Qed.

Lemma filter_absent_nil (a b : list string) :
  filter (fun c => negb (mem c b)) a = [] <-> incl a b.
Proof.
  split.
  - intros H x Hx. destruct (in_dec string_dec x b) as [Hb|Hb]; [exact Hb|].
    assert (Hin : In x (filter (fun c => negb (mem c b)) a)).
    { apply filter_In. split; [exact Hx|].
      apply negb_true_iff. apply mem_false. exact Hb. }
    rewrite H in Hin. destruct Hin.
  - intros H. apply filter_none. intros x Hx. apply negb_false_iff.
    apply mem_true. apply H. exact Hx.
Qed.

(** X11: how [validate_columns] ends, for two tables whose column names
    are distinct (as those of a polars frame are).  It returns True
    exactly when the two lists of names are equal.  Otherwise it raises
    with at least one line: the previous columns absent from current and
    the current columns absent from previous, each when there are some,
    and the different-order line exactly when no column is missing, that
    is when one list is a rearrangement of the other. *)
Theorem validate_columns_outcomes (current previous : DataFrame) :
  NoDup (names current) ->
  NoDup (names previous) ->
  let absent_from df := fun c => negb (mem c (names df)) in
  match DataLoader.validate_columns current previous with
  | DataLoader.Returns b => b = true /\ names current = names previous
  | DataLoader.RaisesValueError error_msg =>
      names current <> names previous /\
      error_msg <> [] /\
      (forall cols,
          In (DataLoader.ColumnsMissingInCurrentYear cols) error_msg <->
          cols <> [] /\
          cols = filter (absent_from current) (names previous)) /\
      (forall cols,
          In (DataLoader.ColumnsMissingInPreviousYear cols) error_msg <->
          cols <> [] /\
          cols = filter (absent_from previous) (names current)) /\
      (In DataLoader.ColumnsAreInDifferentOrder error_msg <->
       Permutation (names current) (names previous))
  end.
Proof.
  intros Hc Hp absent_from. unfold DataLoader.validate_columns.
  destruct (list_eq_dec string_dec (names current) (names previous))
    as [Heq|Hne]; [split; [reflexivity|exact Heq]|].
  cbv zeta. rewrite (set_difference_NoDup _ _ Hp).
  rewrite (set_difference_NoDup _ _ Hc).
  fold (absent_from current) (absent_from previous).
  pose proof (filter_absent_nil (names previous) (names current)) as Hmc.
  pose proof (filter_absent_nil (names current) (names previous)) as Hmp.
  fold (absent_from current) in Hmc. fold (absent_from previous) in Hmp.
  assert (Hperm : Permutation (names current) (names previous) <->
                  filter (absent_from current) (names previous) = [] /\
                  filter (absent_from previous) (names current) = []).
  { rewrite Hmc, Hmp. split.
    - intros H. split; intros x Hx.
      + apply (Permutation_in x (Permutation_sym H)). exact Hx.
      + apply (Permutation_in x H). exact Hx.
    - intros [H1 H2]. apply NoDup_Permutation; [exact Hc|exact Hp|].
      intros x. split; [apply H2|apply H1]. }
  split; [exact Hne|].
  destruct (filter (absent_from current) (names previous)) as [|a ta];
    destruct (filter (absent_from previous) (names current)) as [|b tb];
    cbn [DataLoader.truthy orb andb negb app].
  - split; [discriminate|]. split; [|split].
    + intros cols. split; [intros [H|[]]; discriminate|].
      intros [H ->]. congruence.
    + intros cols. split; [intros [H|[]]; discriminate|].
      intros [H ->]. congruence.
    + rewrite Hperm. simpl. tauto.
  - split; [discriminate|]. split; [|split].
    + intros cols. split; [intros [H|[]]; discriminate|].
      intros [H ->]. congruence.
    + intros cols. split.
      * intros [H|[]]. inversion H. split; [discriminate|reflexivity].
      * intros [_ ->]. simpl. auto.
    + rewrite Hperm. split; [intros [H|[]]; discriminate|].
      intros [_ H]. discriminate.
  - split; [discriminate|]. split; [|split].
    + intros cols. split.
      * intros [H|[]]. inversion H. split; [discriminate|reflexivity].
      * intros [_ ->]. simpl. auto.
    + intros cols. split; [intros [H|[]]; discriminate|].
      intros [H ->]. congruence.
    + rewrite Hperm. split; [intros [H|[]]; discriminate|].
      intros [H _]. discriminate.
  - split; [discriminate|]. split; [|split].
    + intros cols. split.
      * intros [H|[H|[]]]; [|discriminate].
        inversion H. split; [discriminate|reflexivity].
      * intros [_ ->]. simpl. auto.
    + intros cols. split.
      * intros [H|[H|[]]]; [discriminate|].
        inversion H. split; [discriminate|reflexivity].
      * intros [_ ->]. simpl. auto.
    + rewrite Hperm. split; [intros [H|[H|[]]]; discriminate|].
      intros [H _]. discriminate.
Qed.

Lemma validate_columns_outcomes_witness :
  NoDup (names labelled_readings) /\
  NoDup (names (mkFrame ["c"; "x"] [])) /\
  DataLoader.validate_columns labelled_readings (mkFrame ["c"; "x"] []) =
    DataLoader.RaisesValueError [DataLoader.ColumnsAreInDifferentOrder] /\
  Permutation (names labelled_readings) (names (mkFrame ["c"; "x"] [])).
Proof.
  assert (H1 : NoDup (names labelled_readings))
    by (apply distinct_NoDup; reflexivity).
  assert (H2 : NoDup (names (mkFrame ["c"; "x"] [])))
    by (apply distinct_NoDup; reflexivity).
  split; [exact H1|]. split; [exact H2|]. split; [reflexivity|].
  pose proof (validate_columns_outcomes labelled_readings
                (mkFrame ["c"; "x"] []) H1 H2) as H.
  apply (proj2 (proj2 (proj2 (proj2 H)))). simpl. auto.
Defined.

(** * [BusinessValidator] *)

(** The rules of a validator built by the constructor: the four standard
    rules, then one rule per custom rule. *)
Lemma init_rules (u : BusinessValidator.rest) (c : BusinessValidator.config)
  (self : BusinessValidator.t) :
  BusinessValidator.init u c = Ok self ->
  BusinessValidator.self_config self = c /\
  exists custom,
    BusinessValidator.rules self =
    [BusinessValidator.inception_date_not_null u;
     BusinessValidator.cancellation_after_inception u;
     BusinessValidator.premium_not_zero u;
     BusinessValidator.premium_exceeds_minimum u c] ++ custom /\
    List.length custom = List.length (BusinessValidator.custom_rules c).
Proof.
  unfold BusinessValidator.init, BusinessValidator._initialize_rules.
  match goal with
  | |- context [mapM ?f (BusinessValidator.custom_rules c)] =>
      destruct (mapM f (BusinessValidator.custom_rules c)) as [custom|] eqn:E
  end; [|discriminate].
  cbn [bind]. intros H. inversion H as [Hself]. clear H Hself. cbn.
  split; [reflexivity|]. exists custom. split; [reflexivity|].
  revert custom E.
  induction (BusinessValidator.custom_rules c) as [|item t IH];
    intros custom E.
  - inversion E. reflexivity.
  - simpl in E.
    destruct (BusinessValidator.ValidationSeverity_of u _); [|discriminate].
    cbn [bind] in E.
    match type of E with
    | context [mapM ?f t] => destruct (mapM f t) as [rest|] eqn:Et
    end; [|discriminate].
    cbn [bind] in E. inversion E. simpl. f_equal. apply IH. reflexivity.
Qed.

(** A rule with a column the table lacks is not applied: its result row
    names the missing columns and counts no violation. *)
Lemma validate_rule_missing (self : BusinessValidator.t) (df : DataFrame)
  (rule : BusinessValidator.ValidationRule) (col : string) :
  In col (BusinessValidator.columns rule) ->
  ~ In col (names df) ->
  exists cols,
    cols <> [] /\
    BusinessValidator._validate_rule self df rule =
    Ok (BusinessValidator.mkResult (BusinessValidator.name rule)
          (BusinessValidator.severity_value (BusinessValidator.severity rule))
          (BusinessValidator.MissingColumns cols) 0).
Proof.
  intros Hin Hn. unfold BusinessValidator._validate_rule.
  destruct (filter (fun col => negb (mem col (names df)))
              (BusinessValidator.columns rule)) as [|m t] eqn:E.
  - exfalso. apply filter_absent_nil in E. exact (Hn (E col Hin)).
  - exists (m :: t). split; [discriminate|reflexivity].
Qed.

(** X12: a table that lacks a column of every rule passes validation.
    For a validator built by the constructor, [validate_data] then returns
    with no error, no warning and no failed validation, each result row
    naming the missing columns with a violation count of 0: the rules are
    not applied. *)
Theorem missing_rule_columns_pass_validation (u : BusinessValidator.rest)
  (c : BusinessValidator.config) (self : BusinessValidator.t)
  (df : DataFrame) :
  BusinessValidator.init u c = Ok self ->
  (forall rule,
      In rule (BusinessValidator.rules self) ->
      exists col,
        In col (BusinessValidator.columns rule) /\ ~ In col (names df)) ->
  exists v,
    BusinessValidator.validate_data u self df = Ok v /\
    BusinessValidator.error_count v = 0 /\
    BusinessValidator.warning_count v = 0 /\
    BusinessValidator.failed_validations v = [] /\
    Forall2
      (fun rule r =>
         BusinessValidator.result_rule_name r = BusinessValidator.name rule /\
         BusinessValidator.violation_count r = 0 /\
         exists cols,
           cols <> [] /\
           BusinessValidator.result_message_cell r =
           BusinessValidator.MissingColumns cols)
      (BusinessValidator.rules self)
      (BusinessValidator.validation_results v).
Proof.
  intros Hinit Hmiss.
  destruct (init_rules u c self Hinit) as [_ [custom [Hrules _]]].
  destruct (mapM_Forall2 (BusinessValidator._validate_rule self df)
              (fun rule r =>
                 BusinessValidator.result_rule_name r =
                 BusinessValidator.name rule /\
                 BusinessValidator.violation_count r = 0 /\
                 exists cols,
                   cols <> [] /\
                   BusinessValidator.result_message_cell r =
                   BusinessValidator.MissingColumns cols)
              (BusinessValidator.rules self)) as [rs [Hrs HF]].
  { intros rule Hrule. destruct (Hmiss rule Hrule) as [col [Hcol Hn]].
    destruct (validate_rule_missing self df rule col Hcol Hn)
      as [cols [Hne ->]].
    eexists. split; [reflexivity|]. cbn. eauto. }
  assert (Hzero : forall r,
             In r rs -> (0 <? BusinessValidator.violation_count r) = false).
  { clear - HF. induction HF as [|rule r rules rs [_ [H0 _]] _ IH];
      intros r' Hin; [destruct Hin|].
    destruct Hin as [<-|Hin]; [rewrite H0; reflexivity|exact (IH r' Hin)]. }
  unfold BusinessValidator.validate_data. rewrite Hrs. cbn [bind].
  destruct rs as [|r0 rs'].
  { rewrite Hrules in HF. inversion HF. }
  eexists. split; [reflexivity|]. cbn -[filter].
  rewrite !filter_none; [auto| | |]; intros r Hr;
    rewrite (Hzero r Hr); try reflexivity; apply andb_false_r.
Qed.

Lemma missing_rule_columns_pass_validation_witness :
  BusinessValidator.init nothing_else no_config = Ok standard_validator /\
  (forall rule,
      In rule (BusinessValidator.rules standard_validator) ->
      exists col,
        In col (BusinessValidator.columns rule) /\
        ~ In col (names (int_frame "id" [1; 2; 3]))) /\
  exists v,
    BusinessValidator.validate_data nothing_else standard_validator
      (int_frame "id" [1; 2; 3]) = Ok v /\
    BusinessValidator.error_count v = 0 /\
    BusinessValidator.failed_validations v = [].
Proof.
  assert (Hmiss : forall rule,
             In rule (BusinessValidator.rules standard_validator) ->
             exists col,
               In col (BusinessValidator.columns rule) /\
               ~ In col (names (int_frame "id" [1; 2; 3]))).
  { intros rule [<-|[<-|[<-|[<-|[]]]]]; eexists;
      (split; [simpl; left; reflexivity|]);
      intros [H|[]]; discriminate. }
  split; [reflexivity|]. split; [exact Hmiss|].
  destruct (missing_rule_columns_pass_validation nothing_else no_config
              standard_validator (int_frame "id" [1; 2; 3]) eq_refl Hmiss)
    as (v & Hv & He & _ & Hf & _).
  exists v. auto.
Defined.

(** ** The standard rules on typed columns *)

Lemma filter_rows_total (p : list value -> result (option bool))
  (df : DataFrame) :
  (forall row, In row (rows df) -> exists b, p row = Ok b) ->
  filter_rows p df = Ok (mkFrame (names df) (filter (holds p) (rows df))).
Proof.
  intros H. unfold filter_rows.
  destruct (mapM_all_Ok p (rows df) H) as [ys ->]. reflexivity.
Qed.

Lemma column_of_index (p : value -> bool) (column : string)
  (df : DataFrame) :
  column_of p column df ->
  exists i,
    index_of column (names df) = Some i /\
    column_index column df = Ok i /\
    (forall row, cell_of column df row = cell i row) /\
    (forall row, In row (rows df) -> p (cell i row) = true).
Proof.
  intros [Hin Hp]. destruct (index_of_In _ _ Hin) as [i Hi].
  exists i. split; [exact Hi|]. split.
  - unfold column_index. rewrite Hi. reflexivity.
  - assert (Hc : forall row, cell_of column df row = cell i row)
      by (intros row; unfold cell_of; rewrite Hi; reflexivity).
    split; [exact Hc|]. intros row Hrow. rewrite <- Hc. exact (Hp row Hrow).
Qed.

Lemma column_index_missing (column : string) (df : DataFrame) :
  ~ In column (names df) ->
  column_index column df = Raise (ColumnNotFoundError column).
Proof.
  intros H. unfold column_index. rewrite (index_of_not_In _ _ H). reflexivity.
Qed.

Lemma inception_func_returns (u : BusinessValidator.rest) (df : DataFrame) :
  In "CoverStartDate" (names df) ->
  BusinessValidator.inception_date_not_null_func u df ["CoverStartDate"] =
  Ok (mkFrame (names df) (filter (start_is_null df) (rows df))).
Proof.
  intros Hin. destruct (index_of_In _ _ Hin) as [i Hi].
  unfold BusinessValidator.inception_date_not_null_func, column_index.
  rewrite Hi. cbn [bind].
  rewrite filter_rows_total by (intros row _; eauto).
  do 2 f_equal. apply filter_ext. intros row.
  unfold holds, start_is_null, cell_of. rewrite Hi.
  destruct (is_none (cell i row)); reflexivity.
Qed.

Lemma cancellation_func_returns (u : BusinessValidator.rest)
  (df : DataFrame) :
  column_of is_date_cell "CoverEndDate" df ->
  column_of is_date_cell "CoverStartDate" df ->
  BusinessValidator.cancellation_after_inception_func u df
    ["CoverEndDate"; "CoverStartDate"] =
  Ok (mkFrame (names df) (filter (ends_after_start df) (rows df))).
Proof.
  intros He Hs.
  destruct (column_of_index _ _ _ He) as (ie & _ & Hie & Hce & Hpe).
  destruct (column_of_index _ _ _ Hs) as (i_s & _ & His & Hcs & Hps).
  unfold BusinessValidator.cancellation_after_inception_func.
  rewrite Hie, His. cbn [bind].
  rewrite filter_rows_total.
  - do 2 f_equal. apply filter_ext_in. intros row Hrow.
    unfold holds, ends_after_start. rewrite Hce, Hcs.
    specialize (Hpe row Hrow). specialize (Hps row Hrow).
    destruct (cell ie row) as [| | | | |e|]; try discriminate Hpe;
      destruct (cell i_s row) as [| | | | |s|]; try discriminate Hps;
      try reflexivity.
    cbn. destruct (Z.compare_spec e s); destruct (Z.ltb_spec s e);
      first [reflexivity | lia].
  - intros row Hrow.
    specialize (Hpe row Hrow). specialize (Hps row Hrow).
    destruct (cell ie row) as [| | | | |e|]; try discriminate Hpe;
      destruct (cell i_s row) as [| | | | |s|]; try discriminate Hps;
      cbn; eauto.
Qed.

Lemma not_Gt_is_le (x y : Q) :
  match (x ?= y)%Q with Gt => false | _ => true end = Qle_bool x y.
Proof.
  destruct (x ?= y)%Q eqn:C; destruct (Qle_bool x y) eqn:E;
    try reflexivity; exfalso.
  - apply Qeq_alt in C.
    assert (H : ~ (x <= y)%Q) by (rewrite <- Qle_bool_iff; congruence).
    lra.
  - apply Qlt_alt in C.
    assert (H : ~ (x <= y)%Q) by (rewrite <- Qle_bool_iff; congruence).
    lra.
  - apply Qgt_alt in C. apply Qle_bool_iff in E. lra.
Qed.

Lemma is_Lt_is_ltb (x y : Q) :
  match (x ?= y)%Q with Lt => true | _ => false end = Qltb x y.
Proof.
  destruct (x ?= y)%Q eqn:C; destruct (Qltb x y) eqn:E;
    try reflexivity; exfalso.
  - apply Qeq_alt in C. apply Qltb_lt in E. lra.
  - apply Qlt_alt in C. apply Qltb_false in E. lra.
  - apply Qgt_alt in C. apply Qltb_lt in E. lra.
Qed.

Lemma premium_not_zero_returns (u : BusinessValidator.rest)
  (df : DataFrame) :
  column_of is_numeric_cell "MonthlyPremium" df ->
  BusinessValidator.premium_not_zero_func u df ["MonthlyPremium"] =
  Ok (mkFrame (names df)
        (filter (premium_null_or_not_positive df) (rows df))).
Proof.
  intros Hp.
  destruct (column_of_index _ _ _ Hp) as (i & _ & Hi & Hc & Hn).
  unfold BusinessValidator.premium_not_zero_func.
  rewrite Hi. cbn [bind].
  rewrite filter_rows_total.
  - do 2 f_equal. apply filter_ext_in. intros row Hrow.
    unfold holds, premium_null_or_not_positive. rewrite Hc.
    specialize (Hn row Hrow).
    destruct (cell i row) as [| |z|q| | |]; try discriminate Hn;
      [reflexivity| |].
    + cbn. rewrite <- (not_Gt_is_le (inject_Z z) 0).
      change (inject_Z 0) with 0%Q.
      destruct (inject_Z z ?= 0)%Q; reflexivity.
    + cbn. rewrite <- (not_Gt_is_le q 0).
      change (inject_Z 0) with 0%Q.
      destruct (q ?= 0)%Q; reflexivity.
  - intros row Hrow. specialize (Hn row Hrow).
    destruct (cell i row); try discriminate Hn; cbn; eauto.
Qed.

Lemma premium_minimum_returns (u : BusinessValidator.rest)
  (c : BusinessValidator.config) (df : DataFrame) :
  column_of is_numeric_cell "MonthlyPremium" df ->
  BusinessValidator.premium_exceeds_minimum_func u c df ["MonthlyPremium"] =
  Ok (mkFrame (names df)
        (filter (premium_below (BusinessValidator.get_min_premium c) df)
           (rows df))).
Proof.
  intros Hp.
  destruct (column_of_index _ _ _ Hp) as (i & _ & Hi & Hc & Hn).
  unfold BusinessValidator.premium_exceeds_minimum_func.
  rewrite Hi. cbn [bind].
  rewrite filter_rows_total.
  - do 2 f_equal. apply filter_ext_in. intros row Hrow.
    unfold holds, premium_below. rewrite Hc.
    specialize (Hn row Hrow).
    destruct (cell i row) as [| |z|q| | |]; try discriminate Hn;
      [reflexivity| |].
    + cbn. rewrite <- is_Lt_is_ltb.
      destruct (inject_Z z ?= _)%Q; reflexivity.
    + cbn. rewrite <- is_Lt_is_ltb.
      destruct (q ?= _)%Q; reflexivity.
  - intros row Hrow. specialize (Hn row Hrow).
    destruct (cell i row); try discriminate Hn; cbn; eauto.
Qed.

(** A rule whose distinct columns the table has and whose function returns
    some of the table's rows gets a result row with their number. *)
Lemma validate_rule_counts (self : BusinessValidator.t) (df : DataFrame)
  (rule : BusinessValidator.ValidationRule) (kept : list (list value)) :
  (forall col, In col (BusinessValidator.columns rule) -> In col (names df)) ->
  NoDup (BusinessValidator.columns rule) ->
  BusinessValidator.validation_func rule df (BusinessValidator.columns rule) =
    Ok (mkFrame (names df) kept) ->
  exists r,
    BusinessValidator._validate_rule self df rule = Ok r /\
    BusinessValidator.result_rule_name r = BusinessValidator.name rule /\
    BusinessValidator.result_severity r =
      BusinessValidator.severity_value (BusinessValidator.severity rule) /\
    BusinessValidator.violation_count r = Z.of_nat (List.length kept).
Proof.
  intros Hcols Hnd Hfunc. unfold BusinessValidator._validate_rule.
  rewrite (proj2 (filter_absent_nil _ _)) by exact Hcols.
  rewrite Hfunc. cbn [bind].
  destruct (0 <? len (mkFrame (names df) kept)).
  - rewrite (select_keys (BusinessValidator.columns rule)
               (mkFrame (names df) kept) Hnd)
      by (apply missing_keys_nil; exact Hcols).
    cbn [bind]. eexists. split; [reflexivity|]. cbn. auto.
  - eexists. split; [reflexivity|]. cbn. auto.
Qed.

Lemma standard_rules_of (u : BusinessValidator.rest)
  (c : BusinessValidator.config) (self : BusinessValidator.t) :
  BusinessValidator.init u c = Ok self ->
  In (BusinessValidator.inception_date_not_null u)
    (BusinessValidator.rules self) /\
  In (BusinessValidator.cancellation_after_inception u)
    (BusinessValidator.rules self) /\
  In (BusinessValidator.premium_not_zero u) (BusinessValidator.rules self) /\
  In (BusinessValidator.premium_exceeds_minimum u c)
    (BusinessValidator.rules self).
Proof.
  intros H. destruct (init_rules u c self H) as [_ [custom [-> _]]].
  simpl. tauto.
Qed.

Lemma filter_length_monotone {A : Type} (p q : A -> bool) (l : list A) :
  (forall x, In x l -> p x = true -> q x = true) ->
  (List.length (filter p l) <= List.length (filter q l))%nat.
Proof.
  induction l as [|a t IH]; intros H; simpl; [lia|].
  assert (IH' : (List.length (filter p t) <= List.length (filter q t))%nat)
    by (apply IH; intros x Hx; apply H; simpl; auto).
  destruct (p a) eqn:Ep.
  - rewrite (H a) by (simpl; auto). simpl. lia.
  - destruct (q a); simpl; lia.
Qed.

(** X13: the date rule counts the policies that end after they start.
    On date columns, [cancellation_after_inception] (an error rule of
    every validator, with the message that CoverEndDate must be after
    CoverStartDate) reports as violations exactly the rows that have both
    dates with CoverEndDate later than CoverStartDate; a policy that ends
    on or before its start date is not counted. *)
Theorem end_after_start_counts_as_violation (u : BusinessValidator.rest)
  (c : BusinessValidator.config) (self : BusinessValidator.t)
  (df : DataFrame) :
  BusinessValidator.init u c = Ok self ->
  column_of is_date_cell "CoverEndDate" df ->
  column_of is_date_cell "CoverStartDate" df ->
  In (BusinessValidator.cancellation_after_inception u)
    (BusinessValidator.rules self) /\
  exists r,
    BusinessValidator._validate_rule self df
      (BusinessValidator.cancellation_after_inception u) = Ok r /\
    BusinessValidator.result_rule_name r = "cancellation_after_inception" /\
    BusinessValidator.result_severity r = "error" /\
    BusinessValidator.violation_count r = count_rows (ends_after_start df) df.
Proof.
  intros Hinit He Hs.
  split; [apply (standard_rules_of u c self Hinit)|].
  apply (validate_rule_counts self df
           (BusinessValidator.cancellation_after_inception u)).
  - intros col [<-|[<-|[]]]; [apply He|apply Hs].
  - apply distinct_NoDup. reflexivity.
  - exact (cancellation_func_returns u df He Hs).
Qed.

Lemma end_after_start_counts_as_violation_witness :
  BusinessValidator.init nothing_else no_config = Ok standard_validator /\
  column_of is_date_cell "CoverEndDate" policies /\
  column_of is_date_cell "CoverStartDate" policies /\
  count_rows (ends_after_start policies) policies = 1 /\
  exists r,
    BusinessValidator._validate_rule standard_validator policies
      (BusinessValidator.cancellation_after_inception nothing_else) = Ok r /\
    BusinessValidator.violation_count r =
    count_rows (ends_after_start policies) policies.
Proof.
  assert (He : column_of is_date_cell "CoverEndDate" policies).
  { split; [simpl; auto|].
    intros row [<-|[<-|[<-|[<-|[]]]]]; reflexivity. }
  assert (Hs : column_of is_date_cell "CoverStartDate" policies).
  { split; [simpl; auto|].
    intros row [<-|[<-|[<-|[<-|[]]]]]; reflexivity. }
  split; [reflexivity|]. split; [exact He|]. split; [exact Hs|].
  split; [reflexivity|].
  destruct (end_after_start_counts_as_violation nothing_else no_config
              standard_validator policies eq_refl He Hs)
    as (_ & r & Hr & _ & _ & Hcount).
  exists r. auto.
Defined.

(** X14: what the two premium rules count on a numeric MonthlyPremium
    column.  [premium_not_zero], an error rule, counts the rows whose
    premium is null or not above zero; [premium_exceeds_minimum], a
    warning rule, counts the rows whose premium is a number below
    [min_premium] (0 when the config has none) and no null.  With a
    minimum of 0 or less every row of the warning is also a row of the
    error. *)
Theorem premium_rules_count (u : BusinessValidator.rest)
  (c : BusinessValidator.config) (self : BusinessValidator.t)
  (df : DataFrame) :
  BusinessValidator.init u c = Ok self ->
  column_of is_numeric_cell "MonthlyPremium" df ->
  exists r3 r4,
    In (BusinessValidator.premium_not_zero u)
      (BusinessValidator.rules self) /\
    In (BusinessValidator.premium_exceeds_minimum u c)
      (BusinessValidator.rules self) /\
    BusinessValidator._validate_rule self df
      (BusinessValidator.premium_not_zero u) = Ok r3 /\
    BusinessValidator._validate_rule self df
      (BusinessValidator.premium_exceeds_minimum u c) = Ok r4 /\
    BusinessValidator.result_severity r3 = "error" /\
    BusinessValidator.result_severity r4 = "warning" /\
    BusinessValidator.violation_count r3 =
      count_rows (premium_null_or_not_positive df) df /\
    BusinessValidator.violation_count r4 =
      count_rows (premium_below (BusinessValidator.get_min_premium c) df)
        df /\
    ((BusinessValidator.get_min_premium c <= 0)%Q ->
     BusinessValidator.violation_count r4 <=
     BusinessValidator.violation_count r3).
Proof.
  intros Hinit Hp.
  destruct (standard_rules_of u c self Hinit) as (_ & _ & H3 & H4).
  destruct (validate_rule_counts self df
              (BusinessValidator.premium_not_zero u)
              (filter (premium_null_or_not_positive df) (rows df)))
    as (r3 & Hr3 & _ & Hs3 & Hc3).
  { intros col [<-|[]]. apply Hp. }
  { apply distinct_NoDup. reflexivity. }
  { exact (premium_not_zero_returns u df Hp). }
  destruct (validate_rule_counts self df
              (BusinessValidator.premium_exceeds_minimum u c)
              (filter (premium_below (BusinessValidator.get_min_premium c) df)
                 (rows df)))
    as (r4 & Hr4 & _ & Hs4 & Hc4).
  { intros col [<-|[]]. apply Hp. }
  { apply distinct_NoDup. reflexivity. }
  { exact (premium_minimum_returns u c df Hp). }
  exists r3, r4. repeat (split; [assumption|]).
  intros Hmin. rewrite Hc3, Hc4. apply inj_le.
  apply filter_length_monotone. intros row _.
  unfold premium_below, premium_null_or_not_positive.
  destruct (cell_of "MonthlyPremium" df row); try discriminate;
    rewrite Qltb_lt, Qle_bool_iff; intros Hlt; lra.
Qed.

Lemma premium_rules_count_witness :
  BusinessValidator.init nothing_else no_config = Ok standard_validator /\
  column_of is_numeric_cell "MonthlyPremium" policies /\
  count_rows (premium_null_or_not_positive policies) policies = 3 /\
  count_rows (premium_below 0 policies) policies = 1 /\
  exists r3 r4,
    BusinessValidator._validate_rule standard_validator policies
      (BusinessValidator.premium_not_zero nothing_else) = Ok r3 /\
    BusinessValidator._validate_rule standard_validator policies
      (BusinessValidator.premium_exceeds_minimum nothing_else no_config) =
      Ok r4 /\
    BusinessValidator.violation_count r3 = 3 /\
    BusinessValidator.violation_count r4 = 1.
Proof.
  assert (Hp : column_of is_numeric_cell "MonthlyPremium" policies).
  { split; [simpl; auto|].
    intros row [<-|[<-|[<-|[<-|[]]]]]; reflexivity. }
  split; [reflexivity|]. split; [exact Hp|].
  split; [reflexivity|]. split; [reflexivity|].
  destruct (premium_rules_count nothing_else no_config standard_validator
              policies eq_refl Hp)
    as (r3 & r4 & _ & _ & Hr3 & Hr4 & _ & _ & Hc3 & Hc4 & _).
  exists r3, r4. auto.
Defined.

(** ** [get_invalid_records] against [validate_data] *)

Section InvalidRecords.
Variable u : BusinessValidator.rest.
Variable df : DataFrame.
Variable include_warnings : bool.

Lemma loop_step_apply (rule : BusinessValidator.ValidationRule)
  (rest : list BusinessValidator.ValidationRule)
  (records : option DataFrame) (kept : list (list value)) :
  negb include_warnings &&
  BusinessValidator.is_WARNING (BusinessValidator.severity rule) = false ->
  BusinessValidator.validation_func rule df (BusinessValidator.columns rule) =
    Ok (mkFrame (names df) kept) ->
  (forall r, records = Some r -> names r = names df) ->
  BusinessValidator.invalid_records_loop u df include_warnings
    (rule :: rest) records =
  BusinessValidator.invalid_records_loop u df include_warnings rest
    (Some (mkFrame (names df)
             (match records with
              | Some r => rows r ++ kept
              | None => kept
              end))).
Proof.
  intros Hw Hf Hn. cbn [BusinessValidator.invalid_records_loop].
  rewrite Hw, Hf. cbn [bind]. destruct records as [r|]; [|reflexivity].
  unfold concat. cbn [names rows]. rewrite (Hn r eq_refl).
  destruct (list_eq_dec string_dec (names df) (names df)); [|congruence].
  reflexivity.
Qed.

Lemma loop_step_skip (rule : BusinessValidator.ValidationRule)
  (rest : list BusinessValidator.ValidationRule)
  (records : option DataFrame) :
  negb include_warnings &&
  BusinessValidator.is_WARNING (BusinessValidator.severity rule) = true ->
  BusinessValidator.invalid_records_loop u df include_warnings
    (rule :: rest) records =
  BusinessValidator.invalid_records_loop u df include_warnings rest records.
Proof.
  intros Hw. cbn [BusinessValidator.invalid_records_loop]. rewrite Hw.
  reflexivity.
Qed.

Lemma loop_step_raise (rule : BusinessValidator.ValidationRule)
  (rest : list BusinessValidator.ValidationRule)
  (records : option DataFrame) (e : exn) :
  negb include_warnings &&
  BusinessValidator.is_WARNING (BusinessValidator.severity rule) = false ->
  BusinessValidator.validation_func rule df (BusinessValidator.columns rule) =
    Raise e ->
  BusinessValidator.invalid_records_loop u df include_warnings
    (rule :: rest) records = Raise e.
Proof.
  intros Hw Hf. cbn [BusinessValidator.invalid_records_loop].
  rewrite Hw, Hf. reflexivity.
Qed.

End InvalidRecords.

Lemma sum_of_four (p : BusinessValidator.rule_result -> bool)
  (r1 r2 r3 r4 : BusinessValidator.rule_result) :
  0 <= BusinessValidator.violation_count r1 ->
  0 <= BusinessValidator.violation_count r2 ->
  0 <= BusinessValidator.violation_count r3 ->
  0 <= BusinessValidator.violation_count r4 ->
  BusinessValidator.sum_violation_count
    (filter (fun r => p r && (0 <? BusinessValidator.violation_count r))
       [r1; r2; r3; r4]) =
  (if p r1 then BusinessValidator.violation_count r1 else 0) +
  (if p r2 then BusinessValidator.violation_count r2 else 0) +
  (if p r3 then BusinessValidator.violation_count r3 else 0) +
  (if p r4 then BusinessValidator.violation_count r4 else 0).
Proof.
  intros H1 H2 H3 H4. cbn [filter].
  destruct (p r1), (p r2), (p r3), (p r4);
    destruct (Z.ltb_spec 0 (BusinessValidator.violation_count r1));
    destruct (Z.ltb_spec 0 (BusinessValidator.violation_count r2));
    destruct (Z.ltb_spec 0 (BusinessValidator.violation_count r3));
    destruct (Z.ltb_spec 0 (BusinessValidator.violation_count r4));
    cbn [andb BusinessValidator.sum_violation_count map fold_right]; lia.
Qed.

(** X15: the records [get_invalid_records] returns are the violations
    [validate_data] counts.  For a validator without custom rules on a
    table with the three policy columns, [validate_data] reports as
    errors the rows without start date, plus the rows ending after their
    start, plus the rows whose premium is null or not above zero, and as
    warnings the rows whose premium is below the minimum;
    [get_invalid_records] returns these rows of the table, one copy per
    rule a row violates: as many rows as [error_count], or as
    [error_count + warning_count] with [include_warnings]. *)
Theorem invalid_records_match_the_counts (u : BusinessValidator.rest)
  (c : BusinessValidator.config) (self : BusinessValidator.t)
  (df : DataFrame) :
  BusinessValidator.custom_rules c = [] ->
  BusinessValidator.init u c = Ok self ->
  policy_columns df ->
  exists v errors every,
    BusinessValidator.validate_data u self df = Ok v /\
    BusinessValidator.get_invalid_records u self df false = Ok errors /\
    BusinessValidator.get_invalid_records u self df true = Ok every /\
    BusinessValidator.error_count v =
      count_rows (start_is_null df) df +
      count_rows (ends_after_start df) df +
      count_rows (premium_null_or_not_positive df) df /\
    BusinessValidator.warning_count v =
      count_rows (premium_below (BusinessValidator.get_min_premium c) df)
        df /\
    len errors = BusinessValidator.error_count v /\
    len every =
      BusinessValidator.error_count v + BusinessValidator.warning_count v /\
    names errors = names df /\
    names every = names df /\
    incl (rows errors) (rows every) /\
    incl (rows every) (rows df).
Proof.
  intros Hcustom Hinit (Hs & He & Hp).
  destruct (init_rules u c self Hinit) as [_ [custom [Hrules Hlen]]].
  rewrite Hcustom in Hlen. destruct custom; [|discriminate Hlen].
  cbn [app] in Hrules.
  pose proof (inception_func_returns u df (proj1 Hs)) as Hf1.
  pose proof (cancellation_func_returns u df He Hs) as Hf2.
  pose proof (premium_not_zero_returns u df Hp) as Hf3.
  pose proof (premium_minimum_returns u c df Hp) as Hf4.
  set (f1 := filter (start_is_null df) (rows df)) in *.
  set (f2 := filter (ends_after_start df) (rows df)) in *.
  set (f3 := filter (premium_null_or_not_positive df) (rows df)) in *.
  set (f4 := filter (premium_below (BusinessValidator.get_min_premium c) df)
               (rows df)) in *.
  destruct (validate_rule_counts self df
              (BusinessValidator.inception_date_not_null u) f1)
    as (r1 & Hr1 & _ & Hs1 & Hc1).
  { intros col [<-|[]]. apply Hs. }
  { apply distinct_NoDup. reflexivity. }
  { exact Hf1. }
  destruct (validate_rule_counts self df
              (BusinessValidator.cancellation_after_inception u) f2)
    as (r2 & Hr2 & _ & Hs2 & Hc2).
  { intros col [<-|[<-|[]]]; [apply He|apply Hs]. }
  { apply distinct_NoDup. reflexivity. }
  { exact Hf2. }
  destruct (validate_rule_counts self df
              (BusinessValidator.premium_not_zero u) f3)
    as (r3 & Hr3 & _ & Hs3 & Hc3).
  { intros col [<-|[]]. apply Hp. }
  { apply distinct_NoDup. reflexivity. }
  { exact Hf3. }
  destruct (validate_rule_counts self df
              (BusinessValidator.premium_exceeds_minimum u c) f4)
    as (r4 & Hr4 & _ & Hs4 & Hc4).
  { intros col [<-|[]]. apply Hp. }
  { apply distinct_NoDup. reflexivity. }
  { exact Hf4. }
  cbn in Hs1, Hs2, Hs3, Hs4.
  exists (BusinessValidator.mkValidation [r1; r2; r3; r4]
            (Z.of_nat (List.length f1) + Z.of_nat (List.length f2)
             + Z.of_nat (List.length f3))
            (Z.of_nat (List.length f4))
            (map BusinessValidator.result_rule_name
               (filter (fun r => 0 <? BusinessValidator.violation_count r)
                  [r1; r2; r3; r4]))),
    (mkFrame (names df) ((f1 ++ f2) ++ f3)),
    (mkFrame (names df) (((f1 ++ f2) ++ f3) ++ f4)).
  split; [|split; [|split]].
  - unfold BusinessValidator.validate_data. rewrite Hrules.
    cbn [mapM]. rewrite Hr1, Hr2, Hr3, Hr4. cbn [bind]. f_equal.
    rewrite !sum_of_four by lia.
    rewrite Hs1, Hs2, Hs3, Hs4, Hc1, Hc2, Hc3, Hc4. cbn [String.eqb].
    cbn. f_equal; lia.
  - unfold BusinessValidator.get_invalid_records. rewrite Hrules.
    rewrite (loop_step_apply u df false
               (BusinessValidator.inception_date_not_null u)
               _ None f1 eq_refl Hf1)
      by discriminate.
    rewrite (loop_step_apply u df false
               (BusinessValidator.cancellation_after_inception u)
               _ _ f2 eq_refl Hf2)
      by (intros r Hr; inversion Hr; reflexivity).
    rewrite (loop_step_apply u df false
               (BusinessValidator.premium_not_zero u)
               _ _ f3 eq_refl Hf3)
      by (intros r Hr; inversion Hr; reflexivity).
    rewrite loop_step_skip by reflexivity.
    reflexivity.
  - unfold BusinessValidator.get_invalid_records. rewrite Hrules.
    rewrite (loop_step_apply u df true
               (BusinessValidator.inception_date_not_null u)
               _ None f1 eq_refl Hf1)
      by discriminate.
    rewrite (loop_step_apply u df true
               (BusinessValidator.cancellation_after_inception u)
               _ _ f2 eq_refl Hf2)
      by (intros r Hr; inversion Hr; reflexivity).
    rewrite (loop_step_apply u df true
               (BusinessValidator.premium_not_zero u)
               _ _ f3 eq_refl Hf3)
      by (intros r Hr; inversion Hr; reflexivity).
    rewrite (loop_step_apply u df true
               (BusinessValidator.premium_exceeds_minimum u c)
               _ _ f4 eq_refl Hf4)
      by (intros r Hr; inversion Hr; reflexivity).
    reflexivity.
  - cbn [BusinessValidator.error_count BusinessValidator.warning_count
         names rows].
    unfold count_rows, len. cbn [rows]. fold f1 f2 f3 f4.
    rewrite !length_app.
    split; [reflexivity|]. split; [reflexivity|]. split; [lia|].
    split; [lia|]. split; [reflexivity|]. split; [reflexivity|].
    split.
    + intros row Hrow. apply in_or_app. left. exact Hrow.
    + intros row Hrow. unfold f1, f2, f3, f4 in Hrow.
      rewrite !in_app_iff, !filter_In in Hrow. tauto.
Qed.

Lemma invalid_records_match_the_counts_witness :
  BusinessValidator.custom_rules no_config = [] /\
  BusinessValidator.init nothing_else no_config = Ok standard_validator /\
  policy_columns policies /\
  exists v errors every,
    BusinessValidator.validate_data nothing_else standard_validator
      policies = Ok v /\
    BusinessValidator.get_invalid_records nothing_else standard_validator
      policies false = Ok errors /\
    BusinessValidator.get_invalid_records nothing_else standard_validator
      policies true = Ok every /\
    BusinessValidator.error_count v = 5 /\
    BusinessValidator.warning_count v = 1 /\
    len errors = 5 /\
    len every = 6.
Proof.
  assert (Hcols : policy_columns policies).
  { repeat split; try (simpl; tauto);
      intros row [<-|[<-|[<-|[<-|[]]]]]; reflexivity. }
  split; [reflexivity|]. split; [reflexivity|]. split; [exact Hcols|].
  destruct (invalid_records_match_the_counts nothing_else no_config
              standard_validator policies eq_refl eq_refl Hcols)
    as (v & errors & every & Hv & Herr & Hevery & He & Hw & Hle & Hla & _).
  exists v, errors, every.
  split; [exact Hv|]. split; [exact Herr|]. split; [exact Hevery|].
  split; [exact He|]. split; [exact Hw|].
  split; [rewrite Hle; exact He|].
  rewrite Hla, He, Hw. reflexivity.
Defined.

Lemma cancellation_func_shape (u : BusinessValidator.rest) (df : DataFrame) :
  In "CoverEndDate" (names df) ->
  In "CoverStartDate" (names df) ->
  (exists e,
      BusinessValidator.cancellation_after_inception_func u df
        ["CoverEndDate"; "CoverStartDate"] = Raise e) \/
  (exists kept,
      BusinessValidator.cancellation_after_inception_func u df
        ["CoverEndDate"; "CoverStartDate"] = Ok (mkFrame (names df) kept)).
Proof.
  intros He Hs.
  destruct (index_of_In _ _ He) as [ie Hie].
  destruct (index_of_In _ _ Hs) as [i_s His].
  unfold BusinessValidator.cancellation_after_inception_func, column_index.
  rewrite Hie, His. cbn [bind].
  match goal with
  | |- context [filter_rows ?p df] =>
      destruct (filter_rows p df) as [out|e] eqn:E
  end.
  - right. apply filter_rows_Ok in E. subst out. eauto.
  - left. eauto.
Qed.

(** X16: [get_invalid_records] needs every column of the standard rules.
    Where the table lacks CoverStartDate, CoverEndDate or MonthlyPremium,
    the frame it returns cannot be collected, with or without warnings,
    whereas [validate_data] gives such a rule a violation count of 0. *)
Theorem invalid_records_need_every_column (u : BusinessValidator.rest)
  (c : BusinessValidator.config) (self : BusinessValidator.t)
  (df : DataFrame) (include_warnings : bool) (column : string) :
  BusinessValidator.init u c = Ok self ->
  In column ["CoverStartDate"; "CoverEndDate"; "MonthlyPremium"] ->
  ~ In column (names df) ->
  exists e,
    BusinessValidator.get_invalid_records u self df include_warnings =
    Raise e.
Proof.
  intros Hinit Hcol Hmiss.
  destruct (init_rules u c self Hinit) as [_ [custom [Hrules _]]].
  unfold BusinessValidator.get_invalid_records. rewrite Hrules.
  cbn [app].
  assert (Hw : negb include_warnings && false = false)
    by apply andb_false_r.
  destruct (in_dec string_dec "CoverStartDate" (names df)) as [Hs|Hs].
  2:{ eexists.
      rewrite (loop_step_raise u df include_warnings
                 (BusinessValidator.inception_date_not_null u) _ None
                 (ColumnNotFoundError "CoverStartDate") Hw);
        [reflexivity|].
      cbn. rewrite (column_index_missing _ _ Hs). reflexivity. }
  rewrite (loop_step_apply u df include_warnings
             (BusinessValidator.inception_date_not_null u) _ None _ Hw
             (inception_func_returns u df Hs)) by discriminate.
  destruct (in_dec string_dec "CoverEndDate" (names df)) as [He|He].
  2:{ eexists.
      rewrite (loop_step_raise u df include_warnings
                 (BusinessValidator.cancellation_after_inception u) _ _
                 (ColumnNotFoundError "CoverEndDate") Hw);
        [reflexivity|].
      cbn. rewrite (column_index_missing _ _ He). reflexivity. }
  destruct (cancellation_func_shape u df He Hs) as [[e Hf2]|[kept Hf2]].
  { exists e.
    rewrite (loop_step_raise u df include_warnings
               (BusinessValidator.cancellation_after_inception u) _ _ e Hw
               Hf2).
    reflexivity. }
  rewrite (loop_step_apply u df include_warnings
             (BusinessValidator.cancellation_after_inception u) _ _ kept Hw
             Hf2) by (intros r Hr; inversion Hr; reflexivity).
  assert (Hp : ~ In "MonthlyPremium" (names df)).
  { destruct Hcol as [<-|[<-|[<-|[]]]]; [contradiction|contradiction|].
    exact Hmiss. }
  eexists.
  rewrite (loop_step_raise u df include_warnings
             (BusinessValidator.premium_not_zero u) _ _
             (ColumnNotFoundError "MonthlyPremium") Hw);
    [reflexivity|].
  cbn. rewrite (column_index_missing _ _ Hp). reflexivity.
Qed.

Lemma invalid_records_need_every_column_witness :
  BusinessValidator.init nothing_else no_config = Ok standard_validator /\
  In "MonthlyPremium" ["CoverStartDate"; "CoverEndDate"; "MonthlyPremium"] /\
  ~ In "MonthlyPremium" (names (int_frame "id" [1; 2; 3])) /\
  exists e,
    BusinessValidator.get_invalid_records nothing_else standard_validator
      (int_frame "id" [1; 2; 3]) false = Raise e.
Proof.
  assert (Hin : In "MonthlyPremium"
                  ["CoverStartDate"; "CoverEndDate"; "MonthlyPremium"])
    by (simpl; auto).
  assert (Hmiss : ~ In "MonthlyPremium" (names (int_frame "id" [1; 2; 3])))
    by (intros [H|[]]; discriminate).
  split; [reflexivity|]. split; [exact Hin|]. split; [exact Hmiss|].
  exact (invalid_records_need_every_column nothing_else no_config
           standard_validator (int_frame "id" [1; 2; 3]) false
           "MonthlyPremium" eq_refl Hin Hmiss).
Defined.

(** * Key lists the constructor accepts and validation refuses *)

Lemma validate_returns_true (self : DataComparison.t) (df : DataFrame)
  (label : string) (b : bool) :
  DataComparison.validate_primary_keys self df label = Ok b -> b = true.
Proof.
  unfold DataComparison.validate_primary_keys.
  destruct (filter _ (DataComparison.primary_keys self)); [|discriminate].
  destruct (select _ df) as [keys|]; [|discriminate]. cbn [bind].
  destruct (group_by_columns_count keys) as [groups|]; [|discriminate].
  cbn [bind]. destruct (0 <? _); [discriminate|].
  intros H. inversion H. reflexivity.
Qed.

(** X17: the constructor takes any key list, but a list that is empty or
    names a column twice can never be used.  No table passes
    [validate_primary_keys] with it, and every call of [compare_datasets]
    raises; on a table that has the key columns the exception is polars'
    own (ComputeError for the group-by without keys, DuplicateError for
    the repeated column), not the ValueError of the class. *)
Theorem malformed_key_list_never_validates (keys : list string)
  (join_type : option string) (chunk_size : option Z) :
  ~ well_formed_keys keys ->
  exists self,
    DataComparison.init
      (DataComparison.mkConfig (Some keys) join_type chunk_size) = Ok self /\
    DataComparison.primary_keys self = keys /\
    (forall df label, ~ validated self df label) /\
    (forall df label,
        missing_keys keys df = [] ->
        DataComparison.validate_primary_keys self df label =
          Raise ComputeError \/
        DataComparison.validate_primary_keys self df label =
          Raise DuplicateError) /\
    (forall current previous,
        exists e,
          DataComparison.compare_datasets self current previous = Raise e).
Proof.
  intros Hbad. eexists. split; [reflexivity|].
  cbn [DataComparison.primary_keys].
  split; [reflexivity|].
  set (self := DataComparison.mk keys _ _).
  assert (Hnv : forall df label, ~ validated self df label).
  { intros df label Hv. apply validated_inv in Hv. apply Hbad. apply Hv. }
  split; [exact Hnv|]. split.
  - intros df label Hm.
    destruct (list_eq_dec string_dec keys []) as [Hnil|Hcons].
    + left. apply validate_no_keys. exact Hnil.
    + right.
      assert (Hd : ~ NoDup keys).
      { intros Hd. apply Hbad. split; [exact Hcons|exact Hd]. }
      unfold DataComparison.validate_primary_keys.
      cbn [DataComparison.primary_keys self].
      fold (missing_keys keys df). rewrite Hm.
      rewrite (select_repeated keys df Hd Hm). reflexivity.
  - intros current previous. unfold DataComparison.compare_datasets.
    destruct (DataComparison.validate_primary_keys self current "current")
      as [b|e] eqn:E; cbn [bind]; [|eauto].
    exfalso. apply (Hnv current "current"). unfold validated.
    rewrite E. f_equal. exact (validate_returns_true _ _ _ _ E).
Qed.

Lemma malformed_key_list_never_validates_witness :
  ~ well_formed_keys ["id"; "id"] /\
  exists self,
    DataComparison.init (DataComparison.mkConfig (Some ["id"; "id"]) None None)
      = Ok self /\
    DataComparison.validate_primary_keys self (int_frame "id" [1; 2; 3])
      "current" = Raise DuplicateError.
Proof.
  assert (Hbad : ~ well_formed_keys ["id"; "id"]).
  { intros [_ H]. inversion H as [|x l Hin _]; subst.
    apply Hin. simpl. auto. }
  split; [exact Hbad|].
  destruct (malformed_key_list_never_validates ["id"; "id"] None None Hbad)
    as (self & Hinit & Hkeys & _).
  exists self. split; [exact Hinit|].
  inversion Hinit. reflexivity.
Defined.

(** * A constant column *)

Lemma insert_sorted_In (a x : Q) (l : list Q) :
  In x (insert_sorted a l) <-> x = a \/ In x l.
Proof.
  induction l as [|y t IH]; simpl.
  - intuition.
  - destruct (Qle_bool a y); simpl; [intuition|]. rewrite IH. intuition.
Qed.

Lemma insert_sorted_length (a : Q) (l : list Q) :
  List.length (insert_sorted a l) = S (List.length l).
Proof.
  induction l as [|y t IH]; simpl; [reflexivity|].
  destruct (Qle_bool a y); simpl; [reflexivity|]. rewrite IH. reflexivity.
Qed.

Lemma sort_In (x : Q) (l : list Q) : In x (sort l) <-> In x l.
Proof.
  induction l as [|a t IH]; simpl; [tauto|].
  rewrite insert_sorted_In, IH. intuition.
Qed.

Lemma sort_length (l : list Q) : List.length (sort l) = List.length l.
Proof.
  induction l as [|a t IH]; simpl; [reflexivity|].
  rewrite insert_sorted_length, IH. reflexivity.
Qed.

(** polars' default interpolation selects one of the values. *)
Lemma nearest_picks_a_value (q : Q) (xs : list Q) :
  (0 <= q <= 1)%Q -> xs <> [] -> In (nearest q xs) xs.
Proof.
  intros [Hq0 Hq1] Hne. unfold nearest.
  set (n := Z.of_nat (List.length xs)).
  assert (Hn : 1 <= n)
    by (unfold n; destruct xs; [congruence|simpl; lia]).
  set (x := (inject_Z (n - 1) * q + (1 # 2))%Q).
  assert (Hm : (0 <= inject_Z (n - 1))%Q).
  { change 0%Q with (inject_Z 0). rewrite <- Zle_Qle. lia. }
  assert (Hx0 : (0 <= x)%Q) by (unfold x; nra).
  assert (Hx1 : (x < inject_Z n)%Q).
  { unfold x. replace n with (n - 1 + 1) at 2 by lia.
    rewrite inject_Z_plus. change (inject_Z 1) with 1%Q. nra. }
  pose proof (Qfloor_le x) as Hfl. pose proof (Qlt_floor x) as Hfu.
  assert (H0 : 0 <= Qfloor x).
  { assert (H : (inject_Z (-1) < inject_Z (Qfloor x))%Q).
    { rewrite inject_Z_plus in Hfu. change (inject_Z 1) with 1%Q in Hfu.
      change (inject_Z (-1)) with (-1)%Q. lra. }
    rewrite <- Zlt_Qlt in H. lia. }
  assert (H1 : Qfloor x < n).
  { rewrite Zlt_Qlt. lra. }
  apply sort_In. apply nth_In. rewrite sort_length. unfold n in H1. lia.
Qed.

Lemma flat_map_nil {A B : Type} (f : A -> list B) (l : list A) :
  (forall x, In x l -> f x = []) -> flat_map f l = [].
Proof.
  induction l as [|a t IH]; intros H; [reflexivity|].
  simpl. rewrite (H a) by (simpl; auto). apply IH.
  intros x Hx. apply H. simpl. auto.
Qed.

Lemma float_lt_irrefl (s : bool) (m : positive) (e : Z) :
  Float64.lt (S754_finite s m e) (S754_finite s m e) = false.
Proof.
  unfold Float64.lt, SFltb, SFcompare.
  rewrite Z.compare_refl, Pos.compare_cont_refl. destruct s; reflexivity.
Qed.

(** With both quartiles at one finite float the IQR is zero, both bounds
    are that float, and it lies on neither side of them. *)
Lemma constant_bounds (x : Float64.float64) :
  Float64.is_finite x = true ->
  Float64.lt
    (Float64.add x (Float64.mul (Float64.of_Q (3 # 2)) (Float64.sub x x)))
    x = false /\
  Float64.lt x
    (Float64.sub x (Float64.mul (Float64.of_Q (3 # 2)) (Float64.sub x x)))
  = false.
Proof.
  destruct x as [s|s| |s m e]; try discriminate; intros _.
  - destruct s; split; reflexivity.
  - assert (Hs : Float64.sub (S754_finite s m e) (S754_finite s m e) =
                 S754_zero false).
    { unfold Float64.sub, SFsub. rewrite Z.min_id, Z.sub_diag.
      reflexivity. }
    rewrite Hs.
    change (Float64.mul (Float64.of_Q (3 # 2)) (S754_zero false))
      with (S754_zero false).
    change (Float64.add (S754_finite s m e) (S754_zero false))
      with (S754_finite s m e).
    change (Float64.sub (S754_finite s m e) (S754_zero false))
      with (S754_finite s m e).
    split; apply float_lt_irrefl.
Qed.

(** X18: a constant column has no outliers.  When every non-null cell of
    a numeric column not named [method] or [direction] is the same
    number, within the range of the floats, both quartiles are that
    number, the IQR is 0 and numeric detection returns a frame without
    rows, for every interpolation rule that selects one of the values (as
    polars' default does) and every percentile threshold that is a
    percentage. *)
Theorem constant_column_has_no_outliers (pick : Q -> list Q -> Q)
  (self : OutlierDetector.t) (df : DataFrame) (column : string)
  (cells : list value) (c0 : value) (x0 : Q) :
  (forall q xs, (0 <= q <= 1)%Q -> xs <> [] -> In (pick q xs) xs) ->
  get_column column df = Ok cells ->
  ~ In column ["method"; "direction"] ->
  as_number c0 = Ok (Some x0) ->
  Float64.is_finite (Float64.of_Q x0) = true ->
  In c0 cells ->
  (forall v, In v cells -> v = PyNone \/ v = c0) ->
  (0 <= OutlierDetector.percentile_threshold self <= 100)%Q ->
  OutlierDetector._detect_numeric_outliers pick self df column =
  Ok (mkFrame [column; "method"; "direction"] []).
Proof.
  intros Hpick Hcol Hname Hc0 Hfin Hin Hconst Hthr.
  assert (Hxs : exists xs,
             mapM as_number cells = Ok xs /\
             (forall x, In x (non_null xs) -> x = x0) /\
             (In c0 cells -> non_null xs <> [])).
  { clear Hcol Hin. induction cells as [|c t IH].
    - exists []. split; [reflexivity|]. split; [intros x []|intros []].
    - destruct IH as [xs [Hm [Hall Hne]]];
        [intros v Hv; apply Hconst; simpl; auto|].
      destruct (Hconst c) as [->| ->]; [simpl; auto| |].
      + exists (None :: xs). simpl. rewrite Hm. split; [reflexivity|].
        split; [exact Hall|]. intros [H|H]; [|exact (Hne H)].
        subst c0. discriminate Hc0.
      + exists (Some x0 :: xs). simpl. rewrite Hc0. cbn [bind].
        rewrite Hm. split; [reflexivity|]. simpl. split.
        * intros x [<-|H]; [reflexivity|exact (Hall x H)].
        * discriminate. }
  destruct Hxs as [xs [Hm [Hall Hne]]]. specialize (Hne Hin).
  destruct (valid_quantiles _ Hthr) as [Hlo Hup].
  unfold OutlierDetector._detect_numeric_outliers.
  rewrite Hcol. cbn [bind]. rewrite Hm. cbn [bind].
  rewrite (quantile_in_range _ _ _ Hup). cbn [bind].
  rewrite (quantile_in_range _ _ _ Hlo). cbn [bind].
  rewrite !quantile_in_range by reflexivity. cbn [bind].
  destruct (non_null xs) as [|v vs] eqn:Ev; [congruence|].
  cbn [float bind]. cbv zeta.
  rewrite (proj2 (mem_false _ _) Hname).
  assert (Hq : forall q, (0 <= q <= 1)%Q -> pick q (v :: vs) = x0).
  { intros q Hq. apply Hall. apply Hpick; [exact Hq|discriminate]. }
  rewrite !Hq by (split; discriminate).
  rewrite flat_map_nil; [reflexivity|].
  intros c Hc. unfold OutlierDetector.outlier_row.
  destruct (Hconst c Hc) as [->| ->]; [reflexivity|].
  rewrite Hc0. cbv zeta.
  destruct (constant_bounds _ Hfin) as [H1 H2].
  rewrite H1, H2. reflexivity.
Qed.

Lemma constant_column_has_no_outliers_witness :
  (forall q xs, (0 <= q <= 1)%Q -> xs <> [] -> In (nearest q xs) xs) /\
  get_column "x" (int_frame "x" [7; 7; 7]) =
    Ok [PyInt 7; PyInt 7; PyInt 7] /\
  ~ In "x" ["method"; "direction"] /\
  as_number (PyInt 7) = Ok (Some (inject_Z 7)) /\
  Float64.is_finite (Float64.of_Q (inject_Z 7)) = true /\
  In (PyInt 7) [PyInt 7; PyInt 7; PyInt 7] /\
  (forall v,
      In v [PyInt 7; PyInt 7; PyInt 7] -> v = PyNone \/ v = PyInt 7) /\
  (0 <= OutlierDetector.percentile_threshold default_detector <= 100)%Q /\
  OutlierDetector._detect_numeric_outliers nearest default_detector
    (int_frame "x" [7; 7; 7]) "x" =
  Ok (mkFrame ["x"; "method"; "direction"] []).
Proof.
  assert (Hname : ~ In "x" ["method"; "direction"])
    by (intros [H|[H|[]]]; discriminate).
  assert (Hin : In (PyInt 7) [PyInt 7; PyInt 7; PyInt 7]) by (simpl; auto).
  assert (Hconst : forall v,
             In v [PyInt 7; PyInt 7; PyInt 7] -> v = PyNone \/ v = PyInt 7)
    by (intros v [<-|[<-|[<-|[]]]]; auto).
  assert (Hthr : (0 <= OutlierDetector.percentile_threshold default_detector
                  <= 100)%Q)
    by (split; discriminate).
  split; [exact nearest_picks_a_value|]. split; [reflexivity|].
  split; [exact Hname|]. split; [reflexivity|]. split; [reflexivity|].
  split; [exact Hin|]. split; [exact Hconst|]. split; [exact Hthr|].
  exact (constant_column_has_no_outliers nearest default_detector
           (int_frame "x" [7; 7; 7]) "x" [PyInt 7; PyInt 7; PyInt 7]
           (PyInt 7) (inject_Z 7) nearest_picks_a_value eq_refl Hname
           eq_refl eq_refl Hin Hconst Hthr).
Defined.
